(** * The weekly trade aggregation pipeline of [scripts/etl.py]

    A shallow embedding of the validation, normalisation, aggregation and
    top-clients reduction of [scripts/etl.py], and the properties of the
    specification that concern them.

    Conventions of the embedding.
    - A pandas table is a header (the column names) and a list of rows; a row
      carries its index label and a finite map from column names to cells.
    - A cell is missing ([NA], standing for NaN, NaT and None alike), a text,
      a number or a timestamp.  A number is the rational that an [int64] or
      a finite [float64] stands for; what pandas computes from numbers (sums,
      means, products) is not computed here but taken from the class
      [Pandas].  Timestamps are nanoseconds since 1970-01-01T00:00, without
      a time zone.
    - A Python exception is the [Err] branch of [Result].
    - What pandas does with text it has to parse or values it has to print,
      its arithmetic and its sort are not modelled: those functions are the
      fields of the class [Pandas]. *)

From Stdlib Require Import ZArith QArith Qcanon String Ascii List DecimalString.
From stdpp Require Import base option list strings gmap numbers sorting.

Local Open Scope Z_scope.

(** ** Text helpers: Python's [str.strip], [str.lower], [str.upper] on ASCII *)

Module Text.

(** The ASCII characters for which Python's [str.isspace] holds. *)
Definition is_space (a : ascii) : bool :=
  let n := nat_of_ascii a in
  ((9 <=? n)%nat && (n <=? 13)%nat) || ((28 <=? n)%nat && (n <=? 32)%nat).

Fixpoint lstrip (s : string) : string :=
  match s with
  | EmptyString => EmptyString
  | String a s' => if is_space a then lstrip s' else s
  end.

Definition rstrip (s : string) : string := String.rev (lstrip (String.rev s)).

Definition strip (s : string) : string := rstrip (lstrip s).

Definition lower_char (a : ascii) : ascii :=
  let n := nat_of_ascii a in
  if ((65 <=? n)%nat && (n <=? 90)%nat) then ascii_of_nat (n + 32) else a.

Definition upper_char (a : ascii) : ascii :=
  let n := nat_of_ascii a in
  if ((97 <=? n)%nat && (n <=? 122)%nat) then ascii_of_nat (n - 32) else a.

Fixpoint map_chars (f : ascii -> ascii) (s : string) : string :=
  match s with
  | EmptyString => EmptyString
  | String a s' => String (f a) (map_chars f s')
  end.

Definition lower : string -> string := map_chars lower_char.
Definition upper : string -> string := map_chars upper_char.

(** Python's [str] of an [int]. *)
Definition of_Z (z : Z) : string := NilZero.string_of_int (Z.to_int z).

(** Python's [str] of a list of [int]s: [[1, 3]]. *)
Definition of_Z_list (l : list Z) : string :=
  "[" +:+ String.concat ", " (of_Z <$> l) +:+ "]".

End Text.

(** ** Calendar: day numbers, weekdays and pandas' weekly periods *)

Module Calendar.

Definition ns_per_day : Z := 86400000000000.

(** Day number (days since 1970-01-01) of a proleptic Gregorian date. *)
Definition days_from_civil (y m d : Z) : Z :=
  let y' := if m <=? 2 then y - 1 else y in
  let era := y' / 400 in
  let yoe := y' - era * 400 in
  let mp := (m + 9) mod 12 in
  let doy := (153 * mp + 2) / 5 + d - 1 in
  let doe := yoe * 365 + yoe / 4 - yoe / 100 + doy in
  era * 146097 + doe - 719468.

(** The date of a day number, as (year, month, day). *)
Definition civil_from_days (z : Z) : Z * Z * Z :=
  let z := z + 719468 in
  let era := z / 146097 in
  let doe := z - era * 146097 in
  let yoe := (doe - doe / 1460 + doe / 36524 - doe / 146096) / 365 in
  let doy := doe - (365 * yoe + yoe / 4 - yoe / 100) in
  let mp := (5 * doy + 2) / 153 in
  let d := doy - (153 * mp + 2) / 5 + 1 in
  let m := if mp <? 10 then mp + 3 else mp - 9 in
  (if m <=? 2 then yoe + era * 400 + 1 else yoe + era * 400, m, d).

(** A timestamp from its date and its time of day. *)
Definition instant (y m d hh mm ss : Z) : Z :=
  (days_from_civil y m d * 86400 + hh * 3600 + mm * 60 + ss) * 1000000000.

(** The day a timestamp falls on, and midnight of a day. *)
Definition date_of (t : Z) : Z := t / ns_per_day.
Definition midnight (day : Z) : Z := day * ns_per_day.

(** Python's [weekday()]: Monday is 0, Sunday is 6.  Day 0 was a Thursday. *)
Definition weekday (day : Z) : Z := (day + 3) mod 7.

Definition MON : Z := 0.
Definition TUE : Z := 1.
Definition SUN : Z := 6.

(** pandas' weekly period of frequency [W-<anchor>]: the seven days that
    END on the weekday [anchor].  [week_end] is the last day of the period
    holding [day], [week_start] its first day. *)
Definition week_end (anchor day : Z) : Z := day + (anchor - weekday day) mod 7.
Definition week_start (anchor day : Z) : Z := week_end anchor day - 6.

(** [Timestamp.to_period(freq).start_time] for a weekly frequency. *)
Definition period_start_time (anchor t : Z) : Z :=
  midnight (week_start anchor (date_of t)).

(** The Monday at or before a day: the ISO week start. *)
Definition monday_on_or_before (day : Z) : Z := day - weekday day.

End Calendar.

(** ** Cells, rows, tables *)

(** What a table holds: a missing value ([NaN], [NaT], [None], [pd.NA]), a
    text of ASCII characters, a finite number (an [int64] or a [float64],
    kept as the rational it stands for) or a timestamp without time zone in
    nanoseconds since 1970. *)
Inductive cell : Type :=
  | NA
  | Str (s : string)
  | Num (q : Qc)
  | Time (t : Z).

Global Instance cell_eq_dec : EqDecision cell.
Proof. solve_decision. Defined.

Definition isna (c : cell) : bool :=
  match c with NA => true | _ => false end.

Abbreviation row := (gmap string cell).

(** [r[c]]: the cell of a row under a column name. *)
Definition get (r : row) (c : string) : cell := default NA (r !! c).

Record DataFrame : Type := mkDataFrame {
  columns : list string;
  rows : list (Z * row)
}.

Global Instance DataFrame_eq_dec : EqDecision DataFrame.
Proof. solve_decision. Defined.

(** The labels of a fresh [RangeIndex]. *)
Definition range_index {A} (l : list A) : list (Z * A) :=
  imap (fun i x => (Z.of_nat i, x)) l.

(** ** Exceptions *)

Inductive exn : Type :=
  | ValueError (msg : string)
  | KeyError (key : string)
  | TypeError
  | FileNotFoundError (path : string).

Global Instance exn_eq_dec : EqDecision exn.
Proof. solve_decision. Defined.

Inductive Result (A : Type) : Type :=
  | Ok (a : A)
  | Err (e : exn).
Global Arguments Ok {A} a.
Global Arguments Err {A} e.

Global Instance Result_ret : MRet Result := fun A a => Ok a.
Global Instance Result_bind : MBind Result := fun A B f m =>
  match m with Ok a => f a | Err e => Err e end.

Definition is_Ok {A} (m : Result A) : Prop :=
  match m with Ok _ => True | Err _ => False end.
Definition is_Err {A} (m : Result A) : Prop :=
  match m with Ok _ => False | Err _ => True end.

Global Instance Result_eq_dec {A} `{EqDecision A} : EqDecision (Result A).
Proof. solve_decision. Defined.

Global Instance Result_fmap : FMap Result := fun A B f m =>
  match m with Ok a => Ok (f a) | Err e => Err e end.

(** ** The part of pandas that is taken as given *)

Class Pandas : Type := {
  (** [pd.to_datetime(_, errors="coerce")] on a cell that is not a timestamp
      (a text, or a number): the instant, or nothing when it cannot be read. *)
  parse_datetime : cell -> option Z;
  (** [pd.to_numeric(_, errors="coerce")] on a cell that is not a number. *)
  parse_numeric : cell -> option Qc;
  (** The text pandas prints for a cell that is not a text. *)
  render : cell -> string;
  (** [pd.Timestamp.utcnow().tz_localize(None)]. *)
  utcnow : Z;
  (** The sum and the mean that [groupby] computes in a column for the
      numbers of one group, taken in the order of the rows, and the product
      of two numbers: the arithmetic of the dtype, [int64] with its
      wrap-around or [float64] with its rounding.  The cells do not record
      the dtype; it goes with the column, which is the first argument. *)
  sum_numbers : string -> list Qc -> Qc;
  mean_numbers : string -> list Qc -> Qc;
  mul_numbers : Qc -> Qc -> Qc;
  (** The [argsort] behind [sort_values(ascending=False)] with the default
      [kind="quicksort"]: the positions of the values of the column in the
      order of the sorted column.  The sort is not stable. *)
  argsort_desc : list cell -> list nat
}.

Section Cells.
Context `{Pandas}.

Definition to_datetime (c : cell) : cell :=
  match c with
  | NA => NA
  | Time t => Time t
  | _ => from_option Time NA (parse_datetime c)
  end.

Definition to_numeric (c : cell) : cell :=
  match c with
  | NA => NA
  | Num q => Num q
  | _ => from_option Num NA (parse_numeric c)
  end.

(** [astype(str)]: every cell becomes a Python string. *)
Definition astype_str (c : cell) : string :=
  match c with
  | Str s => s
  | _ => render c
  end.

(** [astype("string")]: the nullable string dtype keeps missing values. *)
Definition astype_string (c : cell) : cell :=
  match c with
  | NA => NA
  | Str s => Str s
  | _ => Str (render c)
  end.

End Cells.

(** The [.str] accessors on a nullable string column. *)
Definition str_map (f : string -> string) (c : cell) : cell :=
  match c with
  | Str s => Str (f s)
  | _ => NA
  end.

(** [Series.isin(values)] for a set of texts. *)
Definition isin (values : list string) (c : cell) : bool :=
  match c with
  | Str s => bool_decide (s ∈ values)
  | _ => false
  end.

(** ** Table operations *)

(** [df[c]] raises [KeyError] when the table has no column [c]. *)
Definition require (df : DataFrame) (c : string) : Result unit :=
  if decide (c ∈ columns df) then Ok tt else Err (KeyError c).

(** [df[c] = f(row)]: assign a column cell by cell; a new name is appended to
    the header. *)
Definition assign (c : string) (f : row -> cell) (df : DataFrame) : DataFrame :=
  {| columns := if decide (c ∈ columns df) then columns df else columns df ++ [c];
     rows := (fun ir : Z * row => (ir.1, <[c := f ir.2]> ir.2)) <$> rows df |}.

(** [df[mask]]: keep the rows on which the mask holds, labels included. *)
Definition select (mask : row -> bool) (df : DataFrame) : DataFrame :=
  {| columns := columns df;
     rows := filter (fun ir : Z * row => mask ir.2 = true) (rows df) |}.

(** [df.loc[mask, cols]]: the rows on which the mask holds, cut down to the
    listed columns. *)
Definition loc (mask : row -> bool) (cols : list string) (df : DataFrame) : DataFrame :=
  {| columns := cols;
     rows := (fun ir : Z * row =>
                (ir.1, filter (fun kv : string * cell => kv.1 ∈ cols) ir.2))
             <$> filter (fun ir : Z * row => mask ir.2 = true) (rows df) |}.

(** [mask.any()]. *)
Definition any (mask : row -> bool) (df : DataFrame) : bool :=
  existsb (fun ir : Z * row => mask ir.2) (rows df).

(** [pd.DataFrame({c: values})]. *)
Definition single_column (c : string) (values : list cell) : DataFrame :=
  {| columns := [c];
     rows := range_index ((fun v => ({[ c := v ]} : row)) <$> values) |}.

(** ** Formats validation: [validate_formats] *)

Definition req : list string :=
  ["timestamp"; "user_id"; "client_type"; "symbol"; "side"; "quantity"; "price"]%string.

Definition allowed_side : list string := ["buy"; "sell"]%string.
Definition allowed_client : list string := ["gold"; "silver"; "bronze"]%string.

(** [report[k] = df.loc[mask, req]] under [if mask.any()]. *)
Definition flag (k : string) (mask : row -> bool) (df : DataFrame)
    (report : gmap string DataFrame) : gmap string DataFrame :=
  if any mask df then <[k := loc mask req df]> report else report.

(** [q <= 0] and [q % 1 != 0] on a coerced number. *)
Definition non_positive (c : cell) : bool :=
  match c with Num q => bool_decide (q ≤ 0)%Qc | _ => false end.
Definition non_integer (c : cell) : bool :=
  match c with Num q => negb (Pos.eqb (Qden (this q)) 1) | _ => false end.

Section Validation.
Context `{Pandas}.

Definition bad_ts (r : row) : bool := isna (to_datetime (get r "timestamp")).

Definition fut (r : row) : bool :=
  negb (bad_ts r) &&
  match to_datetime (get r "timestamp") with
  | Time t => bool_decide (utcnow < t)
  | _ => false
  end.

Definition bad_qty (r : row) : bool :=
  let qty := to_numeric (get r "quantity") in
  isna qty || non_positive qty || non_integer qty.

Definition bad_price (r : row) : bool :=
  let price := to_numeric (get r "price") in
  isna price || non_positive price.

Definition bad_side (r : row) : bool :=
  negb (bool_decide
          (Text.lower (Text.strip (astype_str (get r "side"))) ∈ allowed_side)).

Definition bad_client (r : row) : bool :=
  negb (bool_decide
          (Text.lower (Text.strip (astype_str (get r "client_type"))) ∈ allowed_client)).

Definition validate_formats (df : DataFrame) (forbid_future_ts : bool)
    : gmap string DataFrame :=
  let miss := filter (fun c => c ∉ columns df) req in
  if decide (miss = []) then
    let report := flag "invalid_timestamp_format" bad_ts df ∅ in
    let report :=
      if forbid_future_ts then flag "timestamp_in_future" fut df report
      else report in
    let report := flag "invalid_quantity" bad_qty df report in
    let report := flag "invalid_price" bad_price df report in
    let report := flag "invalid_side" bad_side df report in
    let report := flag "invalid_client_type" bad_client df report in
    report
  else
    {[ "missing_columns"%string := single_column "missing" (Str <$> miss) ]}.

End Validation.

(** ** Helpers: [handle_null_timestamps], [to_week_start_monday] *)

Section Helpers.
Context `{Pandas}.

(** [df["timestamp"].isna() | (df["timestamp"].astype(str).str.strip() == "")] *)
Definition empties (r : row) : bool :=
  let ts := get r "timestamp" in
  isna ts || bool_decide (Text.strip (astype_str ts) = ""%string).

Definition handle_null_timestamps (df : DataFrame) (mode : string)
    : Result DataFrame :=
  if decide ("timestamp"%string ∈ columns df) then
    if any empties df then
      if decide (mode = "error"%string) then
        let idx := take 5 (fst <$> rows (select empties df)) in
        Err (ValueError ("Found NULL/empty timestamps at rows: "
                         +:+ Text.of_Z_list idx +:+ " ..."))
      else if decide (mode = "drop"%string) then
        Ok (select (fun r => negb (empties r)) df)
      else
        Err (ValueError ("Unknown mode: " +:+ mode))
    else Ok df
  else Err (ValueError "Column 'timestamp' not found").

(** [pd.to_datetime(ts, errors='coerce').dt.to_period('W-MON').dt.start_time]:
    the frequency [W-MON] names the weeks that end on a Monday. *)
Definition to_week_start_monday (ts : cell) : cell :=
  match to_datetime ts with
  | Time t => Time (Calendar.period_start_time Calendar.MON t)
  | _ => NA
  end.

End Helpers.

(** ** Files *)

(** The file system maps a path to the table [pd.read_csv] reads from the
    file at that path; writing a table with [to_csv] stores it under its
    path. *)
Abbreviation FileSystem := (gmap string DataFrame).

(** [pd.read_csv(path, parse_dates=['timestamp'])]: the column named in
    [parse_dates] has to be in the header as it is written in the file. *)
Definition read_csv (fs : FileSystem) (path : string) : Result DataFrame :=
  match fs !! path with
  | Some df =>
      if decide ("timestamp"%string ∈ columns df) then Ok df
      else Err (ValueError "Missing column provided to 'parse_dates': 'timestamp'")
  | None => Err (FileNotFoundError path)
  end.

(** [df.columns = [f(c) for c in df.columns]]. *)
Definition rename_columns (f : string -> string) (df : DataFrame) : DataFrame :=
  {| columns := f <$> columns df;
     rows := (fun ir : Z * row => (ir.1, kmap (M2 := gmap string) f ir.2)) <$> rows df |}.

(** ** ETL core: [extract] *)

Definition extract (fs : FileSystem) (path : string) : Result DataFrame :=
  df ← read_csv fs "data/trades.csv";
  Ok (rename_columns (fun c => Text.lower (Text.strip c)) df).

(** ** Ordering of cells and of group keys *)

(** pandas lists the groups of a [groupby] in ascending key order, missing
    keys last.  Numbers, timestamps and texts are ordered among themselves;
    across kinds the order is the fixed one below. *)
Definition cell_rank (c : cell) : nat :=
  match c with Num _ => 0 | Time _ => 1 | Str _ => 2 | NA => 3 end%nat.

Definition cell_le (c1 c2 : cell) : Prop :=
  match c1, c2 with
  | Num a, Num b => (a ≤ b)%Qc
  | Time a, Time b => (a ≤ b)%Z
  | Str a, Str b => String.le a b
  | _, _ => (cell_rank c1 ≤ cell_rank c2)%nat
  end.

Global Instance cell_le_dec : RelDecision cell_le.
Proof. intros [] []; simpl; apply _. Defined.

(** Keys of several columns compare like Python tuples. *)
Fixpoint key_le (k1 k2 : list cell) : Prop :=
  match k1, k2 with
  | [], _ => True
  | _ :: _, [] => False
  | x :: k1', y :: k2' => if decide (x = y) then key_le k1' k2' else cell_le x y
  end.

Global Instance key_le_dec : RelDecision key_le.
Proof.
  intros k1. induction k1 as [|x k1 IH]; intros [|y k2]; simpl; try apply _.
  destruct (decide (x = y)); [apply IH | apply _].
Defined.

(** ** [groupby] and its aggregations *)

Definition key_of (by_cols : list string) (r : row) : list cell :=
  get r <$> by_cols.

Definition has_na (k : list cell) : bool := existsb isna k.

(** The keys of [groupby(by_cols, sort=True, dropna=dropna)], in the order in
    which the groups are listed. *)
Definition group_keys (by_cols : list string) (dropna : bool)
    (rs : list (Z * row)) : list (list cell) :=
  merge_sort key_le
    (remove_dups
       (filter (fun k => (dropna && has_na k) = false)
               ((fun ir : Z * row => key_of by_cols ir.2) <$> rs))).

(** The rows of one group, in table order. *)
Definition group_rows (by_cols : list string) (k : list cell)
    (rs : list (Z * row)) : list row :=
  filter (fun r => key_of by_cols r = k) (snd <$> rs).

(** The numbers of a column, missing values skipped; any other kind of cell
    cannot be added up. *)
Fixpoint numerics (cs : list cell) : Result (list Qc) :=
  match cs with
  | [] => Ok []
  | NA :: cs' => numerics cs'
  | Num q :: cs' => qs ← numerics cs'; Ok (q :: qs)
  | _ :: _ => Err TypeError
  end.

(** ["sum"], ["mean"] and ["size"] of one group: the sum and the mean skip
    the missing values, the mean of no number is missing, the size counts
    every row. *)
Definition agg_sum `{Pandas} (c : string) (g : list row) : Result cell :=
  qs ← numerics ((fun r => get r c) <$> g);
  Ok (Num (sum_numbers c qs)).

Definition agg_mean `{Pandas} (c : string) (g : list row) : Result cell :=
  qs ← numerics ((fun r => get r c) <$> g);
  Ok (match qs with
      | [] => NA
      | _ => Num (mean_numbers c qs)
      end).

Definition agg_size (g : list row) : cell :=
  Num (Qc_of_Z (Z.of_nat (length g))).

(** The index levels of a group, back as columns ([reset_index]). *)
Definition key_row (by_cols : list string) (k : list cell) : row :=
  list_to_map (zip by_cols k).

(** [sort_values(c, ascending=False)]: the rows in the order of the
    [argsort] of the column. *)
Definition sort_values_desc `{Pandas} (c : string) (l : list row) : list row :=
  omap (fun i => l !! i) (argsort_desc ((fun r => get r c) <$> l)).

(** ** ETL core: [transform] *)

Definition group_cols : list string :=
  ["week_start_date"; "client_type"; "user_id"; "symbol"]%string.

Definition agg_columns : list string :=
  group_cols ++ ["total_volume"; "trade_count"; "price"]%string.

Section Aggregation.
Context `{Pandas}.

(** The product of two numeric cells; a missing operand gives a missing
    product. *)
Definition cell_mul (c1 c2 : cell) : cell :=
  match c1, c2 with
  | Num a, Num b => Num (mul_numbers a b)
  | _, _ => NA
  end.

(** [r["price"] * r["quantity"] * (1 if r["side"] == "sell" else -1)].  On a
    missing side, which is [pd.NA] after [astype("string")], the comparison
    gives [pd.NA], and taking its truth value raises [TypeError]; any other
    side that is not the text "sell" is not equal to "sell". *)
Definition cashflow (r : row) : Result cell :=
  let amount := cell_mul (get r "price") (get r "quantity") in
  match get r "side" with
  | NA => Err TypeError
  | side =>
      Ok (cell_mul amount
            (Num (if bool_decide (side = Str "sell") then 1 else -1)%Qc))
  end.

(** One row of [groupby(group_cols, dropna=False).agg(agg_dict)], renamed. *)
Definition weekly_row (rs : list (Z * row)) (k : list cell) : Result row :=
  let g := group_rows group_cols k rs in
  total_volume ← agg_sum "quantity" g;
  price ← agg_mean "price" g;
  Ok (<["price" := price]>
      (<["trade_count" := agg_size g]>
       (<["total_volume" := total_volume]> (key_row group_cols k)))).

(** One row of [groupby(group_cols)["cashflow"].sum()]. *)
Definition pnl_row (rs : list (Z * row)) (k : list cell)
    : Result (list cell * cell) :=
  s ← agg_sum "cashflow" (group_rows group_cols k rs);
  Ok (k, s).

End Aggregation.

(** [agg.merge(pnl, on=group_cols, how="left")]: the keys of [pnl] are
    distinct, so every row of [agg] meets at most one row of [pnl]. *)
Definition merge_pnl (pnl : list (list cell * cell)) (r : row) : row :=
  <["total_pnl" :=
      from_option (fun found : nat * (list cell * cell) => found.2.2) NA
        (list_find (fun kv : list cell * cell => kv.1 = key_of group_cols r) pnl)]> r.

Section Transform.
Context `{Pandas}.

(** Lines 88 to 106: null timestamps, coercions, filters, week start. *)
Definition normalize (df : DataFrame) (null_ts_mode : string)
    : Result DataFrame :=
  df ← handle_null_timestamps df null_ts_mode;
  let df := assign "timestamp" (fun r => to_datetime (get r "timestamp")) df in
  _ ← require df "client_type";
  let df := assign "client_type"
    (fun r => str_map Text.strip
                (str_map Text.lower (astype_string (get r "client_type")))) df in
  _ ← require df "symbol";
  let df := assign "symbol"
    (fun r => str_map Text.strip
                (str_map Text.upper (astype_string (get r "symbol")))) df in
  _ ← require df "side";
  let df := assign "side"
    (fun r => str_map Text.strip
                (str_map Text.lower (astype_string (get r "side")))) df in
  _ ← require df "quantity";
  let df := assign "quantity" (fun r => to_numeric (get r "quantity")) df in
  _ ← require df "price";
  let df := assign "price" (fun r => to_numeric (get r "price")) df in
  let df := select (fun r => negb (isna (get r "timestamp"))
                             && negb (isna (get r "quantity"))
                             && negb (isna (get r "price"))) df in
  let df := select (fun r => isin allowed_client (get r "client_type")) df in
  Ok (assign "week_start_date"
        (fun r => to_week_start_monday (get r "timestamp")) df).

End Transform.

(** Lines 109 to 113: [df.apply(.., axis=1)] goes through the rows in their
    order and stops at the first row that raises. *)
Definition add_cashflow `{Pandas} (include_pnl : bool) (df : DataFrame)
    : Result DataFrame :=
  if include_pnl then
    flows ← mapM (fun ir : Z * row =>
                    c ← cashflow ir.2; Ok (ir.1, <["cashflow" := c]> ir.2))
                 (rows df);
    Ok {| columns := if decide ("cashflow"%string ∈ columns df)
                     then columns df else columns df ++ ["cashflow"%string];
          rows := flows |}
  else Ok df.

(** The columns named by [agg_dict]. *)
Definition agg_inputs : list string := ["quantity"; "symbol"; "price"]%string.

(** Lines 116 to 130. *)
Definition aggregate `{Pandas} (df : DataFrame) (include_pnl : bool)
    : Result DataFrame :=
  _ ← mapM (require df) group_cols;
  _ ← mapM (require df) agg_inputs;
  agg ← mapM (weekly_row (rows df)) (group_keys group_cols false (rows df));
  if include_pnl && bool_decide ("cashflow"%string ∈ columns df) then
    pnl ← mapM (pnl_row (rows df)) (group_keys group_cols true (rows df));
    Ok {| columns := agg_columns ++ ["total_pnl"%string];
          rows := range_index (merge_pnl pnl <$> agg) |}
  else
    Ok {| columns := agg_columns; rows := range_index agg |}.

Definition transform `{Pandas} (df : DataFrame) (include_pnl : bool)
    (null_ts_mode : string) : Result DataFrame :=
  let _ := validate_formats df true in
  df ← normalize df null_ts_mode;
  df ← add_cashflow include_pnl df;
  aggregate df include_pnl.

(** ** Reporting: [export_top_bronze_exact] *)

(** Python's [repr] of a list of plain texts: [['a', 'b']]. *)
Definition repr_names (l : list string) : string :=
  "[" +:+ String.concat ", " ((fun s => "'" +:+ s +:+ "'") <$> l) +:+ "]".

(** One row of [groupby("user_id").agg(total_volume=.., total_pnl=..)]. *)
Definition client_row `{Pandas} (rs : list (Z * row)) (k : list cell)
    : Result row :=
  let g := group_rows ["user_id"%string] k rs in
  total_volume ← agg_sum "total_volume" g;
  total_pnl ← agg_sum "total_pnl" g;
  Ok (<["total_pnl" := total_pnl]>
      (<["total_volume" := total_volume]> (key_row ["user_id"%string] k))).

Definition is_bronze (r : row) : bool :=
  bool_decide (get r "client_type" = Str "bronze").

(** [agg_df[agg_df["client_type"] == "bronze"].groupby("user_id").agg(..)]:
    one row per bronze user, in the order in which [groupby] lists them. *)
Definition client_groups `{Pandas} (agg_df : DataFrame) : Result (list row) :=
  _ ← require agg_df "client_type";
  let bronze := select is_bronze agg_df in
  _ ← require bronze "user_id";
  let missing := filter (fun c => c ∉ columns bronze)
                        ["total_pnl"; "total_volume"]%string in
  if decide (missing = []) then
    mapM (client_row (rows bronze))
         (group_keys ["user_id"%string] true (rows bronze))
  else
    Err (KeyError ("Column(s) " +:+ repr_names missing +:+ " do not exist")).

(** The table that is written: the index [user_id] is its first column, as
    [to_csv(index=True)] lays it out; the row labels are the ranks. *)
Definition top_bronze_clients `{Pandas} (agg_df : DataFrame) : Result DataFrame :=
  groups ← client_groups agg_df;
  Ok {| columns := ["user_id"; "total_volume"; "total_pnl"]%string;
        rows := range_index (take 3 (sort_values_desc "total_volume" groups)) |}.

Definition export_top_bronze_exact `{Pandas} (agg_df : DataFrame)
    (out_csv : string) (fs : FileSystem) : Result FileSystem :=
  top_clients ← top_bronze_clients agg_df;
  Ok (<[out_csv := top_clients]> fs).

(** ** Loading: [load] *)

(** A table of a database: [to_sql(index=False)] writes the columns of the
    header row by row, without the labels. *)
Record SqlTable := { sql_columns : list string; sql_rows : list row }.

Global Instance SqlTable_eq_dec : EqDecision SqlTable.
Proof. solve_decision. Defined.

(** The databases by path, each a map from the names of its tables. *)
Abbreviation Databases := (gmap string (gmap string SqlTable)).

Definition to_sql (df : DataFrame) : SqlTable :=
  {| sql_columns := columns df;
     sql_rows := (fun ir : Z * row =>
                    filter (fun kv : string * cell => kv.1 ∈ columns df) ir.2)
                 <$> rows df |}.

(** [sqlite3.connect] opens the database at [db_path], a new one when there
    is none, and [if_exists="replace"] puts the table in the place of a
    table of that name.  The directory can be made and the database takes
    every table. *)
Definition load (df : DataFrame) (db_path table : string) (dbs : Databases)
    : Databases :=
  <[db_path := <[table := to_sql df]> (default ∅ (dbs !! db_path))]> dbs.

(** The table of a name in the database at a path. *)
Definition table_at (dbs : Databases) (db_path table : string) : option SqlTable :=
  tables ← dbs !! db_path; tables !! table.

(** ** Charts: [plot_weekly_volume], [plot_symbols_total_volume] *)

(** The part of matplotlib that is taken as given: the figure that lines 156
    to 179 draw from an aggregate that is not empty, and the figure that
    lines 193 to 217 draw from it, which is none when no symbol is left to
    draw.  The drawing may raise. *)
Class Matplotlib := {
  Png : Type;
  chart_exn : Type;
  weekly_volume_figure : DataFrame -> chart_exn + Png;
  symbols_figure : DataFrame -> chart_exn + option Png
}.

(** [df.empty]: one of the two axes has length 0. *)
Definition is_empty (df : DataFrame) : bool :=
  bool_decide (rows df = [] \/ columns df = []).

Section Orchestrator.
Context `{Pandas} `{M : Matplotlib}.

(** What a run reads and writes: the CSV files, the databases, the images
    and the lines printed.  The three kinds of files are kept apart: a path
    names one kind of file only. *)
Record World := {
  files : FileSystem;
  databases : Databases;
  images : gmap string Png;
  stdout : list string
}.

Inductive failure :=
  | Raised (e : exn)
  | ChartRaised (e : chart_exn).

Inductive Outcome :=
  | Returned
  | Failed (f : failure).

(** [plt.savefig(png_path)], the directory made. *)
Definition savefig (png_path : string) (img : Png) (w : World) : World :=
  {| files := files w; databases := databases w;
     images := <[png_path := img]> (images w); stdout := stdout w |}.

Definition println (line : string) (w : World) : World :=
  {| files := files w; databases := databases w;
     images := images w; stdout := stdout w ++ [line] |}.

Definition plot_weekly_volume (agg_df : DataFrame) (png_path : string)
    (w : World) : World * Outcome :=
  if is_empty agg_df then (w, Returned)
  else
    match weekly_volume_figure agg_df with
    | inl e => (w, Failed (ChartRaised e))
    | inr img => (savefig png_path img w, Returned)
    end.

Definition plot_symbols_total_volume (agg_df : DataFrame) (png_path : string)
    (w : World) : World * Outcome :=
  if is_empty agg_df then (w, Returned)
  else
    match symbols_figure agg_df with
    | inl e => (w, Failed (ChartRaised e))
    | inr None => (w, Returned)
    | inr (Some img) => (savefig png_path img w, Returned)
    end.

(** ** Orchestrator: [run_etl], [main] *)

(** Lines 230 to 237: the two charts and the five lines printed. *)
Definition charts_and_summary (agg : DataFrame)
    (db_path table out_top chart_weekly_path chart_symbols_path : string)
    (w : World) : World * Outcome :=
  match plot_weekly_volume agg chart_weekly_path w with
  | (w, Failed f) => (w, Failed f)
  | (w, Returned) =>
      match plot_symbols_total_volume agg chart_symbols_path w with
      | (w, Failed f) => (w, Failed f)
      | (w, Returned) =>
          let w := println ("Loaded " +:+ Text.of_Z (Z.of_nat (length (rows agg)))
                            +:+ " rows into " +:+ db_path +:+ ":" +:+ table) w in
          let w := println ("Top-3 bronze reports at " +:+ out_top +:+ ".csv/.xlsx") w in
          let w := println "Charts saved to:" w in
          let w := println ("  - " +:+ chart_weekly_path) w in
          let w := println ("  - " +:+ chart_symbols_path) w in
          (w, Returned)
      end
  end.

Definition run_etl
    (data_path db_path table out_top chart_weekly_path chart_symbols_path : string)
    (include_pnl : bool) (null_ts_mode : string) (w : World) : World * Outcome :=
  match extract (files w) data_path with
  | Err e => (w, Failed (Raised e))
  | Ok raw =>
      match transform raw include_pnl null_ts_mode with
      | Err e => (w, Failed (Raised e))
      | Ok agg =>
          let w := {| files := files w;
                      databases := load agg db_path table (databases w);
                      images := images w; stdout := stdout w |} in
          match export_top_bronze_exact agg (out_top +:+ ".csv") (files w) with
          | Err e => (w, Failed (Raised e))
          | Ok fs =>
              let w := {| files := fs; databases := databases w;
                          images := images w; stdout := stdout w |} in
              charts_and_summary agg db_path table out_top
                chart_weekly_path chart_symbols_path w
          end
      end
  end.

(** The command line as [argparse] hands it over. *)
Record Args := {
  data : string;
  db : string;
  table : string;
  top : string;
  chart_weekly : string;
  chart_symbols : string;
  no_pnl : bool;
  null_timestamp : string
}.

(** The command line without any option. *)
Definition defaults : Args :=
  {| data := "data/trades.csv";
     db := "output/agg_result.db";
     table := "agg_trades_weekly";
     top := "output/top_clients";
     chart_weekly := "output/weekly_volume.png";
     chart_symbols := "output/symbols_total_volume.png";
     no_pnl := false;
     null_timestamp := "error" |}.

(** Lines 252 to 261. *)
Definition main (args : Args) (w : World) : World * Outcome :=
  run_etl (data args) (db args) (table args) (top args)
          (chart_weekly args) (chart_symbols args)
          (negb (no_pnl args)) (null_timestamp args) w.

End Orchestrator.

(** ** Vocabulary of the statements *)

(** The values of a column, in table order. *)
Definition values (c : string) (df : DataFrame) : list cell :=
  (fun ir : Z * row => get ir.2 c) <$> rows df.

(** The labels of the rows whose timestamp is null or blank. *)
Definition null_positions `{Pandas} (df : DataFrame) : list Z :=
  fst <$> filter (fun ir : Z * row => empties ir.2 = true) (rows df).

(** The numbers of a column, read off without the type check. *)
Definition number_of (c : cell) : option Qc :=
  match c with Num q => Some q | _ => None end.

Definition summable (c : cell) : bool :=
  match c with NA | Num _ => true | _ => false end.

(** The sum of numbers in exact arithmetic. *)
Definition sum_Qc (qs : list Qc) : Qc := foldr Qcplus 0%Qc qs.

(** ** What the sort of pandas is known to do

    The positions that [argsort_desc] returns for a column of numbers are
    the positions of the column, each once, and the numbers come in
    descending order; the order of equal numbers is left open. *)

Definition numbers_at (vs : list cell) (positions : list nat) : list Qc :=
  omap (fun i => v ← vs !! i; number_of v) positions.

Definition sorts_descending `{Pandas} : Prop :=
  forall vs : list cell,
    Forall (fun v => exists q, v = Num q) vs ->
    argsort_desc vs ≡ₚ seq 0 (length vs) /\
    StronglySorted (fun a b : Qc => (b ≤ a)%Qc) (numbers_at vs (argsort_desc vs)).

(** A stable descending sort, missing values last: an insertion that lets a
    value pass only the values that rank strictly higher, so that equal
    values keep the order of the column. *)
Definition ranks_above (c1 c2 : cell) : Prop :=
  match c1, c2 with
  | NA, _ => False
  | _, NA => True
  | _, _ => ¬ cell_le c1 c2
  end.

Global Instance ranks_above_dec : RelDecision ranks_above.
Proof. intros [] []; simpl; apply _. Defined.

Fixpoint insert_desc (x : nat * cell) (l : list (nat * cell)) : list (nat * cell) :=
  match l with
  | [] => [x]
  | y :: l' =>
      if decide (ranks_above y.2 x.2) then y :: insert_desc x l'
      else x :: y :: l'
  end.

Definition stable_argsort_desc (vs : list cell) : list nat :=
  fst <$> foldr insert_desc [] (imap pair vs).

Definition stable_sort_desc (c : string) (l : list row) : list row :=
  omap (fun i => l !! i) (stable_argsort_desc ((fun r => get r c) <$> l)).

(** ** The top-clients reduction as the specification words it

    The groups are taken in the order in which their users are first met in
    the aggregate; the rest is as in [top_bronze_clients]. *)

Definition first_seen {A} `{EqDecision A} (l : list A) : list A :=
  reverse (remove_dups (reverse l)).

Definition first_seen_keys (by_cols : list string) (rs : list (Z * row))
    : list (list cell) :=
  first_seen (filter (fun k => has_na k = false)
                     ((fun ir : Z * row => key_of by_cols ir.2) <$> rs)).

Definition top_bronze_clients_first_seen `{Pandas} (agg_df : DataFrame)
    : Result DataFrame :=
  _ ← require agg_df "client_type";
  let bronze := select is_bronze agg_df in
  _ ← require bronze "user_id";
  _ ← require bronze "total_volume";
  _ ← require bronze "total_pnl";
  groups ← mapM (client_row (rows bronze))
                (first_seen_keys ["user_id"%string] (rows bronze));
  Ok {| columns := ["user_id"; "total_volume"; "total_pnl"]%string;
        rows := range_index (take 3 (stable_sort_desc "total_volume" groups)) |}.

(** The bronze rows of a user, and the sum of a column over rows. *)
Definition bronze_rows_of (u : cell) (agg_df : DataFrame) : list row :=
  filter (fun r => is_bronze r = true /\ get r "user_id" = u)
         (snd <$> rows agg_df).

(** The numbers of a column of rows, in the order of the rows, and their
    sum: the one pandas computes, and the exact one. *)
Definition numbers (c : string) (g : list row) : list Qc :=
  omap number_of ((fun r => get r c) <$> g).

Definition column_sum `{Pandas} (c : string) (g : list row) : Qc :=
  sum_numbers c (numbers c g).

Definition exact_sum (c : string) (g : list row) : Qc :=
  sum_Qc (numbers c g).

(** On the numbers of a column of these rows the sum and the mean of pandas
    do not depend on the order of the rows: so it is when the numbers add
    up exactly, as whole numbers below 2^53 do. *)
Definition order_blind `{Pandas} (c : string) (g : list row) : Prop :=
  forall g' : list row, g' ≡ₚ g ->
    sum_numbers c (numbers c g') = sum_numbers c (numbers c g) /\
    mean_numbers c (numbers c g') = mean_numbers c (numbers c g).

(** The order the stable sort keeps its positions in: by value,
    descending. *)
Definition value_not_below (x y : nat * cell) : Prop :=
  exists a b : Qc, x.2 = Num a /\ y.2 = Num b /\ (b ≤ a)%Qc.

(** The order of the report: the volume of a row is not below the volume of
    a row that comes after it. *)
Definition ranked_before (r1 r2 : row) : Prop :=
  exists v1 v2 : Qc,
    get r1 "total_volume" = Num v1 /\ get r2 "total_volume" = Num v2 /\
    (v2 ≤ v1)%Qc.

Section Figures.
Context `{Pandas}.

(** The figures of a bronze user, and the row of the report that holds
    them. *)
Definition volume_of (agg_df : DataFrame) (u : cell) : Qc :=
  column_sum "total_volume" (bronze_rows_of u agg_df).

Definition pnl_of (agg_df : DataFrame) (u : cell) : Qc :=
  column_sum "total_pnl" (bronze_rows_of u agg_df).

Definition report_row (agg_df : DataFrame) (u : cell) : row :=
  <["total_pnl" := Num (pnl_of agg_df u)]>
    (<["total_volume" := Num (volume_of agg_df u)]>
       (key_row ["user_id"%string] [u])).

End Figures.

(** The keys of the groups of the report. *)
Definition bronze_keys (agg_df : DataFrame) : list (list cell) :=
  group_keys ["user_id"%string] true (rows (select is_bronze agg_df)).

(** The users of a list of rows. *)
Definition users (rs : list row) : list cell :=
  (fun r => get r "user_id") <$> rs.

(** The cells that [sum] adds up are numbers or missing. *)
Definition summable_columns (agg_df : DataFrame) : Prop :=
  Forall (fun ir : Z * row =>
            summable (get ir.2 "total_volume") = true /\
            summable (get ir.2 "total_pnl") = true) (rows agg_df).

(** ** Row-level view of the normalisation

    What lines 91 to 106 of [transform] do to one row: the coercions, the
    two filters and the week start. *)

Section RowView.
Context `{Pandas}.

Definition normalize_row (r : row) : row :=
  let r := <["timestamp" := to_datetime (get r "timestamp")]> r in
  let r := <["client_type" :=
               str_map Text.strip
                 (str_map Text.lower (astype_string (get r "client_type")))]> r in
  let r := <["symbol" :=
               str_map Text.strip
                 (str_map Text.upper (astype_string (get r "symbol")))]> r in
  let r := <["side" :=
               str_map Text.strip
                 (str_map Text.lower (astype_string (get r "side")))]> r in
  let r := <["quantity" := to_numeric (get r "quantity")]> r in
  <["price" := to_numeric (get r "price")]> r.

Definition kept (r : row) : bool :=
  (negb (isna (get r "timestamp")) && negb (isna (get r "quantity"))
   && negb (isna (get r "price")))
  && isin allowed_client (get r "client_type").

Definition with_week_start (r : row) : row :=
  <["week_start_date" := to_week_start_monday (get r "timestamp")]> r.

End RowView.

(** The five columns that the normalisation reads after [timestamp], in the
    order in which it reads them. *)
Definition coerced_columns : list string :=
  ["client_type"; "symbol"; "side"; "quantity"; "price"]%string.

(** The row-level rules of the validator: the category and its mask. *)
Definition row_rules `{Pandas} (forbid_future_ts : bool)
    : list (string * (row -> bool)) :=
  [("invalid_timestamp_format"%string, bad_ts);
   ("timestamp_in_future"%string, fun r => forbid_future_ts && fut r);
   ("invalid_quantity"%string, bad_qty);
   ("invalid_price"%string, bad_price);
   ("invalid_side"%string, bad_side);
   ("invalid_client_type"%string, bad_client)].

(** A number without a fractional part. *)
Definition is_integer (q : Qc) : Prop := exists z : Z, q = Qc_of_Z z.

(** The invariant of a normalised trade. *)
Definition normalized_trade (r : row) : Prop :=
  (exists t, get r "timestamp" = Time t /\
             get r "week_start_date"
             = Time (Calendar.midnight
                       (Calendar.week_start Calendar.MON (Calendar.date_of t)))) /\
  (exists q, get r "quantity" = Num q) /\
  (exists p, get r "price" = Num p) /\
  (exists s, get r "client_type" = Str s /\ s ∈ allowed_client).

(** ** A concrete pandas for the examples

    The tables of the examples hold typed cells, as [read_csv] delivers
    them: timestamps, numbers, texts and missing values.  This instance reads
    no number and no date out of a text, and prints a timestamp in ISO
    layout and an integer in decimal. *)

Module Example.

Definition pad2 (z : Z) : string :=
  if z <? 10 then "0" +:+ Text.of_Z z else Text.of_Z z.

Definition iso (t : Z) : string :=
  let day := Calendar.date_of t in
  let '(y, m, d) := Calendar.civil_from_days day in
  let s := (t - Calendar.midnight day) / 1000000000 in
  Text.of_Z y +:+ "-" +:+ pad2 m +:+ "-" +:+ pad2 d +:+ " "
  +:+ pad2 (s / 3600) +:+ ":" +:+ pad2 (s / 60 mod 60) +:+ ":" +:+ pad2 (s mod 60).

Definition print (c : cell) : string :=
  match c with
  | NA => "nan"
  | Str s => s
  | Num q => if Pos.eqb (Qden (this q)) 1 then Text.of_Z (Qnum (this q))
             else Text.of_Z (Qnum (this q)) +:+ "/" +:+ Text.of_Z (Z.pos (Qden (this q)))
  | Time t => iso t
  end.

(** The arithmetic of this instance is exact, as the arithmetic of pandas
    is on the numbers of the examples (whole numbers far below 2^53), and
    its sort is the stable one. *)
#[export] Instance typed : Pandas := {|
  parse_datetime := fun _ => None;
  parse_numeric := fun _ => None;
  render := print;
  utcnow := Calendar.instant 2030 1 1 0 0 0;
  sum_numbers := fun _ => sum_Qc;
  mean_numbers := fun _ qs => (sum_Qc qs / Qc_of_Z (Z.of_nat (length qs)))%Qc;
  mul_numbers := Qcmult;
  argsort_desc := stable_argsort_desc
|}.

(** [float64] arithmetic: every result is rounded to the nearest number with
    a significand of 53 bits, ties to the even significand.  The exponent
    is not bounded here: the numbers of the examples are far from the
    overflow and the underflow of [float64]. *)
Definition at_least_pow2 (n d e : Z) : bool :=
  if 0 <=? e then d * 2 ^ e <=? n else d <=? n * 2 ^ (- e).

Definition round_half_even (n d : Z) : Z :=
  let m := n / d in
  let r := n mod d in
  if 2 * r <? d then m
  else if d <? 2 * r then m + 1
  else if Z.even m then m else m + 1.

Definition round64 (q : Qc) : Qc :=
  let n := Z.abs (Qnum (this q)) in
  let d := Z.pos (Qden (this q)) in
  if n =? 0 then q else
  let e0 := Z.log2 n - Z.log2 d in
  let e := if at_least_pow2 n d e0 then e0 else e0 - 1 in
  let shift := 52 - e in
  let m := if 0 <=? shift then round_half_even (n * 2 ^ shift) d
           else round_half_even n (d * 2 ^ (- shift)) in
  let magnitude := if 0 <=? shift then Q2Qc (m # Z.to_pos (2 ^ shift))
                   else Qc_of_Z (m * 2 ^ (- shift)) in
  if Qnum (this q) <? 0 then (- magnitude)%Qc else magnitude.

(** The compensated summation of [group_sum] and [group_mean]: for each
    value, [y = val - compensation], [t = sumx + y],
    [compensation = t - sumx - y], [sumx = t]. *)
Definition kahan_step (state : Qc * Qc) (val : Qc) : Qc * Qc :=
  let y := round64 (val - state.2) in
  let t := round64 (state.1 + y) in
  (t, round64 (round64 (t - state.1) - y)).

Definition kahan_sum (qs : list Qc) : Qc := (foldl kahan_step (0%Qc, 0%Qc) qs).1.

Definition binary64 : Pandas := {|
  parse_datetime := fun _ => None;
  parse_numeric := fun _ => None;
  render := print;
  utcnow := Calendar.instant 2030 1 1 0 0 0;
  sum_numbers := fun _ => kahan_sum;
  mean_numbers := fun _ qs =>
    round64 (kahan_sum qs / Qc_of_Z (Z.of_nat (length qs)));
  mul_numbers := fun a b => round64 (a * b);
  argsort_desc := stable_argsort_desc
|}.

(** A raw trade row. *)
Definition trade (ts user client symbol side quantity price : cell) : row :=
  list_to_map (zip req [ts; user; client; symbol; side; quantity; price]).

Definition at_ (y m d hh mm : Z) : cell := Time (Calendar.instant y m d hh mm 0).
Definition date (y m d : Z) : cell := Time (Calendar.instant y m d 0 0 0).
Definition num (z : Z) : cell := Num (Qc_of_Z z).

Definition table (rs : list row) : DataFrame :=
  {| columns := req; rows := range_index rs |}.

End Example.

(** ** Tables of the examples *)

Module Tables.
Import Example.

(** Five trades, the third with a blank timestamp. *)
Definition batch5 : DataFrame :=
  table
    [trade (at_ 2024 1 3 10 30) (Str "u1") (Str "bronze") (Str "AAPL") (Str "buy") (num 2) (num 10);
     trade (at_ 2024 1 3 11 0) (Str "u2") (Str "gold") (Str "MSFT") (Str "sell") (num 1) (num 300);
     trade (Str "   ") (Str "u3") (Str "silver") (Str "AAPL") (Str "buy") (num 5) (num 11);
     trade (at_ 2024 1 4 9 15) (Str "u1") (Str "bronze") (Str "AAPL") (Str "sell") (num 2) (num 12);
     trade (at_ 2024 1 5 16 45) (Str "u4") (Str "bronze") (Str "TSLA") (Str "buy") (num 7) (num 200)].

(** The same trades without the blank one. *)
Definition batch4 : DataFrame :=
  table
    [trade (at_ 2024 1 3 10 30) (Str "u1") (Str "bronze") (Str "AAPL") (Str "buy") (num 2) (num 10);
     trade (at_ 2024 1 3 11 0) (Str "u2") (Str "gold") (Str "MSFT") (Str "sell") (num 1) (num 300);
     trade (at_ 2024 1 4 9 15) (Str "u1") (Str "bronze") (Str "AAPL") (Str "sell") (num 2) (num 12);
     trade (at_ 2024 1 5 16 45) (Str "u4") (Str "bronze") (Str "TSLA") (Str "buy") (num 7) (num 200)].

(** A table without the [price] and [side] columns. *)
Definition no_price : DataFrame :=
  {| columns := ["timestamp"; "user_id"; "client_type"; "symbol"; "quantity"]%string;
     rows := range_index
       [({[ "timestamp"%string := at_ 2024 1 3 10 30; "user_id"%string := Str "u1";
            "client_type"%string := Str "bronze"; "symbol"%string := Str "AAPL";
            "quantity"%string := num 2 ]} : row)] |}.

(** Two bronze sales of 2 units at 10, the second without a user. *)
Definition null_user : DataFrame :=
  table
    [trade (at_ 2024 1 3 10 30) (Str "u1") (Str "bronze") (Str "AAPL") (Str "sell") (num 2) (num 10);
     trade (at_ 2024 1 3 11 0) NA (Str "bronze") (Str "AAPL") (Str "sell") (num 2) (num 10)].

(** One bronze trade of 2 units at 10. *)
Definition single (side : string) : DataFrame :=
  table
    [trade (at_ 2024 1 3 10 30) (Str "u1") (Str "bronze") (Str "AAPL") (Str side) (num 2) (num 10)].

(** A file system with a trades file and another file. *)
Definition disk : FileSystem :=
  {[ "data/trades.csv"%string := batch4; "other/trades.csv"%string := batch5 ]}.

(** The aggregate of a transform that is known to succeed. *)
Definition aggregate_of (r : Result DataFrame) : DataFrame :=
  match r with
  | Ok agg => agg
  | Err _ => {| columns := []; rows := [] |}
  end.

(** The weekly aggregate of [batch4], without and with PnL. *)
Definition weekly4_no_pnl : DataFrame :=
  aggregate_of (transform (H := typed) batch4 false "error").
Definition weekly4 : DataFrame :=
  aggregate_of (transform (H := typed) batch4 true "error").

(** The rows of [batch4] after normalisation. *)
Definition normalized4 : DataFrame :=
  aggregate_of (normalize (H := typed) batch4 "error").

(** A table of four rows with its rows in another order: the second and the
    fourth first. *)
Definition reordered (df : DataFrame) : DataFrame :=
  {| columns := columns df;
     rows := match rows df with
             | a :: b :: c :: d :: _ => [b; d; a; c]
             | rs => rs
             end |}.

(** The rows of [batch4] after normalisation with their cash-flows. *)
Definition cashflows4 : DataFrame :=
  aggregate_of (add_cashflow (H := typed) true normalized4).

(** Four trades of one user in one symbol and one week: two small sales at
    1/2, a sale and a purchase at 2^60.  In [float64] the sum of two of
    the cash-flows, 1/2 + 2^60, is rounded to 2^60. *)
Definition half : cell := Num (Qc_of_Z 1 / Qc_of_Z 2)%Qc.

Definition swing : DataFrame :=
  table
    [trade (at_ 2024 1 3 10 0) (Str "u1") (Str "bronze") (Str "AAPL") (Str "sell") (num 1) half;
     trade (at_ 2024 1 3 10 1) (Str "u1") (Str "bronze") (Str "AAPL") (Str "sell") (num 1) (num (2 ^ 60));
     trade (at_ 2024 1 3 10 2) (Str "u1") (Str "bronze") (Str "AAPL") (Str "sell") (num 1) half;
     trade (at_ 2024 1 3 10 3) (Str "u1") (Str "bronze") (Str "AAPL") (Str "buy") (num 1) (num (2 ^ 60))].

(** The same trades, the two large ones first. *)
Definition swing_reordered : DataFrame := reordered swing.

(** The rows that enter the aggregation in [float64] arithmetic: normalised,
    with their cash-flows. *)
Definition float_flows (df : DataFrame) : DataFrame :=
  aggregate_of
    (add_cashflow (H := binary64) true
       (aggregate_of (normalize (H := binary64) df "error"))).

(** A row of a weekly aggregate. *)
Definition weekly (week client user symbol : cell) (volume count price pnl : Z) : row :=
  list_to_map
    (zip (agg_columns ++ ["total_pnl"%string])
         [week; client; user; symbol; num volume; num count; num price; num pnl]).

Definition weekly_table (rs : list row) : DataFrame :=
  {| columns := agg_columns ++ ["total_pnl"%string]; rows := range_index rs |}.

(** The bronze users A, B, C, D of the specification, and a gold user. *)
Definition abcd : DataFrame :=
  weekly_table
    [weekly (date 2024 1 2) (Str "bronze") (Str "D") (Str "AAPL") 10 1 5 (-50);
     weekly (date 2024 1 2) (Str "bronze") (Str "B") (Str "AAPL") 20 2 5 100;
     weekly (date 2024 1 2) (Str "gold") (Str "G") (Str "AAPL") 900 3 5 4500;
     weekly (date 2024 1 2) (Str "bronze") (Str "A") (Str "MSFT") 60 1 7 420;
     weekly (date 2024 1 9) (Str "bronze") (Str "C") (Str "AAPL") 30 1 5 150;
     weekly (date 2024 1 9) (Str "bronze") (Str "A") (Str "AAPL") 40 4 5 (-200);
     weekly (date 2024 1 9) (Str "bronze") (Str "B") (Str "MSFT") 30 1 7 210].

(** Two bronze users with the same volume: "b" trades in the first week, "a"
    in the second, so that "b" is met first in the aggregate. *)
Definition tied : DataFrame :=
  weekly_table
    [weekly (date 2024 1 2) (Str "bronze") (Str "b") (Str "AAPL") 10 1 5 50;
     weekly (date 2024 1 9) (Str "bronze") (Str "a") (Str "AAPL") 10 1 5 50].

(** The same two groups, "a" met first. *)
Definition tied_swapped : DataFrame :=
  weekly_table
    [weekly (date 2024 1 2) (Str "bronze") (Str "a") (Str "AAPL") 10 1 5 50;
     weekly (date 2024 1 9) (Str "bronze") (Str "b") (Str "AAPL") 10 1 5 50].

(** A row of the top-clients report, and the report itself. *)
Definition client (user : cell) (volume pnl : Z) : row :=
  list_to_map
    [("user_id"%string, user); ("total_volume"%string, num volume);
     ("total_pnl"%string, num pnl)].

Definition report (rs : list row) : DataFrame :=
  {| columns := ["user_id"; "total_volume"; "total_pnl"]%string;
     rows := range_index rs |}.

(** The normalised rows of [null_user] with their cash-flows, and their
    aggregate. *)
Definition cashflows_null_user : DataFrame :=
  aggregate_of
    (add_cashflow (H := typed) true
       (aggregate_of (normalize (H := typed) null_user "error"))).
Definition weekly_null_user : DataFrame :=
  aggregate_of (transform (H := typed) null_user true "error").

(** Five trades that differ in their quantity: 0, -1, 3/2, a text that is no
    number, and 1. *)
Definition quantities : DataFrame :=
  table
    [trade (at_ 2024 1 3 10 0) (Str "u1") (Str "gold") (Str "AAPL") (Str "buy") (num 0) (num 10);
     trade (at_ 2024 1 3 10 1) (Str "u1") (Str "gold") (Str "AAPL") (Str "buy") (num (-1)) (num 10);
     trade (at_ 2024 1 3 10 2) (Str "u1") (Str "gold") (Str "AAPL") (Str "buy")
           (Num (Qc_of_Z 3 / Qc_of_Z 2)%Qc) (num 10);
     trade (at_ 2024 1 3 10 3) (Str "u1") (Str "gold") (Str "AAPL") (Str "buy") (Str "abc") (num 10);
     trade (at_ 2024 1 3 10 4) (Str "u1") (Str "gold") (Str "AAPL") (Str "buy") (num 1) (num 10)].

(** [abcd] without its gold row. *)
Definition abcd_bronze_only : DataFrame :=
  weekly_table
    [weekly (date 2024 1 2) (Str "bronze") (Str "D") (Str "AAPL") 10 1 5 (-50);
     weekly (date 2024 1 2) (Str "bronze") (Str "B") (Str "AAPL") 20 2 5 100;
     weekly (date 2024 1 2) (Str "bronze") (Str "A") (Str "MSFT") 60 1 7 420;
     weekly (date 2024 1 9) (Str "bronze") (Str "C") (Str "AAPL") 30 1 5 150;
     weekly (date 2024 1 9) (Str "bronze") (Str "A") (Str "AAPL") 40 4 5 (-200);
     weekly (date 2024 1 9) (Str "bronze") (Str "B") (Str "MSFT") 30 1 7 210].

End Tables.

(** ** Runs of the examples *)

Module Runs.

(** A matplotlib whose figures hold nothing. *)
#[export] Instance blank : Matplotlib := {|
  Png := unit;
  chart_exn := unit;
  weekly_volume_figure := fun _ => inr tt;
  symbols_figure := fun _ => inr (Some tt)
|}.

(** Nothing written yet, with the four trades of [batch4] on disk. *)
Definition start : World (M := blank) :=
  {| files := Tables.disk; databases := ∅; images := ∅; stdout := [] |}.

(** [batch4] as [extract] returns it. *)
Definition raw4 : DataFrame :=
  Tables.aggregate_of (extract Tables.disk "data/trades.csv").

(** Two trades of a client type that is not allowed. *)
Definition platinum : DataFrame :=
  Example.table
    [Example.trade (Example.at_ 2024 1 3 10 30) (Str "u1") (Str "platinum")
       (Str "AAPL") (Str "buy") (Example.num 2) (Example.num 10);
     Example.trade (Example.at_ 2024 1 3 11 0) (Str "u2") (Str "platinum")
       (Str "MSFT") (Str "sell") (Example.num 1) (Example.num 300)].

Definition start_platinum : World (M := blank) :=
  {| files := {[ "data/trades.csv"%string := platinum ]};
     databases := ∅; images := ∅; stdout := [] |}.

(** The command line [--no-pnl]. *)
Definition no_pnl_args : Args :=
  {| data := "data/trades.csv";
     db := "output/agg_result.db";
     table := "agg_trades_weekly";
     top := "output/top_clients";
     chart_weekly := "output/weekly_volume.png";
     chart_symbols := "output/symbols_total_volume.png";
     no_pnl := true;
     null_timestamp := "error" |}.

End Runs.

(** * Properties *)

(** ** Week bucketing *)

Section WeekStart.
Import Calendar.

Lemma weekday_range day : 0 <= weekday day < 7.
Proof. unfold weekday. apply Z.mod_pos_bound. lia. Qed.

(** The first day of a [W-MON] period is a Tuesday, whatever the day. *)
Lemma week_start_MON_is_tuesday day : weekday (week_start MON day) = TUE.
Proof.
  unfold week_start, week_end, weekday, MON, TUE.
  Z.div_mod_to_equations. lia.
Qed.

(** It is the Tuesday at or before the day. *)
Lemma week_start_MON_bounds day :
  week_start MON day <= day < week_start MON day + 7.
Proof.
  unfold week_start, week_end, weekday, MON.
  Z.div_mod_to_equations. lia.
Qed.

(** The Monday at or before a day is the first day of its [W-SUN] period. *)
Lemma week_start_SUN_is_monday day :
  week_start SUN day = monday_on_or_before day.
Proof.
  unfold week_start, week_end, monday_on_or_before, weekday, SUN.
  Z.div_mod_to_equations. lia.
Qed.

Lemma monday_on_or_before_spec day :
  weekday (monday_on_or_before day) = MON /\
  monday_on_or_before day <= day < monday_on_or_before day + 7.
Proof.
  unfold monday_on_or_before, weekday, MON.
  Z.div_mod_to_equations. lia.
Qed.

(** The two never agree: the code's week start is one day after the Monday
    at or before the previous day. *)
Lemma week_start_MON_off_by_one day :
  week_start MON day = monday_on_or_before (day - 1) + 1.
Proof.
  unfold week_start, week_end, monday_on_or_before, weekday, MON.
  Z.div_mod_to_equations. lia.
Qed.

Lemma week_start_MON_not_iso day :
  week_start MON day <> monday_on_or_before day.
Proof.
  intros E. pose proof (week_start_MON_is_tuesday day) as T.
  rewrite E in T. destruct (monday_on_or_before_spec day) as [M _].
  rewrite M in T. discriminate.
Qed.

Lemma date_of_midnight day : date_of (midnight day) = day.
Proof. unfold date_of, midnight, ns_per_day. apply Z.div_mul. lia. Qed.

End WeekStart.

Lemma to_week_start_monday_Time `{Pandas} t :
  to_week_start_monday (Time t)
  = Time (Calendar.midnight (Calendar.week_start Calendar.MON (Calendar.date_of t))).
Proof. reflexivity. Qed.

(** The week start the code assigns to a timestamp is never its ISO week
    start: it falls on a Tuesday. *)
Lemma to_week_start_monday_never_monday `{Pandas} t :
  exists t', to_week_start_monday (Time t) = Time t' /\
    Calendar.weekday (Calendar.date_of t') = Calendar.TUE /\
    t' <> Calendar.midnight (Calendar.monday_on_or_before (Calendar.date_of t)).
Proof.
  eexists. split; [apply to_week_start_monday_Time|]. split.
  - rewrite date_of_midnight. apply week_start_MON_is_tuesday.
  - intros E. apply (f_equal Calendar.date_of) in E.
    rewrite !date_of_midnight in E. by apply week_start_MON_not_iso in E.
Qed.

(** C1, at the inputs of the specification.  A trade of Wednesday
    2024-01-03 is given the week start 2024-01-02, a Tuesday, where the
    claim says Monday 2024-01-01; a trade of Sunday 2023-12-31 is given
    2023-12-26 where the claim says 2023-12-25.  The same holds through
    [transform]: the only group of a one-trade table carries that date. *)
Theorem week_start_of_wednesday_is_tuesday :
  (forall lib : Pandas,
     to_week_start_monday (Example.at_ 2024 1 3 10 30) = Example.date 2024 1 2 /\
     to_week_start_monday (Example.at_ 2023 12 31 10 30) = Example.date 2023 12 26) /\
  Example.date 2024 1 2 <> Example.date 2024 1 1 /\
  Example.date 2023 12 26 <> Example.date 2023 12 25 /\
  Calendar.weekday (Calendar.days_from_civil 2024 1 1) = Calendar.MON /\
  Calendar.weekday (Calendar.days_from_civil 2024 1 3) = 2 /\
  Calendar.weekday (Calendar.days_from_civil 2023 12 31) = Calendar.SUN /\
  match
    transform (H := Example.typed)
      (Example.table
         [Example.trade (Example.at_ 2024 1 3 10 30) (Str "u1") (Str "bronze")
            (Str "AAPL") (Str "buy") (Example.num 2) (Example.num 10)])
      true "error"
  with
  | Ok agg => values "week_start_date" agg = [Example.date 2024 1 2]
  | Err _ => False
  end.
Proof.
  split; [intros lib; split; reflexivity|].
  split; [intros E; discriminate E|]. split; [intros E; discriminate E|].
  split; [reflexivity|]. split; [reflexivity|]. split; [reflexivity|].
  vm_compute. reflexivity.
Qed.

(** ** Generic facts on tables *)

Lemma range_index_snd {A} (l : list A) : snd <$> range_index l = l.
Proof.
  unfold range_index. apply list_eq. intros i.
  rewrite list_lookup_fmap, list_lookup_imap. by destruct (l !! i).
Qed.

Lemma range_index_length {A} (l : list A) : length (range_index l) = length l.
Proof. unfold range_index. apply length_imap. Qed.

Lemma any_true (mask : row -> bool) (df : DataFrame) :
  any mask df = true <->
  exists ir, ir ∈ rows df /\ mask ir.2 = true.
Proof.
  unfold any. rewrite existsb_exists. split.
  - intros (ir & Hin & Hm). exists ir. by rewrite list_elem_of_In.
  - intros (ir & Hin & Hm). exists ir. by rewrite <- list_elem_of_In.
Qed.

Lemma any_filter (mask : row -> bool) (df : DataFrame) :
  any mask df = true <->
  filter (fun ir : Z * row => mask ir.2 = true) (rows df) <> [].
Proof.
  rewrite any_true. split.
  - intros (ir & Hin & Hm) E.
    assert (ir ∈ filter (fun ir : Z * row => mask ir.2 = true) (rows df)) as Hf
      by (apply list_elem_of_filter; done).
    rewrite E in Hf. by apply not_elem_of_nil in Hf.
  - intros Hne.
    destruct (filter (fun ir : Z * row => mask ir.2 = true) (rows df))
      as [|ir l] eqn:E; [done|].
    assert (ir ∈ filter (fun ir : Z * row => mask ir.2 = true) (rows df)) as Hf
      by (rewrite E; left).
    apply list_elem_of_filter in Hf as [Hm Hin]. eauto.
Qed.

Lemma filter_split_length {A} (f : A -> bool) (l : list A) :
  (length (filter (fun x => f x = true) l)
   + length (filter (fun x => negb (f x) = true) l) = length l)%nat.
Proof.
  induction l as [|x l IH]; [done|].
  destruct (f x) eqn:E.
  - rewrite filter_cons_True by done.
    rewrite filter_cons_False by (rewrite E; done). simpl. lia.
  - rewrite filter_cons_False by (rewrite E; done).
    rewrite filter_cons_True by (rewrite E; done). simpl. lia.
Qed.

Lemma filter_all {A} (P : A -> Prop) `{forall x, Decision (P x)} (l : list A) :
  Forall P l -> filter P l = l.
Proof.
  induction 1 as [|x l Hx _ IH]; [done|].
  rewrite filter_cons_True by done. by rewrite IH.
Qed.

(** ** Null-timestamp policies *)

Section NullTimestamps.
Context `{Pandas}.

Lemma null_positions_nonempty df :
  any empties df = true <-> null_positions df <> [].
Proof.
  rewrite any_filter. unfold null_positions.
  destruct (filter _ (rows df)); simpl; split; congruence.
Qed.

(** An error of [handle_null_timestamps] is an error of [transform]: nothing
    is computed after it. *)
Lemma transform_fails_with_handle df include_pnl mode e :
  handle_null_timestamps df mode = Err e ->
  transform df include_pnl mode = Err e.
Proof. intros E. unfold transform, normalize. by rewrite E. Qed.

Lemma handle_null_timestamps_clean df mode :
  "timestamp"%string ∈ columns df ->
  any empties df = false ->
  handle_null_timestamps df mode = Ok df.
Proof.
  intros Hc He. unfold handle_null_timestamps.
  rewrite decide_True by done. by rewrite He.
Qed.

Lemma handle_null_timestamps_unknown df mode :
  "timestamp"%string ∈ columns df ->
  any empties df = true ->
  mode <> "error"%string -> mode <> "drop"%string ->
  handle_null_timestamps df mode = Err (ValueError ("Unknown mode: " +:+ mode)).
Proof.
  intros Hc He H1 H2. unfold handle_null_timestamps.
  rewrite decide_True by done. rewrite He.
  rewrite decide_False by done. by rewrite decide_False by done.
Qed.

Lemma handle_null_timestamps_error df :
  "timestamp"%string ∈ columns df ->
  any empties df = true ->
  handle_null_timestamps df "error"
  = Err (ValueError ("Found NULL/empty timestamps at rows: "
                     +:+ Text.of_Z_list (take 5 (null_positions df)) +:+ " ...")).
Proof.
  intros Hc He. unfold handle_null_timestamps.
  rewrite decide_True by done. rewrite He. by rewrite decide_True by done.
Qed.

Lemma handle_null_timestamps_drop df :
  "timestamp"%string ∈ columns df ->
  handle_null_timestamps df "drop"
  = Ok (select (fun r => negb (empties r)) df).
Proof.
  intros Hc. unfold handle_null_timestamps. rewrite decide_True by done.
  destruct (any empties df) eqn:He.
  - rewrite decide_False by done. by rewrite decide_True by done.
  - f_equal. destruct df as [cs rs]. unfold select. simpl. f_equal.
    symmetry. apply filter_all, Forall_forall. intros ir Hin.
    destruct (empties ir.2) eqn:E; [|done].
    assert (any empties {| columns := cs; rows := rs |} = true) as Ht
      by (apply any_true; eauto).
    congruence.
Qed.

End NullTimestamps.

(** C3, amended.  A policy other than "error" and "drop" (the reserved
    "fill" included) makes the normalisation fail with an unknown-policy
    error naming the value when the table has a timestamp column and at
    least one row whose timestamp is null or blank; when no row has such a
    timestamp the policy value is not looked at and the null-timestamp step
    returns the table unchanged. *)
Theorem unknown_policy_needs_a_null_timestamp `{Pandas}
    (df : DataFrame) (mode : string) :
  mode <> "error"%string -> mode <> "drop"%string ->
  "timestamp"%string ∈ columns df ->
  (any empties df = true ->
     handle_null_timestamps df mode = Err (ValueError ("Unknown mode: " +:+ mode)) /\
     forall include_pnl,
       transform df include_pnl mode = Err (ValueError ("Unknown mode: " +:+ mode))) /\
  (any empties df = false -> handle_null_timestamps df mode = Ok df).
Proof.
  intros H1 H2 Hc. split.
  - intros He.
    pose proof (handle_null_timestamps_unknown df mode Hc He H1 H2) as E.
    split; [done|]. intros b. by apply transform_fails_with_handle.
  - by apply handle_null_timestamps_clean.
Qed.

Lemma unknown_policy_needs_a_null_timestamp_witness :
  handle_null_timestamps (H := Example.typed) Tables.batch5 "fill"
  = Err (ValueError "Unknown mode: fill") /\
  handle_null_timestamps (H := Example.typed) Tables.batch4 "fill" = Ok Tables.batch4.
Proof.
  split.
  - destruct (unknown_policy_needs_a_null_timestamp (H := Example.typed)
                Tables.batch5 "fill") as [Hnull _];
      [discriminate | discriminate | compute_done |].
    destruct Hnull as [Hfail _]; [vm_compute; reflexivity | exact Hfail].
  - destruct (unknown_policy_needs_a_null_timestamp (H := Example.typed)
                Tables.batch4 "fill") as [_ Hclean];
      [discriminate | discriminate | compute_done |].
    apply Hclean. vm_compute. reflexivity.
Defined.

(** C3 as stated fails: with the reserved policy "fill" and a table in which
    every timestamp is present, the normalisation raises nothing and the
    transform returns its aggregate. *)
Lemma fill_policy_passes_on_clean_table :
  handle_null_timestamps (H := Example.typed) Tables.batch4 "fill" = Ok Tables.batch4 /\
  any (empties (H := Example.typed)) Tables.batch4 = false /\
  is_Ok (transform (H := Example.typed) Tables.batch4 true "fill") /\
  ~ (exists msg, transform (H := Example.typed) Tables.batch4 true "fill"
                 = Err (ValueError msg)).
Proof.
  split; [reflexivity|]. split; [reflexivity|].
  assert (is_Ok (transform (H := Example.typed) Tables.batch4 true "fill")) as Hok
    by (vm_compute; exact I).
  split; [exact Hok|].
  intros [msg E]. rewrite E in Hok. exact Hok.
Qed.

(** C4.  Under the policy "error", a table with a row whose timestamp is
    null or blank makes the null-timestamp step, and with it the whole
    transform, fail with a message that lists the labels of those rows, the
    first five at most; under the policy "drop" the step returns the table
    without those rows and raises nothing, so that as many rows are left as
    the table had rows with a timestamp. *)
Theorem null_timestamp_policies `{Pandas} (df : DataFrame) :
  "timestamp"%string ∈ columns df ->
  any empties df = true ->
  (exists idx,
     idx = take 5 (null_positions df) /\
     (0 < length idx <= 5)%nat /\
     handle_null_timestamps df "error"
     = Err (ValueError ("Found NULL/empty timestamps at rows: "
                        +:+ Text.of_Z_list idx +:+ " ...")) /\
     forall include_pnl,
       transform df include_pnl "error"
       = Err (ValueError ("Found NULL/empty timestamps at rows: "
                          +:+ Text.of_Z_list idx +:+ " ..."))) /\
  (exists kept,
     handle_null_timestamps df "drop" = Ok kept /\
     columns kept = columns df /\
     rows kept = filter (fun ir : Z * row => negb (empties ir.2) = true) (rows df) /\
     any empties kept = false /\
     (length (rows kept) + length (null_positions df) = length (rows df))%nat).
Proof.
  intros Hc He. split.
  - exists (take 5 (null_positions df)). split; [done|]. split.
    + apply null_positions_nonempty in He. rewrite length_take.
      destruct (null_positions df); [done|]. cbn [length]. lia.
    + pose proof (handle_null_timestamps_error df Hc He) as E.
      split; [done|]. intros b. by apply transform_fails_with_handle.
  - exists (select (fun r => negb (empties r)) df).
    split; [by apply handle_null_timestamps_drop|].
    split; [done|]. split; [done|]. split.
    + destruct (any empties (select _ df)) eqn:E; [|done].
      apply any_true in E as (ir & Hin & Hm). simpl in Hin.
      apply list_elem_of_filter in Hin as [Hn _]. by rewrite Hm in Hn.
    + unfold null_positions. rewrite length_fmap. simpl.
      rewrite Nat.add_comm. apply (filter_split_length (fun ir : Z * row => empties ir.2)).
Qed.

Lemma null_timestamp_policies_witness :
  handle_null_timestamps (H := Example.typed) Tables.batch5 "error"
  = Err (ValueError "Found NULL/empty timestamps at rows: [2] ...") /\
  (exists kept,
     handle_null_timestamps (H := Example.typed) Tables.batch5 "drop" = Ok kept /\
     length (rows kept) = 4%nat).
Proof.
  destruct (null_timestamp_policies (H := Example.typed) Tables.batch5)
    as [(idx & Hidx & _ & Herr & _) (kept & Hkept & _ & _ & _ & Hlen)];
    [compute_done | reflexivity | ].
  split.
  - rewrite Herr, Hidx. reflexivity.
  - exists kept. split; [exact Hkept|].
    change (length (rows Tables.batch5)) with 5%nat in Hlen.
    change (length (null_positions (H := Example.typed) Tables.batch5))
      with 1%nat in Hlen.
    lia.
Defined.

(** The batch of the specification: five trades, one with a blank
    timestamp.  The policy "error" names its row; the policy "drop" leaves
    the four other trades, which also come out of the normalisation. *)
Example null_timestamp_batch :
  normalize (H := Example.typed) Tables.batch5 "error"
  = Err (ValueError "Found NULL/empty timestamps at rows: [2] ...") /\
  handle_null_timestamps (H := Example.typed) Tables.batch5 "drop"
  = Ok {| columns := req;
          rows := filter (fun ir : Z * row => ir.1 <> 2) (rows Tables.batch5) |} /\
  (fun df => length (rows df)) <$> normalize (H := Example.typed) Tables.batch5 "drop"
  = Ok 4%nat.
Proof. repeat split; compute_done. Qed.

(** ** Validation of the header *)

Lemma values_rows c df :
  values c df = (fun r : row => get r c) <$> (snd <$> rows df).
Proof. unfold values. by rewrite <- list_fmap_compose. Qed.

Lemma values_single_column c vs : values c (single_column c vs) = vs.
Proof.
  rewrite values_rows. unfold single_column. simpl.
  rewrite range_index_snd, <- list_fmap_compose.
  rewrite <- (list_fmap_id vs) at 2. apply list_fmap_ext.
  intros i v _. simpl. unfold get. by rewrite lookup_singleton_eq.
Qed.

(** C5.  When a required column is missing, the report of the validator is
    the single entry [missing_columns], a one-column table that lists the
    missing names in the order of the required columns; no entry of a
    row-level rule is in it, and it is the same whatever the rows hold,
    whatever pandas would read in them and whether or not future timestamps
    are forbidden.  The validator is a total function: it returns a report
    and raises nothing. *)
Theorem validate_formats_missing_columns `{Pandas}
    (df : DataFrame) (forbid_future_ts : bool) :
  (exists c, c ∈ req /\ c ∉ columns df) ->
  let miss := filter (fun c => c ∉ columns df) req in
  miss <> [] /\
  (forall c, c ∈ miss <-> c ∈ req /\ c ∉ columns df) /\
  validate_formats df forbid_future_ts
  = {[ "missing_columns"%string := single_column "missing" (Str <$> miss) ]} /\
  values "missing" (single_column "missing" (Str <$> miss)) = Str <$> miss /\
  dom (validate_formats df forbid_future_ts) = ({[ "missing_columns"%string ]} : gset string) /\
  (forall (lib : Pandas) (rs : list (Z * row)) (b : bool),
     validate_formats (H := lib) {| columns := columns df; rows := rs |} b
     = validate_formats (H := H) df forbid_future_ts).
Proof.
  intros (c & Hreq & Hmiss) miss.
  assert (forall c, c ∈ miss <-> c ∈ req /\ c ∉ columns df) as Hiff.
  { intros c'. unfold miss. rewrite list_elem_of_filter. tauto. }
  assert (miss <> []) as Hne.
  { intros E. assert (c ∈ miss) as Hin by (apply Hiff; done).
    rewrite E in Hin. by apply not_elem_of_nil in Hin. }
  assert (forall (lib : Pandas) rs b,
            validate_formats (H := lib) {| columns := columns df; rows := rs |} b
            = {[ "missing_columns"%string := single_column "missing" (Str <$> miss) ]})
    as Hall.
  { intros lib rs b. unfold validate_formats. simpl. fold miss.
    by rewrite decide_False by done. }
  assert (validate_formats df forbid_future_ts
          = {[ "missing_columns"%string := single_column "missing" (Str <$> miss) ]})
    as Hrep.
  { destruct df as [cs rs]. apply (Hall _ rs forbid_future_ts). }
  split; [done|]. split; [done|]. split; [done|]. split.
  - apply values_single_column.
  - split; [rewrite Hrep; apply dom_singleton_L|].
    intros lib rs b. rewrite Hrep. apply Hall.
Qed.

Lemma validate_formats_missing_columns_witness :
  validate_formats (H := Example.typed) Tables.no_price true
  = {[ "missing_columns"%string :=
         single_column "missing" [Str "side"; Str "price"] ]}.
Proof.
  destruct (validate_formats_missing_columns (H := Example.typed)
              Tables.no_price true) as (_ & _ & E & _).
  - exists "price"%string. split; compute_done.
  - exact E.
Defined.

(** ** Extraction *)

(** C9.  The table returned by [extract] does not depend on its [path]
    argument: whatever the path, it is the table read from the fixed file
    "data/trades.csv" (with trimmed, lower-cased column names), or the
    failure to find that file. *)
Theorem extract_ignores_path (fs : FileSystem) (path1 path2 : string) :
  extract fs path1 = extract fs path2 /\
  extract fs path1
  = rename_columns (fun c => Text.lower (Text.strip c))
      <$> read_csv fs "data/trades.csv".
Proof.
  split; [reflexivity|]. unfold extract.
  by destruct (read_csv fs "data/trades.csv").
Qed.

(** What is stored under the configured path has no effect either. *)
Lemma extract_ignores_file_at_path (fs : FileSystem) (path : string) (df : DataFrame) :
  path <> "data/trades.csv"%string ->
  extract (<[path := df]> fs) path = extract fs path.
Proof.
  intros Hne. unfold extract, read_csv. by rewrite lookup_insert_ne.
Qed.

Example extract_other_path :
  extract Tables.disk "other/trades.csv" = Ok Tables.batch4.
Proof. compute_done. Qed.

(** ** Results of [mapM] *)

Lemma mapM_Ok_inv {A B} (f : A -> Result B) (l : list A) (l' : list B) :
  mapM f l = Ok l' -> Forall2 (fun x y => f x = Ok y) l l'.
Proof.
  revert l'. induction l as [|x l IH]; intros l' E; simpl in E.
  - injection E as <-. constructor.
  - destruct (f x) as [y|] eqn:Ef; simpl in E; [|done].
    destruct (mapM f l) as [k|] eqn:Em; simpl in E; [|done].
    injection E as <-. constructor; [done|]. by apply IH.
Qed.

Lemma mapM_Ok_fmap {A B} (f : A -> Result B) (g : A -> B) (l : list A) :
  (forall x, x ∈ l -> f x = Ok (g x)) -> mapM f l = Ok (g <$> l).
Proof.
  induction l as [|x l IH]; intros Hf; simpl; [done|].
  rewrite Hf by left. simpl. rewrite IH; [done|].
  intros y Hy. apply Hf. by right.
Qed.

Lemma mapM_ext_in {A B} (f g : A -> Result B) (l : list A) :
  (forall x, x ∈ l -> f x = g x) -> mapM f l = mapM g l.
Proof.
  induction l as [|x l IH]; intros Hf; simpl; [done|].
  rewrite Hf by left. rewrite IH; [done|].
  intros y Hy. apply Hf. by right.
Qed.

(** ** The columns of the aggregate *)

Lemma key_row_lookup_None (by_cols : list string) (k : list cell) (c : string) :
  c ∉ by_cols -> key_row by_cols k !! c = None.
Proof.
  intros Hc. unfold key_row. apply not_elem_of_list_to_map_1.
  intros Hin. apply Hc. revert k Hin.
  induction by_cols as [|b by_cols IH]; intros [|x k] Hin; simpl in Hin;
    try by apply not_elem_of_nil in Hin.
  apply elem_of_cons in Hin as [->|Hin]; [left|right].
  apply (IH ltac:(intros ?; apply Hc; by right) k Hin).
Qed.

Lemma weekly_row_no_pnl `{Pandas} rs k r :
  weekly_row rs k = Ok r -> r !! "total_pnl"%string = None.
Proof.
  unfold weekly_row. intros E.
  destruct (agg_sum _ _) as [tv|]; simpl in E; [|done].
  destruct (agg_mean _ _) as [pr|]; simpl in E; [|done].
  injection E as <-.
  rewrite !lookup_insert_ne by done.
  apply key_row_lookup_None. compute_done.
Qed.

Lemma aggregate_without_pnl `{Pandas} df agg :
  aggregate df false = Ok agg ->
  columns agg = agg_columns /\
  forall ir, ir ∈ rows agg -> ir.2 !! "total_pnl"%string = None.
Proof.
  unfold aggregate. intros E.
  destruct (mapM (require df) group_cols); [|done].
  destruct (mapM (require df) agg_inputs); [|done].
  destruct (mapM (weekly_row (rows df)) _) as [rs|] eqn:Em; [|done].
  simpl in E. injection E as <-. simpl. split; [done|].
  intros ir Hin.
  assert (ir.2 ∈ rs) as Hr.
  { rewrite <- (range_index_snd rs). apply list_elem_of_fmap. eauto. }
  apply mapM_Ok_inv in Em.
  destruct (proj1 (list_elem_of_lookup _ _) Hr) as [i Hi].
  destruct (Forall2_lookup_r _ _ _ _ _ Em Hi) as (k & _ & Hk).
  by apply weekly_row_no_pnl in Hk.
Qed.

Lemma transform_without_pnl `{Pandas} df mode agg :
  transform df false mode = Ok agg ->
  columns agg = agg_columns /\
  forall ir, ir ∈ rows agg -> ir.2 !! "total_pnl"%string = None.
Proof.
  unfold transform. intros E.
  destruct (normalize df mode) as [d|]; simpl in E; [|done].
  by apply aggregate_without_pnl in E.
Qed.

(** C8.  When PnL inclusion is disabled, the aggregate that the transform
    returns has exactly the four grouping columns and [total_volume],
    [trade_count] and [price]: [total_pnl] is not a column of it, and no row
    holds a value under that name, missing or not. *)
Theorem no_pnl_column_when_disabled `{Pandas}
    (df : DataFrame) (null_ts_mode : string) (agg : DataFrame) :
  transform df false null_ts_mode = Ok agg ->
  ("total_pnl"%string ∉ columns agg) /\
  columns agg = ["week_start_date"; "client_type"; "user_id"; "symbol";
                 "total_volume"; "trade_count"; "price"]%string /\
  forall ir, ir ∈ rows agg -> ir.2 !! "total_pnl"%string = None.
Proof.
  intros E. apply transform_without_pnl in E as [Hc Hr].
  split; [rewrite Hc; compute_done|]. split; [by rewrite Hc|done].
Qed.

Lemma no_pnl_column_when_disabled_witness :
  exists agg,
    transform (H := Example.typed) Tables.batch4 false "error" = Ok agg /\
    ("total_pnl"%string ∉ columns agg) /\
    length (rows agg) = 3%nat.
Proof.
  destruct (transform (H := Example.typed) Tables.batch4 false "error")
    as [agg|e] eqn:E; [|by vm_compute in E].
  exists agg. split; [done|].
  split; [apply (no_pnl_column_when_disabled (H := Example.typed) _ _ _ E)|].
  vm_compute in E. injection E as <-. reflexivity.
Defined.

(** ** The top-clients report needs [total_pnl] *)

Lemma top_bronze_clients_needs_pnl `{Pandas} (agg_df : DataFrame) :
  "total_pnl"%string ∉ columns agg_df ->
  exists key, top_bronze_clients agg_df = Err (KeyError key).
Proof.
  intros Hno. unfold top_bronze_clients, client_groups, require.
  destruct (decide ("client_type"%string ∈ columns agg_df)); [|by eexists].
  simpl.
  destruct (decide ("user_id"%string ∈ columns agg_df)); [|by eexists].
  simpl. rewrite filter_cons_True by done.
  rewrite decide_False by done. by eexists.
Qed.

(** C10.  The top-bronze-clients report reads the column [total_pnl]
    whatever the table: on an aggregate without that column it raises a
    [KeyError] and writes nothing, the file system being left as it was. *)
Theorem export_needs_total_pnl `{Pandas}
    (agg_df : DataFrame) (out_csv : string) (fs : FileSystem) :
  "total_pnl"%string ∉ columns agg_df ->
  (exists key, export_top_bronze_exact agg_df out_csv fs = Err (KeyError key)) /\
  is_Err (export_top_bronze_exact agg_df out_csv fs).
Proof.
  intros Hno. destruct (top_bronze_clients_needs_pnl agg_df Hno) as [key E].
  unfold export_top_bronze_exact. rewrite E. simpl. split; [by exists key|done].
Qed.

(** In particular the report fails on every aggregate that the transform
    returns with PnL disabled. *)
Lemma export_fails_without_pnl `{Pandas} df mode agg out_csv fs :
  transform df false mode = Ok agg ->
  exists key, export_top_bronze_exact agg out_csv fs = Err (KeyError key).
Proof.
  intros E. apply transform_without_pnl in E as [Hc _].
  unfold export_top_bronze_exact.
  destruct (top_bronze_clients_needs_pnl agg) as [key Ek].
  - rewrite Hc. compute_done.
  - rewrite Ek. by exists key.
Qed.

Lemma export_needs_total_pnl_witness :
  transform (H := Example.typed) Tables.batch4 false "error" = Ok Tables.weekly4_no_pnl /\
  export_top_bronze_exact (H := Example.typed) Tables.weekly4_no_pnl
    "output/top_clients.csv" ∅
  = Err (KeyError "Column(s) ['total_pnl'] do not exist").
Proof.
  split; [reflexivity|].
  destruct (export_needs_total_pnl (H := Example.typed) Tables.weekly4_no_pnl
              "output/top_clients.csv" ∅)
    as [[key Ek] _]; [compute_done|].
  rewrite Ek. vm_compute in Ek. by injection Ek as <-.
Defined.

(** ** Signed cash-flow *)

Lemma cashflow_sell `{Pandas} r p q :
  get r "price" = Num p -> get r "quantity" = Num q ->
  get r "side" = Str "sell" ->
  cashflow r = Ok (Num (mul_numbers (mul_numbers p q) 1)).
Proof. intros Hp Hq Hs. unfold cashflow. by rewrite Hp, Hq, Hs. Qed.

Lemma cashflow_other `{Pandas} r p q :
  get r "price" = Num p -> get r "quantity" = Num q ->
  get r "side" <> NA -> get r "side" <> Str "sell" ->
  cashflow r = Ok (Num (mul_numbers (mul_numbers p q) (-1))).
Proof.
  intros Hp Hq Hna Hs. unfold cashflow. rewrite Hp, Hq.
  destruct (get r "side") as [|s|x|t] eqn:E; [done|..]; cbn [cell_mul];
    by rewrite bool_decide_eq_false_2.
Qed.

Lemma cashflow_missing_side `{Pandas} r :
  get r "side" = NA -> cashflow r = Err TypeError.
Proof. intros Hs. unfold cashflow. by rewrite Hs. Qed.

(** The sign law on the rows of the specification: one bronze trade of 2
    units at 10 gives its group [total_pnl] -20 when bought and +20 when
    sold. *)
Example pnl_sign_law :
  values "total_pnl" <$> transform (H := Example.typed) (Tables.single "buy") true "error"
  = Ok [Example.num (-20)] /\
  values "total_pnl" <$> transform (H := Example.typed) (Tables.single "sell") true "error"
  = Ok [Example.num 20].
Proof. split; compute_done. Qed.

(** C6, at an input on which it fails.  Two bronze sales of 2 units at 10,
    the second with no user: both rows have the signed cash-flow +20 and
    each is a group of the aggregate with [total_volume] 2, but the group
    without a user gets a missing [total_pnl] where the claim says 20.  The
    groups of the aggregate are formed with [dropna=False], the sums of the
    cash-flows without it. *)
Theorem total_pnl_missing_for_null_key :
  (cashflow (H := Example.typed) <$> (snd <$> rows Tables.null_user))
  = [Ok (Example.num 20); Ok (Example.num 20)] /\
  match transform (H := Example.typed) Tables.null_user true "error" with
  | Ok agg =>
      values "user_id" agg = [Str "u1"; NA] /\
      values "total_volume" agg = [Example.num 2; Example.num 2] /\
      values "total_pnl" agg = [Example.num 20; NA]
  | Err _ => False
  end.
Proof. split; [compute_done|]. vm_compute. repeat split; compute_done. Qed.

(** ** The order of cells and keys *)

Global Instance cell_le_po : PartialOrder cell_le.
Proof.
  split; [split|].
  - intros [| s | q | t]; simpl; reflexivity.
  - intros [| s1 | q1 | t1] [| s2 | q2 | t2] [| s3 | q3 | t3]; simpl;
      try lia; try done; intros H12 H23; etrans; eassumption.
  - intros [| s1 | q1 | t1] [| s2 | q2 | t2]; simpl; try lia; try done;
      intros H12 H21; f_equal.
    + by apply (anti_symm String.le).
    + by apply Qcle_antisym.
    + lia.
Qed.

Global Instance cell_le_total : Total cell_le.
Proof.
  intros [| s1 | q1 | t1] [| s2 | q2 | t2]; simpl; try lia.
  - apply (total String.le).
  - apply Qc_le_total.
Qed.

Global Instance key_le_po : PartialOrder key_le.
Proof.
  split; [split|].
  - intros k. induction k as [|x k IH]; simpl; [done|].
    by rewrite decide_True by done.
  - intros k1. induction k1 as [|x k1 IH]; intros [|y k2] [|z k3];
      simpl; try done.
    intros H1 H2. repeat case_decide; subst; try done.
    + by eapply IH.
    + exfalso. match goal with Hne : _ <> _ |- _ => apply Hne end.
      by apply (anti_symm cell_le).
    + by etrans.
  - intros k1. induction k1 as [|x k1 IH]; intros [|y k2]; simpl; try done.
    intros H1 H2. repeat case_decide; subst; try done.
    + f_equal. by apply IH.
    + exfalso. match goal with Hne : _ <> _ |- _ => apply Hne end.
      by apply (anti_symm cell_le).
Qed.

Global Instance key_le_total : Total key_le.
Proof.
  intros k1. induction k1 as [|x k1 IH]; intros [|y k2]; simpl; auto.
  repeat case_decide; subst; try done;
    first [apply IH | apply (total cell_le)].
Qed.

(** ** Order-independence of the aggregation *)

Lemma sorted_keys_unique (l1 l2 : list (list cell)) :
  l1 ≡ₚ l2 -> merge_sort key_le l1 = merge_sort key_le l2.
Proof.
  intros Hp. apply (Sorted_unique key_le).
  - apply Sorted_merge_sort, _.
  - apply Sorted_merge_sort, _.
  - by rewrite !merge_sort_Permutation.
Qed.

Lemma remove_dups_Permutation {A} `{EqDecision A} (l1 l2 : list A) :
  l1 ≡ₚ l2 -> remove_dups l1 ≡ₚ remove_dups l2.
Proof.
  intros Hp. apply NoDup_Permutation; try apply NoDup_remove_dups.
  intros x. by rewrite !elem_of_remove_dups, Hp.
Qed.

Lemma group_keys_Permutation by_cols dropna (rs1 rs2 : list (Z * row)) :
  rs1 ≡ₚ rs2 -> group_keys by_cols dropna rs1 = group_keys by_cols dropna rs2.
Proof.
  intros Hp. unfold group_keys. apply sorted_keys_unique.
  apply remove_dups_Permutation. by rewrite Hp.
Qed.

Lemma group_rows_Permutation by_cols k (rs1 rs2 : list (Z * row)) :
  rs1 ≡ₚ rs2 -> group_rows by_cols k rs1 ≡ₚ group_rows by_cols k rs2.
Proof. intros Hp. unfold group_rows. by rewrite Hp. Qed.

Lemma sum_Qc_Permutation (qs1 qs2 : list Qc) :
  qs1 ≡ₚ qs2 -> sum_Qc qs1 = sum_Qc qs2.
Proof.
  unfold sum_Qc. induction 1 as [|x l l' _ IH|x y l|l l' l'' _ IH1 _ IH2]; simpl.
  - done.
  - by rewrite IH.
  - rewrite !Qcplus_assoc. by rewrite (Qcplus_comm y x).
  - by rewrite IH1.
Qed.

Lemma numerics_spec (cs : list cell) :
  numerics cs = if forallb summable cs then Ok (omap number_of cs) else Err TypeError.
Proof.
  induction cs as [|[| s | q | t] cs IH]; simpl; try done.
  rewrite IH. by destruct (forallb summable cs).
Qed.

Lemma forallb_Permutation {A} (f : A -> bool) (l1 l2 : list A) :
  l1 ≡ₚ l2 -> forallb f l1 = forallb f l2.
Proof.
  induction 1 as [|x l l' _ IH|x y l|l l' l'' _ IH1 _ IH2]; simpl.
  - done.
  - by rewrite IH.
  - by destruct (f x), (f y).
  - by rewrite IH1.
Qed.

Lemma numbers_Permutation c (g1 g2 : list row) :
  g1 ≡ₚ g2 -> numbers c g1 ≡ₚ numbers c g2.
Proof. intros Hp. unfold numbers. by rewrite Hp. Qed.

Lemma agg_sum_Permutation `{Pandas} c (g1 g2 : list row) :
  g1 ≡ₚ g2 -> order_blind c g2 -> agg_sum c g1 = agg_sum c g2.
Proof.
  intros Hp Hb. unfold agg_sum. rewrite !numerics_spec.
  rewrite (forallb_Permutation summable _ ((fun r => get r c) <$> g2))
    by (by rewrite Hp).
  destruct (forallb _ _); [|done]. simpl. do 2 f_equal.
  by destruct (Hb g1 Hp) as [Hs _].
Qed.

Lemma agg_mean_Permutation `{Pandas} c (g1 g2 : list row) :
  g1 ≡ₚ g2 -> order_blind c g2 -> agg_mean c g1 = agg_mean c g2.
Proof.
  intros Hp Hb. unfold agg_mean. rewrite !numerics_spec.
  rewrite (forallb_Permutation summable _ ((fun r => get r c) <$> g2))
    by (by rewrite Hp).
  destruct (forallb _ _); [|done]. simpl. f_equal.
  destruct (Hb g1 Hp) as [_ Hm]. fold (numbers c g1) (numbers c g2).
  pose proof (Permutation_length (numbers_Permutation c _ _ Hp)) as Hl.
  destruct (numbers c g1) as [|q1 l1], (numbers c g2) as [|q2 l2]; try done.
  by rewrite Hm.
Qed.

Lemma agg_size_Permutation (g1 g2 : list row) :
  g1 ≡ₚ g2 -> agg_size g1 = agg_size g2.
Proof. intros Hp. unfold agg_size. by rewrite (Permutation_length Hp). Qed.

Lemma weekly_row_Permutation `{Pandas} (rs1 rs2 : list (Z * row)) k :
  rs1 ≡ₚ rs2 ->
  order_blind "quantity" (group_rows group_cols k rs2) ->
  order_blind "price" (group_rows group_cols k rs2) ->
  weekly_row rs1 k = weekly_row rs2 k.
Proof.
  intros Hp Hq Hpr. unfold weekly_row.
  pose proof (group_rows_Permutation group_cols k _ _ Hp) as Hg.
  rewrite (agg_sum_Permutation _ _ _ Hg Hq), (agg_mean_Permutation _ _ _ Hg Hpr).
  by rewrite (agg_size_Permutation _ _ Hg).
Qed.

Lemma pnl_row_Permutation `{Pandas} (rs1 rs2 : list (Z * row)) k :
  rs1 ≡ₚ rs2 ->
  order_blind "cashflow" (group_rows group_cols k rs2) ->
  pnl_row rs1 k = pnl_row rs2 k.
Proof.
  intros Hp Hb. unfold pnl_row.
  pose proof (group_rows_Permutation group_cols k _ _ Hp) as Hg.
  by rewrite (agg_sum_Permutation _ _ _ Hg Hb).
Qed.

Lemma aggregate_Permutation `{Pandas} (df1 df2 : DataFrame) (include_pnl : bool) :
  columns df1 = columns df2 -> rows df1 ≡ₚ rows df2 ->
  (forall k c, c ∈ ["quantity"; "price"; "cashflow"]%string ->
     order_blind c (group_rows group_cols k (rows df2))) ->
  aggregate df1 include_pnl = aggregate df2 include_pnl.
Proof.
  intros Hc Hp Hb. unfold aggregate.
  assert (require df1 = require df2) as -> by (unfold require; by rewrite Hc).
  rewrite Hc.
  rewrite !(group_keys_Permutation _ _ _ _ Hp).
  rewrite (mapM_ext_in (weekly_row (rows df1)) (weekly_row (rows df2)))
    by (intros; apply weekly_row_Permutation; [done|apply Hb; compute_done..]).
  rewrite (mapM_ext_in (pnl_row (rows df1)) (pnl_row (rows df2)))
    by (intros; apply pnl_row_Permutation; [done|apply Hb; compute_done]).
  done.
Qed.

Lemma key_of_insert_other by_cols c v (r : row) :
  c ∉ by_cols -> key_of by_cols (<[c := v]> r) = key_of by_cols r.
Proof.
  intros Hc. unfold key_of. apply list_fmap_ext. intros i b Hb. unfold get.
  rewrite lookup_insert_ne; [done|].
  intros ->. apply Hc. by eapply list_elem_of_lookup_2.
Qed.

Lemma key_of_key_row by_cols k :
  NoDup by_cols -> length k = length by_cols ->
  key_of by_cols (key_row by_cols k) = k.
Proof.
  intros Hnd. revert k. unfold key_row.
  induction Hnd as [|c by_cols Hc Hnd IH]; intros [|x k] Hlen;
    simpl in Hlen; try done.
  simpl. rewrite key_of_insert_other by done.
  unfold get at 1. rewrite lookup_insert_eq. simpl. f_equal.
  apply IH. lia.
Qed.

Lemma group_keys_spec by_cols dropna (rs : list (Z * row)) k :
  k ∈ group_keys by_cols dropna rs <->
  (dropna && has_na k) = false /\ exists ir, ir ∈ rs /\ key_of by_cols ir.2 = k.
Proof.
  unfold group_keys. rewrite merge_sort_Permutation, elem_of_remove_dups.
  rewrite list_elem_of_filter, list_elem_of_fmap. split.
  - intros (Hna & ir & -> & Hin). eauto.
  - intros (Hna & ir & Hin & <-). eauto.
Qed.

Lemma group_keys_NoDup by_cols dropna (rs : list (Z * row)) :
  NoDup (group_keys by_cols dropna rs).
Proof.
  unfold group_keys. rewrite merge_sort_Permutation. apply NoDup_remove_dups.
Qed.

Lemma group_keys_length by_cols dropna (rs : list (Z * row)) k :
  k ∈ group_keys by_cols dropna rs -> length k = length by_cols.
Proof.
  rewrite group_keys_spec. intros (_ & ir & _ & <-).
  unfold key_of. apply length_fmap.
Qed.

Lemma weekly_row_key `{Pandas} rs k r :
  length k = length group_cols ->
  weekly_row rs k = Ok r -> key_of group_cols r = k.
Proof.
  unfold weekly_row. intros Hlen E.
  destruct (agg_sum _ _) as [tv|]; simpl in E; [|done].
  destruct (agg_mean _ _) as [pr|]; simpl in E; [|done].
  injection E as <-.
  rewrite !key_of_insert_other by compute_done.
  apply key_of_key_row; [compute_done | done].
Qed.

Lemma merge_pnl_key pnl r :
  key_of group_cols (merge_pnl pnl r) = key_of group_cols r.
Proof. unfold merge_pnl. apply key_of_insert_other. compute_done. Qed.

(** The keys of the aggregate are the group keys, in their order. *)
Lemma aggregate_keys `{Pandas} df include_pnl agg :
  aggregate df include_pnl = Ok agg ->
  key_of group_cols <$> (snd <$> rows agg) = group_keys group_cols false (rows df).
Proof.
  unfold aggregate. intros E.
  destruct (mapM (require df) group_cols); [|done].
  destruct (mapM (require df) agg_inputs); [|done].
  destruct (mapM (weekly_row (rows df)) _) as [rs|] eqn:Em; [|done].
  simpl in E.
  assert (key_of group_cols <$> rs = group_keys group_cols false (rows df)) as Hk.
  { clear E. apply mapM_Ok_inv in Em.
    assert (Forall (fun k => length k = length group_cols)
                   (group_keys group_cols false (rows df))) as Hall.
    { apply Forall_forall. intros k Hk. by eapply group_keys_length. }
    revert Hall Em. generalize (group_keys group_cols false (rows df)).
    intros ks Hks Em. induction Em as [|k r ks rs' Hr _ IH]; [done|].
    apply Forall_cons in Hks as [Hlen Hks]. rewrite fmap_cons.
    f_equal; [|by apply IH]. by eapply weekly_row_key. }
  destruct (include_pnl && _).
  - destruct (mapM (pnl_row (rows df)) _) as [pnl|]; [|done].
    simpl in E. injection E as <-. simpl.
    rewrite range_index_snd, <- list_fmap_compose. rewrite <- Hk.
    apply list_fmap_ext. intros i r _. simpl. apply merge_pnl_key.
  - injection E as <-. simpl. by rewrite range_index_snd.
Qed.

(** ** The descending sort of the report *)

Lemma omap_lookup_seq {A} (pre l : list A) :
  omap (fun i => (pre ++ l) !! i) (seq (length pre) (length l)) = l.
Proof.
  revert pre. induction l as [|x l IH]; intros pre; [done|].
  cbn [length seq omap list_omap].
  rewrite list_lookup_middle by done. f_equal.
  specialize (IH (pre ++ [x])). rewrite length_app, <- app_assoc in IH.
  cbn [length app] in IH. by rewrite Nat.add_1_r in IH.
Qed.

Lemma numbers_omap_lookup c (l : list row) (positions : list nat) :
  numbers c (omap (fun i => l !! i) positions)
  = numbers_at ((fun r => get r c) <$> l) positions.
Proof.
  unfold numbers, numbers_at.
  induction positions as [|i positions IH]; [done|].
  cbn [omap list_omap]. rewrite list_lookup_fmap.
  destruct (l !! i) as [r|]; cbn; [|done].
  rewrite <- IH. by destruct (number_of (get r c)).
Qed.

Lemma numeric_ranked (l : list row) :
  Forall (fun r => exists v, get r "total_volume" = Num v) l ->
  StronglySorted (fun a b : Qc => (b ≤ a)%Qc) (numbers "total_volume" l) ->
  StronglySorted ranked_before l.
Proof.
  unfold numbers. induction l as [|x l IH]; intros Hnum Hs; [constructor|].
  apply Forall_cons in Hnum as [[vx Hx] Hnum].
  rewrite fmap_cons in Hs. cbn [omap list_omap] in Hs. rewrite Hx in Hs.
  cbn [number_of] in Hs. apply StronglySorted_cons in Hs as [Hall Hs].
  constructor; [by apply IH|].
  rewrite Forall_forall in Hall. rewrite Forall_forall in Hnum.
  apply Forall_forall. intros y Hy.
  destruct (Hnum y Hy) as [vy Hvy]. exists vx, vy. split; [done|]. split; [done|].
  apply Hall. apply list_elem_of_omap. exists (Num vy). split; [|done].
  apply list_elem_of_fmap. exists y. by rewrite Hvy.
Qed.

Section SortValues.
Context `{Pandas}.
Hypothesis Hsort : sorts_descending.

Lemma sort_values_desc_Permutation c (l : list row) :
  Forall (fun r => exists v, get r c = Num v) l ->
  sort_values_desc c l ≡ₚ l.
Proof.
  intros Hnum. unfold sort_values_desc.
  destruct (Hsort ((fun r => get r c) <$> l)) as [Hp _].
  { apply Forall_fmap. by eapply Forall_impl; [exact Hnum|]. }
  rewrite Hp, length_fmap. apply reflexive_eq, (omap_lookup_seq [] l).
Qed.

Lemma sort_values_desc_ranked (l : list row) :
  Forall (fun r => exists v, get r "total_volume" = Num v) l ->
  StronglySorted ranked_before (sort_values_desc "total_volume" l).
Proof.
  intros Hnum. apply numeric_ranked.
  - by rewrite sort_values_desc_Permutation.
  - unfold sort_values_desc. rewrite numbers_omap_lookup.
    apply Hsort. apply Forall_fmap. by eapply Forall_impl; [exact Hnum|].
Qed.

End SortValues.

(** The stable sort of the examples sorts descending. *)

Lemma insert_desc_Permutation x l : insert_desc x l ≡ₚ x :: l.
Proof.
  induction l as [|y l IH]; simpl; [done|].
  case_decide; [|done]. rewrite IH. apply Permutation_swap.
Qed.

Lemma ranks_above_Num (a b : Qc) : ranks_above (Num a) (Num b) <-> (b < a)%Qc.
Proof. simpl. symmetry. apply Qclt_nge. Qed.

Lemma insert_desc_sorted (x : nat * cell) (l : list (nat * cell)) :
  (exists v, x.2 = Num v) ->
  Forall (fun y => exists v, y.2 = Num v) l ->
  StronglySorted value_not_below l ->
  StronglySorted value_not_below (insert_desc x l).
Proof.
  intros [vx Hx] Hnum Hs.
  induction l as [|y l IH]; simpl; [repeat constructor|].
  apply Forall_cons in Hnum as [[vy Hy] Hnum].
  apply StronglySorted_cons in Hs as [Hyl Hs].
  rewrite Hx, Hy. case_decide as Hr.
  - apply ranks_above_Num in Hr.
    apply StronglySorted_cons. split; [|by apply IH].
    rewrite insert_desc_Permutation. constructor; [|done].
    exists vy, vx. split; [done|]. split; [done|]. by apply Qclt_le_weak.
  - rewrite ranks_above_Num in Hr. apply Qcle_ngt in Hr.
    apply StronglySorted_cons. split; [|by apply StronglySorted_cons].
    constructor; [by exists vx, vy|].
    apply Forall_forall. intros z Hz. rewrite Forall_forall in Hyl.
    destruct (Hyl z Hz) as (vy' & vz & Hy' & Hzv & Hord).
    rewrite Hy in Hy'. injection Hy' as <-.
    exists vx, vz. split; [done|]. split; [done|]. by etrans.
Qed.

Lemma stable_argsort_sorts (vs : list cell) :
  Forall (fun v => exists q, v = Num q) vs ->
  stable_argsort_desc vs ≡ₚ seq 0 (length vs) /\
  StronglySorted (fun a b : Qc => (b ≤ a)%Qc) (numbers_at vs (stable_argsort_desc vs)).
Proof.
  intros Hnum. unfold stable_argsort_desc.
  set (pairs := imap pair vs).
  assert (foldr insert_desc [] pairs ≡ₚ pairs) as Hp.
  { induction pairs as [|x l IH]; [done|]. simpl.
    by rewrite insert_desc_Permutation, IH. }
  assert (Forall (fun y : nat * cell => vs !! y.1 = Some y.2 /\ exists v, y.2 = Num v)
                 pairs) as Hpairs.
  { apply Forall_forall. intros [i v] Hin. unfold pairs in Hin.
    apply list_elem_of_lookup in Hin as [j Hj].
    rewrite list_lookup_imap in Hj.
    destruct (vs !! j) as [v'|] eqn:Ev; [|done]. injection Hj as <- <-.
    split; [done|]. rewrite Forall_forall in Hnum. apply Hnum.
    by eapply list_elem_of_lookup_2. }
  split.
  - rewrite Hp. unfold pairs. apply reflexive_eq.
    apply list_eq. intros i. rewrite list_lookup_fmap, list_lookup_imap.
    destruct (vs !! i) as [v|] eqn:Ev; simpl.
    + by rewrite lookup_seq_lt by (by eapply lookup_lt_Some).
    + by rewrite lookup_seq_ge by (by apply lookup_ge_None).
  - assert (StronglySorted value_not_below (foldr insert_desc [] pairs)) as Hs.
    { clear Hp. induction pairs as [|x l IH]; [constructor|]. simpl.
      apply Forall_cons in Hpairs as [[_ Hx] Hl].
      apply insert_desc_sorted; [done| |by apply IH].
      assert (foldr insert_desc [] l ≡ₚ l) as ->.
      { clear. induction l as [|x l IH]; [done|]. simpl.
        by rewrite insert_desc_Permutation, IH. }
      eapply Forall_impl; [exact Hl|]. by intros y [_ Hy]. }
    rewrite <- Hp in Hpairs. revert Hpairs Hs.
    generalize (foldr insert_desc [] pairs). intros l Hl Hs.
    unfold numbers_at. induction Hs as [|x l Hs IH Hall]; [constructor|].
    apply Forall_cons in Hl as [[Hx [vx Hvx]] Hl].
    rewrite fmap_cons. cbn [omap list_omap]. rewrite Hx. cbn. rewrite Hvx. cbn.
    constructor; [by apply IH|].
    apply Forall_forall. intros b Hb.
    apply list_elem_of_omap in Hb as (i & Hi & Hb).
    apply list_elem_of_fmap in Hi as (y & -> & Hy).
    rewrite Forall_forall in Hall. rewrite Forall_forall in Hl.
    destruct (Hl y Hy) as [Hyv _]. rewrite Hyv in Hb. cbn in Hb.
    destruct (Hall y Hy) as (a' & b' & Ha' & Hb' & Hle).
    rewrite Hvx in Ha'. injection Ha' as <-. rewrite Hb' in Hb.
    cbn in Hb. by injection Hb as <-.
Qed.

Lemma typed_sorts_descending : sorts_descending (H := Example.typed).
Proof. intros vs Hnum. by apply stable_argsort_sorts. Qed.

(** ** The groups of the report *)

Lemma agg_sum_summable `{Pandas} c (g : list row) :
  Forall (fun r => summable (get r c) = true) g ->
  agg_sum c g = Ok (Num (column_sum c g)).
Proof.
  intros Hall. unfold agg_sum. rewrite numerics_spec.
  assert (forallb summable ((fun r => get r c) <$> g) = true) as ->; [|done].
  apply forallb_forall. intros x Hx. apply list_elem_of_In in Hx.
  apply list_elem_of_fmap in Hx as (r & -> & Hr).
  rewrite Forall_forall in Hall. by apply Hall.
Qed.

Lemma key_of_single (c : string) (r : row) (u : cell) :
  key_of [c] r = [u] <-> get r c = u.
Proof. unfold key_of. simpl. split; [by intros [= ->] | by intros ->]. Qed.

Lemma filter_snd_filter (P : row -> bool) (Q : row -> Prop)
    `{forall r, Decision (Q r)} (rs : list (Z * row)) :
  filter Q (snd <$> filter (fun ir : Z * row => P ir.2 = true) rs)
  = filter (fun r => P r = true /\ Q r) (snd <$> rs).
Proof.
  induction rs as [|[i r] rs IH]; [done|].
  rewrite fmap_cons. simpl.
  destruct (P r) eqn:HP.
  - rewrite (filter_cons_True (fun ir : Z * row => P ir.2 = true)) by done.
    rewrite fmap_cons. simpl. destruct (decide (Q r)) as [HQ|HQ].
    + rewrite !filter_cons_True by (rewrite ?HP; done). by rewrite IH.
    + rewrite !filter_cons_False by tauto. done.
  - rewrite (filter_cons_False (fun ir : Z * row => P ir.2 = true))
      by (simpl; rewrite HP; done).
    rewrite filter_cons_False by (rewrite HP; intros [? _]; done). done.
Qed.

Lemma bronze_group_rows (agg_df : DataFrame) (u : cell) :
  group_rows ["user_id"%string] [u] (rows (select is_bronze agg_df))
  = bronze_rows_of u agg_df.
Proof.
  unfold group_rows, bronze_rows_of, select. simpl rows.
  etrans.
  { apply (filter_snd_filter is_bronze
             (fun r => key_of ["user_id"%string] r = [u])). }
  apply list_filter_iff. intros r. by rewrite key_of_single.
Qed.

Lemma bronze_rows_of_elem (agg_df : DataFrame) (u : cell) (r : row) :
  r ∈ bronze_rows_of u agg_df ->
  exists ir, ir ∈ rows agg_df /\ ir.2 = r /\ is_bronze r = true /\ get r "user_id" = u.
Proof.
  unfold bronze_rows_of. rewrite list_elem_of_filter, list_elem_of_fmap.
  intros ([Hb Hu] & ir & -> & Hin). eauto.
Qed.

Lemma client_row_report `{Pandas} (agg_df : DataFrame) (u : cell) :
  summable_columns agg_df ->
  client_row (rows (select is_bronze agg_df)) [u] = Ok (report_row agg_df u).
Proof.
  intros Hsum. unfold client_row. rewrite bronze_group_rows.
  unfold summable_columns in Hsum. rewrite Forall_forall in Hsum.
  rewrite !agg_sum_summable.
  - reflexivity.
  - apply Forall_forall. intros r Hr.
    apply bronze_rows_of_elem in Hr as (ir & Hin & <- & _). by apply Hsum.
  - apply Forall_forall. intros r Hr.
    apply bronze_rows_of_elem in Hr as (ir & Hin & <- & _). by apply Hsum.
Qed.

Lemma report_row_user `{Pandas} agg_df u : get (report_row agg_df u) "user_id" = u.
Proof.
  unfold report_row, get, key_row. simpl.
  rewrite !lookup_insert_ne by done. by rewrite lookup_insert_eq.
Qed.

Lemma report_row_volume `{Pandas} agg_df u :
  get (report_row agg_df u) "total_volume" = Num (volume_of agg_df u).
Proof.
  unfold report_row, get.
  rewrite lookup_insert_ne by done. by rewrite lookup_insert_eq.
Qed.

Lemma report_row_pnl `{Pandas} agg_df u :
  get (report_row agg_df u) "total_pnl" = Num (pnl_of agg_df u).
Proof. unfold report_row, get. by rewrite lookup_insert_eq. Qed.

Lemma bronze_keys_single agg_df k :
  k ∈ bronze_keys agg_df -> exists u, k = [u].
Proof.
  intros Hk. apply group_keys_length in Hk.
  destruct k as [|u [|? ?]]; simpl in Hk; try done. by exists u.
Qed.

Lemma bronze_keys_elem agg_df u :
  [u] ∈ bronze_keys agg_df <-> u <> NA /\ bronze_rows_of u agg_df <> [].
Proof.
  unfold bronze_keys. rewrite group_keys_spec. simpl. split.
  - intros (Hna & ir & Hin & Hk). split.
    + intros ->. done.
    + apply key_of_single in Hk.
      apply list_elem_of_filter in Hin as [Hb Hin].
      intros E. assert (ir.2 ∈ bronze_rows_of u agg_df) as Hr.
      { unfold bronze_rows_of. apply list_elem_of_filter. split; [done|].
        apply list_elem_of_fmap. eauto. }
      rewrite E in Hr. by apply not_elem_of_nil in Hr.
  - intros [Hna Hne]. split; [by destruct u|].
    destruct (bronze_rows_of u agg_df) as [|r g] eqn:E; [done|].
    assert (r ∈ bronze_rows_of u agg_df) as Hr by (rewrite E; left).
    apply bronze_rows_of_elem in Hr as (ir & Hin & <- & Hb & Hu).
    exists ir. split; [|by apply key_of_single].
    apply list_elem_of_filter. done.
Qed.

Lemma client_groups_report `{Pandas} (agg_df : DataFrame) :
  "client_type"%string ∈ columns agg_df ->
  "user_id"%string ∈ columns agg_df ->
  "total_volume"%string ∈ columns agg_df ->
  "total_pnl"%string ∈ columns agg_df ->
  summable_columns agg_df ->
  client_groups agg_df
  = Ok ((fun k => report_row agg_df (hd NA k)) <$> bronze_keys agg_df).
Proof.
  intros H1 H2 H3 H4 Hsum. unfold client_groups, require.
  change (columns (select is_bronze agg_df)) with (columns agg_df).
  rewrite (decide_True (P := "client_type"%string ∈ columns agg_df)) by done.
  rewrite (decide_True (P := "user_id"%string ∈ columns agg_df)) by done.
  assert (filter (fun c => c ∉ columns agg_df) ["total_pnl"; "total_volume"]%string
          = []) as ->.
  { rewrite !filter_cons_False by tauto. apply filter_nil. }
  rewrite decide_True by done. cbn [mbind Result_bind].
  apply mapM_Ok_fmap. intros k Hk.
  destruct (bronze_keys_single agg_df k Hk) as [u ->]. simpl.
  by apply client_row_report.
Qed.

Lemma users_report_rows `{Pandas} agg_df (ks : list (list cell)) :
  users ((fun k => report_row agg_df (hd NA k)) <$> ks) = hd NA <$> ks.
Proof.
  unfold users. rewrite <- list_fmap_compose. apply list_fmap_ext.
  intros i k _. simpl. apply report_row_user.
Qed.

Lemma bronze_users_NoDup agg_df : NoDup (hd NA <$> bronze_keys agg_df).
Proof.
  apply NoDup_fmap_2_strong; [|apply group_keys_NoDup].
  intros k1 k2 H1 H2 E.
  destruct (bronze_keys_single _ _ H1) as [u1 ->].
  destruct (bronze_keys_single _ _ H2) as [u2 ->].
  simpl in E. by subst.
Qed.

Lemma bronze_users_elem agg_df u :
  u ∈ hd NA <$> bronze_keys agg_df <-> u <> NA /\ bronze_rows_of u agg_df <> [].
Proof.
  rewrite <- bronze_keys_elem, list_elem_of_fmap. split.
  - intros (k & -> & Hk). by destruct (bronze_keys_single _ _ Hk) as [u ->].
  - intros Hk. by exists [u].
Qed.

(** C2, amended.  On an aggregate that has the columns the report reads,
    with numbers or missing values in the summed ones, the report holds
    one row per bronze user (rows without a user left out) with the sums of
    its [total_volume] and [total_pnl]; the rows are sorted descending by
    [total_volume] and the first 3 of them are returned: fewer when there
    are fewer bronze users, none when there is none.  The order of rows
    with equal volumes is the one the sort of pandas leaves them in:
    nothing is said about it. *)
Theorem top_bronze_clients_ranking `{Pandas} (agg_df : DataFrame) :
  sorts_descending ->
  "client_type"%string ∈ columns agg_df ->
  "user_id"%string ∈ columns agg_df ->
  "total_volume"%string ∈ columns agg_df ->
  "total_pnl"%string ∈ columns agg_df ->
  summable_columns agg_df ->
  exists ranked : list row,
    top_bronze_clients agg_df
    = Ok {| columns := ["user_id"; "total_volume"; "total_pnl"]%string;
            rows := range_index (take 3 ranked) |} /\
    length (take 3 ranked) = Nat.min 3 (length ranked) /\
    NoDup (users ranked) /\
    (forall u, u ∈ users ranked <-> u <> NA /\ bronze_rows_of u agg_df <> []) /\
    Forall (fun r => r = report_row agg_df (get r "user_id")) ranked /\
    StronglySorted ranked_before ranked.
Proof.
  intros Hsort H1 H2 H3 H4 Hsum.
  pose proof (client_groups_report agg_df H1 H2 H3 H4 Hsum) as Hg.
  set (groups := (fun k => report_row agg_df (hd NA k)) <$> bronze_keys agg_df) in Hg.
  assert (Forall (fun r => exists v, get r "total_volume" = Num v) groups) as Hnum.
  { unfold groups. apply Forall_fmap, Forall_forall. intros k _. simpl.
    eexists. apply report_row_volume. }
  pose proof (sort_values_desc_Permutation Hsort "total_volume" groups Hnum) as Hp.
  exists (sort_values_desc "total_volume" groups).
  assert (users (sort_values_desc "total_volume" groups)
          ≡ₚ hd NA <$> bronze_keys agg_df) as Hu.
  { unfold users. rewrite Hp. apply reflexive_eq, users_report_rows. }
  split; [unfold top_bronze_clients; by rewrite Hg|].
  split; [apply length_take|].
  split; [rewrite Hu; apply bronze_users_NoDup|].
  split; [intros u; rewrite Hu; apply bronze_users_elem|].
  split.
  - rewrite Hp. unfold groups.
    apply Forall_fmap, Forall_forall. intros k _. simpl.
    by rewrite report_row_user.
  - by apply sort_values_desc_ranked.
Qed.

(** Rows with four different volumes have one descending order. *)
Lemma ranked_abcd (l : list row) :
  let abcd := [Tables.client (Str "A") 100 220; Tables.client (Str "B") 50 310;
               Tables.client (Str "C") 30 150; Tables.client (Str "D") 10 (-50)] in
  l ≡ₚ abcd -> StronglySorted ranked_before l -> l = abcd.
Proof.
  intros abcd Hp Hs.
  apply (StronglySorted_unique_strong ranked_before); [|done| |done].
  - intros x1 x2 Hx1 Hx2 (v1 & v2 & Hv1 & Hv2 & H12) (w2 & w1 & Hw2 & Hw1 & H21).
    rewrite Hv1 in Hw1. injection Hw1 as <-.
    rewrite Hv2 in Hw2. injection Hw2 as <-.
    assert (v1 = v2) as <- by (by apply Qcle_antisym).
    clear H12 H21. rewrite Hp in Hx1. clear Hp Hs. unfold abcd in *.
    repeat (apply elem_of_cons in Hx1 as [->|Hx1]);
      try (by apply not_elem_of_nil in Hx1);
      repeat (apply elem_of_cons in Hx2 as [->|Hx2]);
      try (by apply not_elem_of_nil in Hx2);
      try done;
      exfalso; rewrite <- Hv2 in Hv1; revert Hv1; clear; compute_done.
  - unfold abcd.
    repeat first
      [ exact I | apply SSorted_nil | apply Forall_nil
      | apply StronglySorted_cons; split | apply Forall_cons; split
      | do 2 eexists; split; [reflexivity|]; split; [reflexivity|]; compute_done ].
Qed.

(** The example of the specification: A (100), B (50), C (30) are returned in
    that order and D (10) is left out, whatever the sort does with equal
    volumes, when the few volumes and PnLs of a user add up exactly. *)
Lemma top_bronze_clients_abcd `{Pandas} :
  sorts_descending ->
  (forall u c, column_sum c (bronze_rows_of u Tables.abcd)
               = exact_sum c (bronze_rows_of u Tables.abcd)) ->
  top_bronze_clients Tables.abcd
  = Ok (Tables.report [Tables.client (Str "A") 100 220;
                       Tables.client (Str "B") 50 310;
                       Tables.client (Str "C") 30 150]).
Proof.
  intros Hsort Hexact.
  pose proof (client_groups_report Tables.abcd) as Hg.
  assert (bronze_keys Tables.abcd = [[Str "A"]; [Str "B"]; [Str "C"]; [Str "D"]])
    as Hk by (vm_compute; reflexivity).
  rewrite Hk in Hg. cbn [fmap list_fmap hd] in Hg.
  assert (forall u v p,
            exact_sum "total_volume" (bronze_rows_of u Tables.abcd) = Qc_of_Z v ->
            exact_sum "total_pnl" (bronze_rows_of u Tables.abcd) = Qc_of_Z p ->
            report_row Tables.abcd u = Tables.client u v p) as Hrow.
  { intros u v p Hv Hp. unfold report_row, volume_of, pnl_of.
    rewrite !Hexact, Hv, Hp. reflexivity. }
  rewrite (Hrow (Str "A") 100 220), (Hrow (Str "B") 50 310),
    (Hrow (Str "C") 30 150), (Hrow (Str "D") 10 (-50)) in Hg by compute_done.
  unfold top_bronze_clients.
  rewrite Hg by compute_done. cbn [mbind Result_bind]. unfold Tables.report.
  do 3 f_equal.
  set (l := [_; _; _; _]).
  assert (Forall (fun r => exists v, get r "total_volume" = Num v) l) as Hnum.
  { unfold l. repeat (apply Forall_cons; split; [by eexists|]). constructor. }
  rewrite (ranked_abcd (sort_values_desc "total_volume" l)).
  - reflexivity.
  - by apply sort_values_desc_Permutation.
  - by apply sort_values_desc_ranked.
Qed.

Lemma top_bronze_clients_ranking_witness :
  exists ranked : list row,
    top_bronze_clients (H := Example.typed) Tables.abcd
    = Ok {| columns := ["user_id"; "total_volume"; "total_pnl"]%string;
            rows := range_index (take 3 ranked) |} /\
    users (take 3 ranked) = [Str "A"; Str "B"; Str "C"] /\
    StronglySorted ranked_before ranked.
Proof.
  destruct (top_bronze_clients_ranking (H := Example.typed) Tables.abcd
              typed_sorts_descending)
    as (ranked & Htop & _ & _ & _ & _ & Hsorted);
    [compute_done | compute_done | compute_done | compute_done | compute_done | ].
  exists ranked. split; [exact Htop|]. split; [|exact Hsorted].
  rewrite (top_bronze_clients_abcd (H := Example.typed) typed_sorts_descending)
    in Htop by reflexivity.
  injection Htop as Hrows.
  apply (f_equal (fmap snd)) in Hrows. rewrite !range_index_snd in Hrows.
  rewrite <- Hrows. compute_done.
Defined.

(** C2 as stated fails.  In [tied] the bronze users "b" and "a" have the
    same volume and "b" is met first; in [tied_swapped] "a" is met first.
    A tie-break by first encounter lists "b" before "a" in the one and "a"
    before "b" in the other; the report is the same for both, whatever the
    sort of pandas does. *)
Lemma ties_do_not_follow_first_encounter :
  users (snd <$> rows Tables.tied) = [Str "b"; Str "a"] /\
  users (snd <$> rows Tables.tied_swapped) = [Str "a"; Str "b"] /\
  top_bronze_clients_first_seen (H := Example.typed) Tables.tied
  = Ok (Tables.report [Tables.client (Str "b") 10 50; Tables.client (Str "a") 10 50]) /\
  top_bronze_clients_first_seen (H := Example.typed) Tables.tied_swapped
  = Ok (Tables.report [Tables.client (Str "a") 10 50; Tables.client (Str "b") 10 50]) /\
  (forall H : Pandas,
     top_bronze_clients (H := H) Tables.tied
     = top_bronze_clients (H := H) Tables.tied_swapped) /\
  (forall H : Pandas,
     ~ (top_bronze_clients (H := H) Tables.tied
        = top_bronze_clients_first_seen (H := Example.typed) Tables.tied /\
        top_bronze_clients (H := H) Tables.tied_swapped
        = top_bronze_clients_first_seen (H := Example.typed) Tables.tied_swapped)).
Proof.
  assert (top_bronze_clients_first_seen (H := Example.typed) Tables.tied
          = Ok (Tables.report [Tables.client (Str "b") 10 50;
                               Tables.client (Str "a") 10 50])) as E1
    by compute_done.
  assert (top_bronze_clients_first_seen (H := Example.typed) Tables.tied_swapped
          = Ok (Tables.report [Tables.client (Str "a") 10 50;
                               Tables.client (Str "b") 10 50])) as E2
    by compute_done.
  assert (forall H : Pandas,
            top_bronze_clients (H := H) Tables.tied
            = top_bronze_clients (H := H) Tables.tied_swapped) as Esame
    by (intros H; reflexivity).
  split; [compute_done|]. split; [compute_done|].
  split; [exact E1|]. split; [exact E2|]. split; [exact Esame|].
  intros H [F1 F2]. rewrite Esame, F2, E1, E2 in F1. revert F1. clear.
  compute_done.
Qed.

(** No sort could restore the order of first encounter: [groupby] hands the
    same groups, in the same order, to whatever comes next, whether "a" or
    "b" was met first. *)
Lemma client_groups_forget_first_encounter `{Pandas} :
  client_groups Tables.tied = client_groups Tables.tied_swapped /\
  users (snd <$> rows Tables.tied) <> users (snd <$> rows Tables.tied_swapped).
Proof. split; [reflexivity | compute_done]. Qed.

(** ** Where [total_pnl] is the sum of the cash-flows, and where it is not *)

Lemma pnl_row_inv `{Pandas} rs k kv :
  pnl_row rs k = Ok kv ->
  kv.1 = k /\ agg_sum "cashflow" (group_rows group_cols k rs) = Ok kv.2.
Proof.
  unfold pnl_row. intros E.
  destruct (agg_sum _ _) as [s|]; simpl in E; [|done].
  by injection E as <-.
Qed.

Lemma merge_pnl_total_pnl `{Pandas} (rs : list (Z * row)) (pnl : list (list cell * cell)) (r : row) :
  Forall2 (fun k kv => pnl_row rs k = Ok kv) (group_keys group_cols true rs) pnl ->
  key_of group_cols r ∈ group_keys group_cols false rs ->
  if has_na (key_of group_cols r)
  then get (merge_pnl pnl r) "total_pnl" = NA
  else agg_sum "cashflow" (group_rows group_cols (key_of group_cols r) rs)
       = Ok (get (merge_pnl pnl r) "total_pnl").
Proof.
  intros Hpnl Hk. unfold merge_pnl, get. rewrite lookup_insert_eq.
  unfold default at 1. unfold id.
  destruct (has_na (key_of group_cols r)) eqn:Hna.
  - assert (list_find (fun kv : list cell * cell => kv.1 = key_of group_cols r) pnl
            = None) as ->; [|done].
    apply list_find_None, Forall_forall. intros kv Hkv Ekv.
    apply list_elem_of_lookup in Hkv as [i Hi].
    destruct (Forall2_lookup_r _ _ _ _ _ Hpnl Hi) as (k & Hki & Hrow).
    apply pnl_row_inv in Hrow as [Ek _].
    apply list_elem_of_lookup_2, group_keys_spec in Hki as [Hdrop _].
    rewrite <- Ek, Ekv, Hna in Hdrop. done.
  - assert (key_of group_cols r ∈ group_keys group_cols true rs) as Hin.
    { apply group_keys_spec in Hk as [_ Hex]. apply group_keys_spec.
      rewrite Hna. done. }
    apply list_elem_of_lookup in Hin as [i Hi].
    destruct (Forall2_lookup_l _ _ _ _ _ Hpnl Hi) as (kv & Hkv & Hrow).
    apply pnl_row_inv in Hrow as [Ek Hs].
    destruct (list_find (fun kv : list cell * cell => kv.1 = key_of group_cols r) pnl)
      as [[j kv']|] eqn:Ef.
    + apply list_find_Some in Ef as (Hj & Ekv' & _). cbn [from_option snd].
      destruct (Forall2_lookup_r _ _ _ _ _ Hpnl Hj) as (k' & _ & Hrow').
      apply pnl_row_inv in Hrow' as [Ek' Hs']. rewrite <- Ekv', Ek'. done.
    + exfalso. rewrite list_find_None, Forall_forall in Ef.
      apply (Ef kv); [by eapply list_elem_of_lookup_2 | done].
Qed.

(** In the aggregate with PnL, a group whose key has no missing part holds
    the sum of the cash-flows of its rows; a group with a missing part in its
    key holds a missing [total_pnl]. *)
Lemma aggregate_total_pnl `{Pandas} (df agg : DataFrame) :
  "cashflow"%string ∈ columns df ->
  aggregate df true = Ok agg ->
  forall ir, ir ∈ rows agg ->
    if has_na (key_of group_cols ir.2)
    then get ir.2 "total_pnl" = NA
    else agg_sum "cashflow"
           (group_rows group_cols (key_of group_cols ir.2) (rows df))
         = Ok (get ir.2 "total_pnl").
Proof.
  intros Hc E ir Hir. pose proof (aggregate_keys _ _ _ E) as Hkeys.
  unfold aggregate in E.
  destruct (mapM (require df) group_cols); [|done].
  destruct (mapM (require df) agg_inputs); [|done].
  destruct (mapM (weekly_row (rows df)) _) as [rs|] eqn:Em; [|done].
  simpl in E. rewrite bool_decide_eq_true_2 in E by done.
  destruct (mapM (pnl_row (rows df)) _) as [pnl|] eqn:Ep; [|done].
  simpl in E. injection E as <-. cbn [rows] in *.
  rewrite range_index_snd in Hkeys.
  assert (ir.2 ∈ merge_pnl pnl <$> rs) as Hr.
  { rewrite <- (range_index_snd (merge_pnl pnl <$> rs)).
    apply list_elem_of_fmap. eauto. }
  apply list_elem_of_fmap in Hr as (r & -> & Hr).
  rewrite merge_pnl_key. apply merge_pnl_total_pnl; [by apply mapM_Ok_inv|].
  rewrite <- Hkeys, <- merge_pnl_key with (pnl := pnl).
  apply list_elem_of_fmap. exists (merge_pnl pnl r). split; [done|].
  apply list_elem_of_fmap. eauto.
Qed.

(** * Further properties of the pipeline *)

(** ** Rows through [assign] and [select] *)

Lemma get_insert_eq (r : row) c v : get (<[c := v]> r) c = v.
Proof. unfold get. by rewrite lookup_insert_eq. Qed.

Lemma get_insert_ne (r : row) c c' v : c <> c' -> get (<[c := v]> r) c' = get r c'.
Proof. intros Hne. unfold get. by rewrite lookup_insert_ne. Qed.

Lemma columns_assign_present c f df :
  c ∈ columns df -> columns (assign c f df) = columns df.
Proof. intros Hc. unfold assign. simpl. by rewrite decide_True. Qed.

Lemma columns_assign c f df :
  columns (assign c f df)
  = if decide (c ∈ columns df) then columns df else columns df ++ [c].
Proof. reflexivity. Qed.

Lemma columns_select mask df : columns (select mask df) = columns df.
Proof. reflexivity. Qed.

Lemma rows_assign c f df :
  rows (assign c f df)
  = (fun ir : Z * row => (ir.1, <[c := f ir.2]> ir.2)) <$> rows df.
Proof. reflexivity. Qed.

Lemma rows_select mask df :
  rows (select mask df)
  = filter (fun ir : Z * row => mask ir.2 = true) (rows df).
Proof. reflexivity. Qed.

Lemma elem_of_columns_assign c c' f df :
  c' ∈ columns df -> c' ∈ columns (assign c f df).
Proof.
  intros Hc. unfold assign. simpl. case_decide; [done|].
  apply elem_of_app. by left.
Qed.

Lemma assigned_column c f df : c ∈ columns (assign c f df).
Proof.
  unfold assign. simpl. case_decide; [done|].
  apply elem_of_app. right. left.
Qed.

Lemma filter_fmap_comm {A B} (f : A -> B) (P : B -> Prop)
    `{forall y, Decision (P y)} (l : list A) :
  filter P (f <$> l) = f <$> filter (fun x => P (f x)) l.
Proof.
  induction l as [|x l IH]; [done|].
  rewrite fmap_cons. destruct (decide (P (f x))) as [HP|HP].
  - rewrite !filter_cons_True by done. by rewrite fmap_cons, IH.
  - rewrite !filter_cons_False by done. done.
Qed.

Ltac col_present :=
  repeat (apply elem_of_columns_assign || apply assigned_column); done.

(** ** What the null-timestamp step returns *)

Lemma handle_null_timestamps_Ok_inv `{Pandas} df mode df0 :
  handle_null_timestamps df mode = Ok df0 ->
  "timestamp"%string ∈ columns df /\
  columns df0 = columns df /\
  rows df0 = filter (fun ir : Z * row => negb (empties ir.2) = true) (rows df) /\
  (df0 = df \/ mode = "drop"%string).
Proof.
  unfold handle_null_timestamps. intros E.
  destruct (decide ("timestamp"%string ∈ columns df)) as [Hc|]; [|done].
  split; [done|].
  destruct (any empties df) eqn:He.
  - destruct (decide (mode = "error"%string)); [done|].
    destruct (decide (mode = "drop"%string)) as [->|]; [|done].
    injection E as <-. auto.
  - injection E as <-. split; [done|]. split; [|by left].
    symmetry. apply filter_all, Forall_forall. intros ir Hin.
    destruct (empties ir.2) eqn:Ee; [|done].
    assert (any empties df = true) as Ht by (apply any_true; eauto).
    congruence.
Qed.

(** ** The rows of the normalisation *)

Section Normalisation.
Context `{Pandas}.

Lemma normalize_inv df mode d :
  normalize df mode = Ok d ->
  exists df0,
    handle_null_timestamps df mode = Ok df0 /\
    Forall (fun c => c ∈ columns df)
           ["timestamp"; "client_type"; "symbol"; "side"; "quantity"; "price"]%string /\
    columns d = (if decide ("week_start_date"%string ∈ columns df)
                 then columns df else columns df ++ ["week_start_date"%string]) /\
    rows d = (fun ir : Z * row => (ir.1, with_week_start (normalize_row ir.2)))
             <$> filter (fun ir : Z * row => kept (normalize_row ir.2) = true) (rows df0).
Proof.
  unfold normalize. intros E.
  destruct (handle_null_timestamps df mode) as [df0|] eqn:Eh; [|done].
  cbn [mbind Result_bind] in E.
  destruct (handle_null_timestamps_Ok_inv _ _ _ Eh) as (Hts & Hcols & _ & _).
  rewrite <- Hcols in Hts.
  unfold require in E.
  rewrite !(columns_assign_present "timestamp") in E by col_present.
  destruct (decide ("client_type"%string ∈ columns df0)) as [H1|]; [|done].
  cbn [mbind Result_bind] in E.
  rewrite !(columns_assign_present "client_type"),
          ?(columns_assign_present "timestamp") in E by col_present.
  destruct (decide ("symbol"%string ∈ columns df0)) as [H2|]; [|done].
  cbn [mbind Result_bind] in E.
  rewrite !(columns_assign_present "symbol"),
          ?(columns_assign_present "client_type"),
          ?(columns_assign_present "timestamp") in E by col_present.
  destruct (decide ("side"%string ∈ columns df0)) as [H3|]; [|done].
  cbn [mbind Result_bind] in E.
  rewrite !(columns_assign_present "side"),
          ?(columns_assign_present "symbol"),
          ?(columns_assign_present "client_type"),
          ?(columns_assign_present "timestamp") in E by col_present.
  destruct (decide ("quantity"%string ∈ columns df0)) as [H4|]; [|done].
  cbn [mbind Result_bind] in E.
  rewrite !(columns_assign_present "quantity"),
          ?(columns_assign_present "side"),
          ?(columns_assign_present "symbol"),
          ?(columns_assign_present "client_type"),
          ?(columns_assign_present "timestamp") in E by col_present.
  destruct (decide ("price"%string ∈ columns df0)) as [H5|]; [|done].
  cbn [mbind Result_bind] in E. injection E as <-.
  exists df0. split; [done|]. rewrite <- Hcols. split; [by repeat constructor|].
  split.
  - rewrite columns_assign, !columns_select.
    rewrite ?(columns_assign_present "price"),
            ?(columns_assign_present "quantity"),
            ?(columns_assign_present "side"),
            ?(columns_assign_present "symbol"),
            ?(columns_assign_present "client_type"),
            ?(columns_assign_present "timestamp") by col_present.
    done.
  - rewrite rows_assign, !rows_select, !rows_assign.
    rewrite <- !list_fmap_compose.
    rewrite list_filter_filter.
    rewrite filter_fmap_comm, <- list_fmap_compose.
    apply (f_equal2 (fmap (M := list))); [done|].
    apply list_filter_iff. intros [i r]. cbn. unfold kept.
    rewrite !andb_true_iff. tauto.
Qed.

End Normalisation.

(** ** The cells of a normalised row *)

Lemma to_datetime_cases `{Pandas} c : to_datetime c = NA \/ exists t, to_datetime c = Time t.
Proof.
  destruct c as [| s | q | t]; simpl; eauto;
    destruct (parse_datetime _); simpl; eauto.
Qed.

Lemma to_numeric_cases `{Pandas} c : to_numeric c = NA \/ exists q, to_numeric c = Num q.
Proof.
  destruct c as [| s | q | t]; simpl; eauto;
    destruct (parse_numeric _); simpl; eauto.
Qed.

Lemma isin_true values c :
  isin values c = true -> exists s, c = Str s /\ s ∈ values.
Proof.
  destruct c as [| s | q | t]; simpl; try done.
  intros Hs. apply bool_decide_eq_true in Hs. eauto.
Qed.

Section NormalizedRows.
Context `{Pandas}.

Lemma normalize_row_timestamp r :
  get (normalize_row r) "timestamp" = to_datetime (get r "timestamp").
Proof.
  unfold normalize_row. rewrite !get_insert_ne by done. apply get_insert_eq.
Qed.

Lemma normalize_row_client_type r :
  get (normalize_row r) "client_type"
  = str_map Text.strip (str_map Text.lower (astype_string (get r "client_type"))).
Proof.
  unfold normalize_row. rewrite !get_insert_ne by done.
  rewrite get_insert_eq. by rewrite !get_insert_ne by done.
Qed.

Lemma normalize_row_symbol r :
  get (normalize_row r) "symbol"
  = str_map Text.strip (str_map Text.upper (astype_string (get r "symbol"))).
Proof.
  unfold normalize_row. rewrite !get_insert_ne by done.
  rewrite get_insert_eq. by rewrite !get_insert_ne by done.
Qed.

Lemma normalize_row_side r :
  get (normalize_row r) "side"
  = str_map Text.strip (str_map Text.lower (astype_string (get r "side"))).
Proof.
  unfold normalize_row. rewrite !get_insert_ne by done.
  rewrite get_insert_eq. by rewrite !get_insert_ne by done.
Qed.

Lemma normalize_row_quantity r :
  get (normalize_row r) "quantity" = to_numeric (get r "quantity").
Proof.
  unfold normalize_row. rewrite !get_insert_ne by done.
  rewrite get_insert_eq. by rewrite !get_insert_ne by done.
Qed.

Lemma normalize_row_price r :
  get (normalize_row r) "price" = to_numeric (get r "price").
Proof.
  unfold normalize_row. rewrite get_insert_eq.
  by rewrite !get_insert_ne by done.
Qed.

(** A column that the normalisation does not assign keeps its cells. *)
Lemma normalize_row_other r c :
  c ∉ ("timestamp"%string :: coerced_columns) ->
  get (normalize_row r) c = get r c.
Proof.
  intros Hc. unfold normalize_row.
  rewrite !get_insert_ne; [done|..]; intros <-; apply Hc; compute_done.
Qed.

Lemma kept_normalized_trade r :
  kept (normalize_row r) = true ->
  normalized_trade (with_week_start (normalize_row r)).
Proof.
  unfold kept. rewrite !andb_true_iff, !negb_true_iff.
  intros [[[Hts Hq] Hp] Hc].
  rewrite normalize_row_timestamp in Hts.
  rewrite normalize_row_quantity in Hq. rewrite normalize_row_price in Hp.
  unfold normalized_trade, with_week_start.
  rewrite get_insert_eq, !get_insert_ne by done.
  rewrite normalize_row_timestamp, normalize_row_quantity, normalize_row_price.
  split; [|split; [|split]].
  - destruct (to_datetime_cases (get r "timestamp")) as [E|[t E]];
      rewrite E in Hts |- *; [done|]. by exists t.
  - destruct (to_numeric_cases (get r "quantity")) as [E|[q E]];
      rewrite E in Hq |- *; [done|]. by exists q.
  - destruct (to_numeric_cases (get r "price")) as [E|[p E]];
      rewrite E in Hp |- *; [done|]. by exists p.
  - by apply isin_true.
Qed.

Lemma normalize_rows_from_input df mode d :
  normalize df mode = Ok d ->
  rows d = (fun ir : Z * row => (ir.1, with_week_start (normalize_row ir.2)))
           <$> filter (fun ir : Z * row =>
                         empties ir.2 = false /\ kept (normalize_row ir.2) = true)
                      (rows df).
Proof.
  intros E. destruct (normalize_inv _ _ _ E) as (df0 & Eh & _ & _ & ->).
  destruct (handle_null_timestamps_Ok_inv _ _ _ Eh) as (_ & _ & -> & _).
  rewrite list_filter_filter. f_equal.
  apply list_filter_iff. intros ir. rewrite negb_true_iff. tauto.
Qed.

Lemma normalize_rows_invariant df mode d :
  normalize df mode = Ok d ->
  Forall (fun ir : Z * row => normalized_trade ir.2) (rows d) /\
  (forall c, c ∈ columns d <-> c ∈ columns df \/ c = "week_start_date"%string).
Proof.
  intros E. pose proof (normalize_rows_from_input _ _ _ E) as Hrows.
  destruct (normalize_inv _ _ _ E) as (df0 & _ & _ & Hcols & _).
  split.
  - rewrite Hrows. apply Forall_fmap, Forall_forall. intros ir Hin.
    apply list_elem_of_filter in Hin as [[_ Hk] _]. simpl.
    by apply kept_normalized_trade.
  - intros c. rewrite Hcols. case_decide as Hw.
    + split; [by left|]. by intros [?| ->].
    + rewrite elem_of_app, list_elem_of_singleton. done.
Qed.

End NormalizedRows.

(** X1.  On success the normalisation returns the columns of its input,
    with [week_start_date] added if it was not there, and every row it
    returns is a normalised trade: its timestamp is an instant and its week
    start the first day of the [W-MON] period of that instant, its quantity
    and its price are numbers, its client type is one of gold, silver and
    bronze.  The rows keep their labels and their order. *)
Theorem normalize_invariant `{Pandas} (df : DataFrame) (mode : string) (d : DataFrame) :
  normalize df mode = Ok d ->
  Forall (fun ir : Z * row => normalized_trade ir.2) (rows d) /\
  sublist (fst <$> rows d) (fst <$> rows df) /\
  (forall c, c ∈ columns d <-> c ∈ columns df \/ c = "week_start_date"%string).
Proof.
  intros E. pose proof (normalize_rows_from_input _ _ _ E) as Hrows.
  destruct (normalize_rows_invariant _ _ _ E) as [Hinv Hcols].
  split; [done|]. split; [|done].
  rewrite Hrows, <- list_fmap_compose.
  change (fst ∘ (fun ir : Z * row => (ir.1, with_week_start (normalize_row ir.2))))
    with (fst : Z * row -> Z).
  apply fmap_sublist, sublist_filter.
Qed.

Lemma normalize_invariant_witness :
  exists d,
    normalize (H := Example.typed) Tables.batch5 "drop" = Ok d /\
    Forall (fun ir : Z * row => normalized_trade ir.2) (rows d) /\
    fst <$> rows d = [0; 1; 3; 4].
Proof.
  destruct (normalize (H := Example.typed) Tables.batch5 "drop") as [d|] eqn:E;
    [|by vm_compute in E].
  exists d. split; [done|].
  split; [apply (normalize_invariant (H := Example.typed) _ _ _ E)|].
  vm_compute in E. injection E as <-. reflexivity.
Defined.

(** ** Missing columns in the normalisation *)

Lemma normalize_missing `{Pandas} df mode df0 (before after : list string) c :
  handle_null_timestamps df mode = Ok df0 ->
  coerced_columns = before ++ c :: after ->
  Forall (fun b => b ∈ columns df) before ->
  c ∉ columns df ->
  normalize df mode = Err (KeyError c).
Proof.
  intros Eh Hsplit Hbefore Hc. unfold normalize. rewrite Eh.
  cbn [mbind Result_bind].
  destruct (handle_null_timestamps_Ok_inv _ _ _ Eh) as (Hts & Hcols & _ & _).
  rewrite <- Hcols in Hts, Hbefore, Hc. clear Eh Hcols.
  unfold require.
  destruct before as [|b1 [|b2 [|b3 [|b4 [|b5 before]]]]];
    injection Hsplit as <-; subst;
    repeat match goal with
           | Hb : Forall _ (_ :: _) |- _ => apply Forall_cons in Hb as [? Hb]
           end.
  - rewrite !(columns_assign_present "timestamp") by col_present.
    by rewrite (decide_False (P := "client_type"%string ∈ columns df0)).
  - rewrite !(columns_assign_present "timestamp") by col_present.
    rewrite (decide_True (P := "client_type"%string ∈ columns df0)) by done.
    cbn [mbind Result_bind].
    rewrite !(columns_assign_present "client_type"),
            ?(columns_assign_present "timestamp") by col_present.
    by rewrite (decide_False (P := "symbol"%string ∈ columns df0)).
  - rewrite !(columns_assign_present "timestamp") by col_present.
    rewrite (decide_True (P := "client_type"%string ∈ columns df0)) by done.
    cbn [mbind Result_bind].
    rewrite !(columns_assign_present "client_type"),
            ?(columns_assign_present "timestamp") by col_present.
    rewrite (decide_True (P := "symbol"%string ∈ columns df0)) by done.
    cbn [mbind Result_bind].
    rewrite !(columns_assign_present "symbol"),
            ?(columns_assign_present "client_type"),
            ?(columns_assign_present "timestamp") by col_present.
    by rewrite (decide_False (P := "side"%string ∈ columns df0)).
  - rewrite !(columns_assign_present "timestamp") by col_present.
    rewrite (decide_True (P := "client_type"%string ∈ columns df0)) by done.
    cbn [mbind Result_bind].
    rewrite !(columns_assign_present "client_type"),
            ?(columns_assign_present "timestamp") by col_present.
    rewrite (decide_True (P := "symbol"%string ∈ columns df0)) by done.
    cbn [mbind Result_bind].
    rewrite !(columns_assign_present "symbol"),
            ?(columns_assign_present "client_type"),
            ?(columns_assign_present "timestamp") by col_present.
    rewrite (decide_True (P := "side"%string ∈ columns df0)) by done.
    cbn [mbind Result_bind].
    rewrite !(columns_assign_present "side"),
            ?(columns_assign_present "symbol"),
            ?(columns_assign_present "client_type"),
            ?(columns_assign_present "timestamp") by col_present.
    by rewrite (decide_False (P := "quantity"%string ∈ columns df0)).
  - rewrite !(columns_assign_present "timestamp") by col_present.
    rewrite (decide_True (P := "client_type"%string ∈ columns df0)) by done.
    cbn [mbind Result_bind].
    rewrite !(columns_assign_present "client_type"),
            ?(columns_assign_present "timestamp") by col_present.
    rewrite (decide_True (P := "symbol"%string ∈ columns df0)) by done.
    cbn [mbind Result_bind].
    rewrite !(columns_assign_present "symbol"),
            ?(columns_assign_present "client_type"),
            ?(columns_assign_present "timestamp") by col_present.
    rewrite (decide_True (P := "side"%string ∈ columns df0)) by done.
    cbn [mbind Result_bind].
    rewrite !(columns_assign_present "side"),
            ?(columns_assign_present "symbol"),
            ?(columns_assign_present "client_type"),
            ?(columns_assign_present "timestamp") by col_present.
    rewrite (decide_True (P := "quantity"%string ∈ columns df0)) by done.
    cbn [mbind Result_bind].
    rewrite !(columns_assign_present "quantity"),
            ?(columns_assign_present "side"),
            ?(columns_assign_present "symbol"),
            ?(columns_assign_present "client_type"),
            ?(columns_assign_present "timestamp") by col_present.
    by rewrite (decide_False (P := "price"%string ∈ columns df0)).
  - destruct before; discriminate.
Qed.

(** X2.  When the null-timestamp step passes, the normalisation raises a
    [KeyError] for the first of the columns [client_type], [symbol], [side],
    [quantity], [price] that the table lacks, and so does the transform. *)
Theorem normalize_first_missing_column `{Pandas}
    (df df0 : DataFrame) (mode : string) (before after : list string) (c : string) :
  handle_null_timestamps df mode = Ok df0 ->
  coerced_columns = before ++ c :: after ->
  Forall (fun b => b ∈ columns df) before ->
  c ∉ columns df ->
  normalize df mode = Err (KeyError c) /\
  forall include_pnl, transform df include_pnl mode = Err (KeyError c).
Proof.
  intros Eh Hsplit Hbefore Hc.
  pose proof (normalize_missing _ _ _ _ _ _ Eh Hsplit Hbefore Hc) as E.
  split; [done|]. intros b. unfold transform. by rewrite E.
Qed.

Lemma normalize_first_missing_column_witness :
  normalize (H := Example.typed) Tables.no_price "error" = Err (KeyError "side").
Proof.
  apply (normalize_first_missing_column (H := Example.typed)
           Tables.no_price Tables.no_price "error"
           ["client_type"; "symbol"]%string ["quantity"; "price"]%string "side");
    [reflexivity | reflexivity | | compute_done].
  repeat constructor; compute_done.
Defined.

(** ** The transform does not fail on a table with the required columns *)

Lemma require_all_Ok df (cs : list string) :
  Forall (fun c => c ∈ columns df) cs ->
  mapM (require df) cs = Ok ((fun _ => tt) <$> cs).
Proof.
  intros Hall. apply mapM_Ok_fmap. intros c Hc.
  rewrite Forall_forall in Hall. unfold require. by rewrite decide_True by auto.
Qed.

Lemma agg_mean_summable `{Pandas} c (g : list row) :
  Forall (fun r => summable (get r c) = true) g ->
  exists v, agg_mean c g = Ok v.
Proof.
  intros Hall. unfold agg_mean. rewrite numerics_spec.
  assert (forallb summable ((fun r => get r c) <$> g) = true) as ->.
  { apply forallb_forall. intros x Hx. apply list_elem_of_In in Hx.
    apply list_elem_of_fmap in Hx as (r & -> & Hr).
    rewrite Forall_forall in Hall. by apply Hall. }
  by eexists.
Qed.

Lemma group_rows_sub by_cols k (rs : list (Z * row)) (P : row -> Prop) :
  Forall (fun ir : Z * row => P ir.2) rs ->
  Forall P (group_rows by_cols k rs).
Proof.
  intros Hall. unfold group_rows. apply Forall_forall. intros r Hr.
  apply list_elem_of_filter in Hr as [_ Hr].
  apply list_elem_of_fmap in Hr as (ir & -> & Hir).
  rewrite Forall_forall in Hall. by apply Hall.
Qed.

Lemma mapM_Ok_exists {A B} (f : A -> Result B) (l : list A) :
  (forall x, x ∈ l -> exists y, f x = Ok y) -> exists l', mapM f l = Ok l'.
Proof.
  induction l as [|x l IH]; intros Hf; simpl; [by eexists|].
  destruct (Hf x) as [y ->]; [left|]. simpl.
  destruct IH as [l' ->]; [intros z Hz; apply Hf; by right|].
  simpl. by eexists.
Qed.

Lemma aggregate_Ok `{Pandas} (df : DataFrame) (include_pnl : bool) :
  Forall (fun c => c ∈ columns df) group_cols ->
  Forall (fun c => c ∈ columns df) agg_inputs ->
  Forall (fun ir : Z * row => summable (get ir.2 "quantity") = true) (rows df) ->
  Forall (fun ir : Z * row => summable (get ir.2 "price") = true) (rows df) ->
  (include_pnl = true ->
   Forall (fun ir : Z * row => summable (get ir.2 "cashflow") = true) (rows df)) ->
  exists agg, aggregate df include_pnl = Ok agg.
Proof.
  intros Hg Ha Hq Hp Hc. unfold aggregate.
  rewrite (require_all_Ok _ _ Hg), (require_all_Ok _ _ Ha).
  cbn [mbind Result_bind].
  destruct (mapM_Ok_exists (weekly_row (rows df))
              (group_keys group_cols false (rows df))) as [agg ->].
  { intros k _. unfold weekly_row.
    rewrite agg_sum_summable
      by (apply (group_rows_sub _ _ _ (fun r => summable (get r "quantity") = true)); done).
    destruct (agg_mean_summable "price" (group_rows group_cols k (rows df)))
      as [v ->];
      [apply (group_rows_sub _ _ _ (fun r => summable (get r "price") = true)); done|].
    by eexists. }
  cbn [mbind Result_bind].
  destruct (include_pnl && bool_decide ("cashflow"%string ∈ columns df)) eqn:Eb;
    [|by eexists].
  apply andb_true_iff in Eb as [-> _].
  destruct (mapM_Ok_exists (pnl_row (rows df))
              (group_keys group_cols true (rows df))) as [pnl ->].
  { intros k _. unfold pnl_row.
    rewrite agg_sum_summable
      by (apply (group_rows_sub _ _ _ (fun r => summable (get r "cashflow") = true));
          auto).
    by eexists. }
  by eexists.
Qed.

Lemma cashflow_numeric `{Pandas} (r : row) :
  get r "side" <> NA ->
  (exists q, get r "quantity" = Num q) -> (exists p, get r "price" = Num p) ->
  exists v, cashflow r = Ok (Num v).
Proof.
  intros Hs [q Hq] [p Hp]. unfold cashflow. rewrite Hq, Hp.
  destruct (get r "side"); [done|..]; by eexists.
Qed.

(** What [add_cashflow] returns: the rows with their cash-flows, in their
    order and under their labels. *)
Lemma add_cashflow_inv `{Pandas} (include_pnl : bool) (df d : DataFrame) :
  add_cashflow include_pnl df = Ok d ->
  (forall c, c ∈ columns df -> c ∈ columns d) /\
  (include_pnl = true -> "cashflow"%string ∈ columns d) /\
  Forall2 (fun ir ir' : Z * row =>
             ir'.1 = ir.1 /\
             (forall c, c <> "cashflow"%string -> get ir'.2 c = get ir.2 c) /\
             (include_pnl = true -> cashflow ir.2 = Ok (get ir'.2 "cashflow")))
          (rows df) (rows d).
Proof.
  unfold add_cashflow. destruct include_pnl.
  - destruct (mapM _ _) as [flows|] eqn:Em; simpl; [|done].
    intros [= <-]. cbn [columns rows]. split; [|split].
    + intros c Hc. case_decide; [done|]. apply elem_of_app. by left.
    + intros _. case_decide; [done|]. apply elem_of_app. right. left.
    + apply mapM_Ok_inv in Em. eapply Forall2_impl; [exact Em|].
      intros ir ir' E. simpl in E.
      destruct (cashflow ir.2) as [v|]; simpl in E; [|done].
      injection E as <-. simpl. split; [done|]. split.
      * intros c Hc. by rewrite get_insert_ne.
      * intros _. by rewrite get_insert_eq.
  - intros [= <-]. split; [done|]. split; [done|].
    apply Forall_Forall2_diag, Forall_forall. intros ir _. done.
Qed.

(** The cash-flows are computed when every row has a side. *)
Lemma add_cashflow_Ok `{Pandas} (include_pnl : bool) (df : DataFrame) :
  (include_pnl = true ->
   Forall (fun ir : Z * row => get ir.2 "side" <> NA) (rows df)) ->
  exists d, add_cashflow include_pnl df = Ok d.
Proof.
  intros Hside. unfold add_cashflow. destruct include_pnl; [|by eexists].
  destruct (mapM_Ok_exists
              (fun ir : Z * row =>
                 c ← cashflow ir.2; Ok (ir.1, <["cashflow" := c]> ir.2))
              (rows df)) as [flows ->]; [|by eexists].
  intros ir Hir. specialize (Hside eq_refl). rewrite Forall_forall in Hside.
  specialize (Hside ir Hir). unfold cashflow.
  destruct (get ir.2 "side"); [done|..]; by eexists.
Qed.

Lemma Forall2_Forall_r {A B} (R : A -> B -> Prop) (P : A -> Prop) (Q : B -> Prop)
    (l : list A) (k : list B) :
  Forall2 R l k -> Forall P l -> (forall x y, R x y -> P x -> Q y) -> Forall Q k.
Proof.
  intros HR HP Himp. induction HR as [|x y l k Hxy _ IH]; [constructor|].
  apply Forall_cons in HP as [Hx HP]. constructor; [by eapply Himp|by apply IH].
Qed.

Section TransformTotal.
Context `{Pandas}.

Lemma normalize_Ok df mode df0 :
  handle_null_timestamps df mode = Ok df0 ->
  Forall (fun c => c ∈ columns df) coerced_columns ->
  exists d, normalize df mode = Ok d.
Proof.
  intros Eh Hall. destruct (normalize df mode) as [d|e] eqn:E; [by eexists|].
  exfalso. unfold normalize in E. rewrite Eh in E. cbn [mbind Result_bind] in E.
  destruct (handle_null_timestamps_Ok_inv _ _ _ Eh) as (Hts & Hcols & _ & _).
  rewrite <- Hcols in Hts, Hall. unfold coerced_columns in Hall.
  repeat match goal with
         | Hb : Forall _ (_ :: _) |- _ => apply Forall_cons in Hb as [? Hb]
         end.
  unfold require in E.
  rewrite !(columns_assign_present "timestamp") in E by col_present.
  rewrite (decide_True (P := "client_type"%string ∈ columns df0)) in E by done.
  cbn [mbind Result_bind] in E.
  rewrite !(columns_assign_present "client_type"),
          ?(columns_assign_present "timestamp") in E by col_present.
  rewrite (decide_True (P := "symbol"%string ∈ columns df0)) in E by done.
  cbn [mbind Result_bind] in E.
  rewrite !(columns_assign_present "symbol"),
          ?(columns_assign_present "client_type"),
          ?(columns_assign_present "timestamp") in E by col_present.
  rewrite (decide_True (P := "side"%string ∈ columns df0)) in E by done.
  cbn [mbind Result_bind] in E.
  rewrite !(columns_assign_present "side"),
          ?(columns_assign_present "symbol"),
          ?(columns_assign_present "client_type"),
          ?(columns_assign_present "timestamp") in E by col_present.
  rewrite (decide_True (P := "quantity"%string ∈ columns df0)) in E by done.
  cbn [mbind Result_bind] in E.
  rewrite !(columns_assign_present "quantity"),
          ?(columns_assign_present "side"),
          ?(columns_assign_present "symbol"),
          ?(columns_assign_present "client_type"),
          ?(columns_assign_present "timestamp") in E by col_present.
  rewrite (decide_True (P := "price"%string ∈ columns df0)) in E by done.
  done.
Qed.

(** A row that has a side keeps one through the normalisation. *)
Lemma normalize_keeps_side df mode d :
  normalize df mode = Ok d ->
  Forall (fun ir : Z * row => get ir.2 "side" <> NA) (rows df) ->
  Forall (fun ir : Z * row => get ir.2 "side" <> NA) (rows d).
Proof.
  intros E Hside. rewrite (normalize_rows_from_input _ _ _ E).
  apply Forall_fmap, Forall_forall. intros ir Hin.
  apply list_elem_of_filter in Hin as [_ Hin].
  rewrite Forall_forall in Hside. specialize (Hside ir Hin). simpl.
  unfold with_week_start. rewrite get_insert_ne by done.
  rewrite normalize_row_side. by destruct (get ir.2 "side").
Qed.

Lemma aggregate_normalized_Ok df mode d include_pnl :
  normalize df mode = Ok d ->
  "user_id"%string ∈ columns df ->
  (include_pnl = true ->
   Forall (fun ir : Z * row => get ir.2 "side" <> NA) (rows d)) ->
  exists d' agg,
    add_cashflow include_pnl d = Ok d' /\ aggregate d' include_pnl = Ok agg.
Proof.
  intros E Hu Hside.
  destruct (normalize_rows_invariant df mode d E) as (Hinv & Hcols).
  destruct (normalize_inv _ _ _ E) as (df0 & _ & Hreq & _ & _).
  destruct (add_cashflow_Ok include_pnl d Hside) as [d' Ed'].
  destruct (add_cashflow_inv _ _ _ Ed') as (Hsub & _ & Hrows).
  exists d'.
  assert (forall c, c ∈ columns df \/ c = "week_start_date"%string ->
                    c ∈ columns d') as Hin.
  { intros c Hc. apply Hsub. by apply Hcols. }
  repeat match goal with
         | Hb : Forall _ (_ :: _) |- _ => apply Forall_cons in Hb as [? Hb]
         end.
  assert (forall c, c <> "cashflow"%string ->
            Forall (fun ir : Z * row => exists q, get ir.2 c = Num q) (rows d) ->
            Forall (fun ir : Z * row => summable (get ir.2 c) = true) (rows d'))
    as Hsum.
  { intros c Hne Hnum. eapply Forall2_Forall_r; [exact Hrows|exact Hnum|].
    intros ir ir' (_ & Hsame & _) [q Hq]. simpl. by rewrite (Hsame c Hne), Hq. }
  destruct (aggregate_Ok d' include_pnl) as [agg Eagg]; [..|by exists agg].
  - repeat constructor; apply Hin; auto.
  - repeat constructor; apply Hin; auto.
  - apply Hsum; [done|]. eapply Forall_impl; [exact Hinv|].
    intros ir (_ & Hq & _). exact Hq.
  - apply Hsum; [done|]. eapply Forall_impl; [exact Hinv|].
    intros ir (_ & _ & Hp & _). exact Hp.
  - intros ->. specialize (Hside eq_refl).
    assert (Forall (fun ir : Z * row =>
                      normalized_trade ir.2 /\ get ir.2 "side" <> NA) (rows d))
      as Hboth by (by apply Forall_and).
    eapply Forall2_Forall_r; [exact Hrows|exact Hboth|].
    intros ir ir' (_ & _ & Hflow) [(_ & Hq & Hp & _) Hs]. simpl.
    destruct (cashflow_numeric ir.2 Hs Hq Hp) as [v Ev].
    rewrite Ev in Hflow. specialize (Hflow eq_refl). injection Hflow as <-. done.
Qed.

End TransformTotal.

Lemma normalize_total `{Pandas} (df : DataFrame) (mode : string) :
  Forall (fun c => c ∈ columns df) req ->
  any empties df = false \/ mode = "drop"%string ->
  exists d, normalize df mode = Ok d.
Proof.
  intros Hreq Hmode. unfold req in Hreq.
  repeat match goal with
         | Hb : Forall _ (_ :: _) |- _ => apply Forall_cons in Hb as [? Hb]
         end.
  assert (exists df0, handle_null_timestamps df mode = Ok df0) as [df0 Eh].
  { destruct Hmode as [He| ->].
    - exists df. by apply handle_null_timestamps_clean.
    - eexists. by apply handle_null_timestamps_drop. }
  apply (normalize_Ok df mode df0 Eh). by repeat constructor.
Qed.

(** X3.  On a table that has the seven required columns the transform
    returns an aggregate as soon as the null-timestamp step passes (no
    timestamp is null or blank, or the policy is "drop") and, when the PnL
    is included, no row lacks its side: then no coercion, filter, grouping
    or sum of the transform raises.  (With PnL a row without a side makes
    the cash-flow raise a [TypeError].) *)
Theorem transform_succeeds `{Pandas}
    (df : DataFrame) (include_pnl : bool) (mode : string) :
  Forall (fun c => c ∈ columns df) req ->
  any empties df = false \/ mode = "drop"%string ->
  (include_pnl = true ->
   Forall (fun ir : Z * row => get ir.2 "side" <> NA) (rows df)) ->
  exists agg, transform df include_pnl mode = Ok agg.
Proof.
  intros Hreq Hmode Hside. destruct (normalize_total df mode Hreq Hmode) as [d En].
  unfold transform. rewrite En. cbn [mbind Result_bind].
  destruct (aggregate_normalized_Ok df mode d include_pnl En)
    as (d' & agg & -> & Eagg).
  - rewrite Forall_forall in Hreq. apply Hreq. compute_done.
  - intros Hp. apply (normalize_keeps_side df mode d En), Hside, Hp.
  - by exists agg.
Qed.

Lemma transform_succeeds_witness :
  exists agg, transform (H := Example.typed) Tables.batch5 true "drop" = Ok agg.
Proof.
  apply (transform_succeeds (H := Example.typed) Tables.batch5 true "drop").
  - repeat constructor; compute_done.
  - by right.
  - intros _. repeat constructor; compute_done.
Defined.

(** ** Nothing is lost in the grouping *)

Lemma exact_sum_weights c (g : list row) :
  exact_sum c g = sum_Qc ((fun r => default 0%Qc (number_of (get r c))) <$> g).
Proof.
  unfold exact_sum, numbers. induction g as [|r g IH]; [done|].
  rewrite !fmap_cons. cbn [omap list_omap].
  destruct (number_of (get r c)) as [q|]; simpl.
  - by rewrite <- IH.
  - rewrite <- IH. by rewrite Qcplus_0_l.
Qed.

Lemma sum_Qc_cons q qs : sum_Qc (q :: qs) = (q + sum_Qc qs)%Qc.
Proof. reflexivity. Qed.

Lemma sum_Qc_partition {K} `{EqDecision K} (key : row -> K) (w : row -> Qc)
    (ks : list K) (l : list row) :
  NoDup ks ->
  sum_Qc ((fun k => sum_Qc (w <$> filter (fun r => key r = k) l)) <$> ks)
  = sum_Qc (w <$> filter (fun r => key r ∈ ks) l).
Proof.
  induction 1 as [|k ks Hk Hnd IH].
  - simpl. induction l as [|r l IHl]; [done|].
    rewrite filter_cons_False by apply not_elem_of_nil. done.
  - rewrite fmap_cons, sum_Qc_cons, IH. clear IH.
    induction l as [|r l IHl]; [by rewrite Qcplus_0_l|].
    destruct (decide (key r = k)) as [E|E].
    + rewrite (filter_cons_True (fun r => key r = k)) by done.
      rewrite (filter_cons_False (fun r => key r ∈ ks)) by (by rewrite E).
      rewrite (filter_cons_True (fun r => key r ∈ k :: ks)) by (rewrite E; left).
      rewrite !fmap_cons, !sum_Qc_cons, <- IHl. ring.
    + rewrite (filter_cons_False (fun r => key r = k)) by done.
      destruct (decide (key r ∈ ks)) as [Hin|Hin].
      * rewrite (filter_cons_True (fun r => key r ∈ ks)) by done.
        rewrite (filter_cons_True (fun r => key r ∈ k :: ks)) by (by right).
        rewrite !fmap_cons, !sum_Qc_cons, <- IHl. ring.
      * rewrite (filter_cons_False (fun r => key r ∈ ks)) by done.
        rewrite (filter_cons_False (fun r => key r ∈ k :: ks))
          by (rewrite elem_of_cons; tauto).
        done.
Qed.

Lemma agg_sum_inv `{Pandas} c (g : list row) v :
  agg_sum c g = Ok v -> v = Num (column_sum c g).
Proof.
  unfold agg_sum. rewrite numerics_spec.
  destruct (forallb _ _); simpl; [|done]. by intros [= <-].
Qed.

Lemma weekly_row_fields `{Pandas} rs k r :
  weekly_row rs k = Ok r ->
  get r "total_volume" = Num (column_sum "quantity" (group_rows group_cols k rs)) /\
  get r "trade_count"
  = Num (Qc_of_Z (Z.of_nat (length (group_rows group_cols k rs)))).
Proof.
  unfold weekly_row. intros E.
  destruct (agg_sum _ _) as [tv|] eqn:Es; simpl in E; [|done].
  destruct (agg_mean _ _) as [pr|]; simpl in E; [|done].
  injection E as <-. apply agg_sum_inv in Es as ->.
  rewrite !get_insert_ne by done. rewrite get_insert_eq.
  rewrite get_insert_ne by done. by rewrite get_insert_eq.
Qed.

Lemma Forall2_fmap_eq {A B C} (f : A -> C) (g : B -> C) (l : list A) (k : list B) :
  Forall2 (fun x y => f x = g y) l k -> f <$> l = g <$> k.
Proof. induction 1; [done|]. rewrite !fmap_cons. by f_equal. Qed.

Lemma sum_Qc_ones {A} (l : list A) :
  sum_Qc ((fun _ => 1%Qc) <$> l) = Qc_of_Z (Z.of_nat (length l)).
Proof.
  induction l as [|x l IH]; [symmetry; apply Z2Qc_inj_0|].
  rewrite fmap_cons, sum_Qc_cons, IH. cbn [length].
  rewrite Nat2Z.inj_succ, <- Z.add_1_l, Z2Qc_inj_add. by rewrite Z2Qc_inj_1.
Qed.

Lemma filter_group_keys_all (rs : list (Z * row)) :
  filter (fun r => key_of group_cols r ∈ group_keys group_cols false rs) (snd <$> rs)
  = snd <$> rs.
Proof.
  apply filter_all, Forall_forall. intros r Hr.
  apply list_elem_of_fmap in Hr as (ir & -> & Hir).
  apply group_keys_spec. split; [done|]. eauto.
Qed.

(** The rows of the aggregate before the PnL is merged in. *)
Lemma aggregate_rows `{Pandas} df include_pnl agg :
  aggregate df include_pnl = Ok agg ->
  exists rs,
    Forall2 (fun k r => weekly_row (rows df) k = Ok r)
            (group_keys group_cols false (rows df)) rs /\
    Forall2 (fun r r' => forall c, c <> "total_pnl"%string -> get r' c = get r c)
            rs (snd <$> rows agg).
Proof.
  unfold aggregate. intros E.
  destruct (mapM (require df) group_cols); [|done].
  destruct (mapM (require df) agg_inputs); [|done].
  destruct (mapM (weekly_row (rows df)) _) as [rs|] eqn:Em; [|done].
  simpl in E. exists rs. split; [by apply mapM_Ok_inv|].
  destruct (include_pnl && _).
  - destruct (mapM (pnl_row (rows df)) _) as [pnl|]; [|done].
    simpl in E. injection E as <-. cbn [rows]. rewrite range_index_snd.
    apply Forall2_fmap_r, Forall_Forall2_diag, Forall_forall.
    intros r _ c Hc. unfold merge_pnl. by rewrite get_insert_ne.
  - injection E as <-. cbn [rows]. rewrite range_index_snd.
    by apply Forall_Forall2_diag, Forall_forall.
Qed.

Lemma sum_Qc_by_group (w : row -> Qc) (rs : list (Z * row)) :
  sum_Qc ((fun k => sum_Qc (w <$> group_rows group_cols k rs))
          <$> group_keys group_cols false rs)
  = sum_Qc (w <$> (snd <$> rs)).
Proof.
  unfold group_rows.
  rewrite (sum_Qc_partition (key_of group_cols)) by apply group_keys_NoDup.
  by rewrite filter_group_keys_all.
Qed.

(** X4.  The aggregate accounts for every row that enters the aggregation:
    the [trade_count] of its groups add up to the number of rows, and the
    [total_volume] of its groups add up to the sum of the quantities of the
    rows when the sum that pandas computes in each group is the exact one
    (no rounding, no wrap-around).  The two totals are exact sums. *)
Theorem aggregate_conserves_volume_and_count `{Pandas}
    (df : DataFrame) (include_pnl : bool) (agg : DataFrame) :
  aggregate df include_pnl = Ok agg ->
  exact_sum "trade_count" (snd <$> rows agg)
  = Qc_of_Z (Z.of_nat (length (rows df))) /\
  ((forall k, k ∈ group_keys group_cols false (rows df) ->
      column_sum "quantity" (group_rows group_cols k (rows df))
      = exact_sum "quantity" (group_rows group_cols k (rows df))) ->
   exact_sum "total_volume" (snd <$> rows agg)
   = exact_sum "quantity" (snd <$> rows df)).
Proof.
  intros E. destruct (aggregate_rows _ _ _ E) as (rs & Hrs & Hagg).
  assert (forall c (f : list row -> Qc),
            c <> "total_pnl"%string ->
            (forall k r, weekly_row (rows df) k = Ok r ->
                         get r c = Num (f (group_rows group_cols k (rows df)))) ->
            exact_sum c (snd <$> rows agg)
            = sum_Qc ((fun k => f (group_rows group_cols k (rows df)))
                      <$> group_keys group_cols false (rows df))) as Hsum.
  { intros c f Hc Hf. rewrite exact_sum_weights. f_equal.
    symmetry. apply Forall2_fmap_eq.
    clear E. revert Hagg. generalize (snd <$> rows agg). intros out Hagg.
    revert out Hagg.
    induction Hrs as [|k r ks rs' Hr _ IH]; intros out Hagg;
      inversion Hagg as [|? r' ? out' Hr' Hout]; subst; constructor.
    - rewrite (Hr' c Hc), (Hf k r Hr). done.
    - by apply IH. }
  split.
  - rewrite (Hsum "trade_count" (fun g => Qc_of_Z (Z.of_nat (length g))));
      [|done|].
    + rewrite <- (length_fmap snd (rows df)), <- sum_Qc_ones.
      rewrite <- sum_Qc_by_group. f_equal.
      apply list_fmap_ext. intros i k _. by rewrite sum_Qc_ones.
    + intros k r Hr. by apply weekly_row_fields in Hr as [_ ->].
  - intros Hexact.
    rewrite (Hsum "total_volume" (column_sum "quantity")); [|done|].
    + rewrite (exact_sum_weights "quantity" (snd <$> rows df)).
      rewrite <- sum_Qc_by_group. f_equal.
      apply list_fmap_ext. intros i k Hk.
      rewrite Hexact by (by eapply list_elem_of_lookup_2).
      apply exact_sum_weights.
    + intros k r Hr. by apply weekly_row_fields in Hr as [-> _].
Qed.

Lemma aggregate_conserves_volume_and_count_witness :
  exact_sum "trade_count" (snd <$> rows Tables.weekly4) = Qc_of_Z 4 /\
  exact_sum "total_volume" (snd <$> rows Tables.weekly4)
  = exact_sum "quantity" (snd <$> rows Tables.normalized4).
Proof.
  destruct (aggregate_conserves_volume_and_count (H := Example.typed)
              Tables.cashflows4 true Tables.weekly4) as [Hcount Hvolume];
    [compute_done|].
  split; [exact Hcount|]. apply Hvolume. intros k _. reflexivity.
Defined.

Lemma range_index_fst {A} (l : list A) :
  fst <$> range_index l = Z.of_nat <$> seq 0 (length l).
Proof.
  unfold range_index. apply list_eq. intros i.
  rewrite !list_lookup_fmap, list_lookup_imap.
  destruct (l !! i) as [x|] eqn:Ei; simpl.
  - rewrite lookup_seq_lt by (by eapply lookup_lt_Some). done.
  - rewrite lookup_seq_ge by (by apply lookup_ge_None). done.
Qed.

Lemma aggregate_labels `{Pandas} df include_pnl agg :
  aggregate df include_pnl = Ok agg ->
  rows agg = range_index (snd <$> rows agg).
Proof.
  unfold aggregate. intros E.
  destruct (mapM (require df) group_cols); [|done].
  destruct (mapM (require df) agg_inputs); [|done].
  destruct (mapM (weekly_row (rows df)) _) as [rs|]; [|done].
  simpl in E. destruct (include_pnl && _).
  - destruct (mapM (pnl_row (rows df)) _) as [pnl|]; [|done].
    simpl in E. injection E as <-. cbn [rows]. by rewrite range_index_snd.
  - injection E as <-. cbn [rows]. by rewrite range_index_snd.
Qed.

(** X5.  The aggregate has exactly one row for every key that occurs among
    the rows entering the aggregation, rows with a missing [user_id] or
    [symbol] included, and none else: no two of its rows have the same key.
    Its rows come in ascending key order and are labelled 0, 1, 2, ... *)
Theorem aggregate_groups `{Pandas} (df : DataFrame) (include_pnl : bool) (agg : DataFrame) :
  aggregate df include_pnl = Ok agg ->
  (forall k, k ∈ key_of group_cols <$> (snd <$> rows agg)
             <-> exists ir, ir ∈ rows df /\ key_of group_cols ir.2 = k) /\
  NoDup (key_of group_cols <$> (snd <$> rows agg)) /\
  StronglySorted key_le (key_of group_cols <$> (snd <$> rows agg)) /\
  fst <$> rows agg = Z.of_nat <$> seq 0 (length (rows agg)).
Proof.
  intros E. split; [|split; [|split]].
  - intros k. rewrite (aggregate_keys _ _ _ E), group_keys_spec. simpl. tauto.
  - rewrite (aggregate_keys _ _ _ E). apply group_keys_NoDup.
  - rewrite (aggregate_keys _ _ _ E). unfold group_keys.
    apply StronglySorted_merge_sort; apply _.
  - rewrite (aggregate_labels _ _ _ E) at 1.
    by rewrite range_index_fst, length_fmap.
Qed.

Lemma aggregate_groups_witness :
  key_of group_cols <$> (snd <$> rows Tables.weekly4)
  = [[Example.date 2024 1 2; Str "bronze"; Str "u1"; Str "AAPL"];
     [Example.date 2024 1 2; Str "bronze"; Str "u4"; Str "TSLA"];
     [Example.date 2024 1 2; Str "gold"; Str "u2"; Str "MSFT"]] /\
  NoDup (key_of group_cols <$> (snd <$> rows Tables.weekly4)) /\
  StronglySorted key_le (key_of group_cols <$> (snd <$> rows Tables.weekly4)).
Proof.
  split; [compute_done|].
  destruct (aggregate_groups (H := Example.typed)
              Tables.cashflows4 true Tables.weekly4) as (_ & Hnd & Hs & _);
    [compute_done|].
  by split.
Defined.

(** X6.  In the aggregate with PnL, the [total_pnl] of a group is the sum
    that pandas computes of the cash-flows of its rows, taken in the order of
    the rows, when no part of its key is missing, and is missing when a part
    of its key is. *)
Theorem total_pnl_by_group `{Pandas} (df agg : DataFrame) :
  "cashflow"%string ∈ columns df ->
  aggregate df true = Ok agg ->
  forall ir, ir ∈ rows agg ->
    let k := key_of group_cols ir.2 in
    (has_na k = false ->
     get ir.2 "total_pnl" = Num (column_sum "cashflow" (group_rows group_cols k (rows df)))) /\
    (has_na k = true -> get ir.2 "total_pnl" = NA).
Proof.
  intros Hc E ir Hir k.
  pose proof (aggregate_total_pnl df agg Hc E ir Hir) as Hp. fold k in Hp.
  destruct (has_na k); split; try done.
  intros _. apply agg_sum_inv in Hp. by rewrite Hp.
Qed.

Lemma total_pnl_by_group_witness :
  (forall ir, ir ∈ rows Tables.weekly_null_user ->
     let k := key_of group_cols ir.2 in
     (has_na k = false ->
      get ir.2 "total_pnl"
      = Num (column_sum (H := Example.typed) "cashflow"
               (group_rows group_cols k (rows Tables.cashflows_null_user)))) /\
     (has_na k = true -> get ir.2 "total_pnl" = NA)) /\
  (fun ir : Z * row => get ir.2 "total_pnl") <$> rows Tables.weekly_null_user
  = [Example.num 20; NA].
Proof.
  split; [|compute_done].
  apply (total_pnl_by_group (H := Example.typed)
           Tables.cashflows_null_user Tables.weekly_null_user);
    compute_done.
Defined.

(** ** What a permutation of the rows leaves unchanged *)

Lemma aggregate_trade_count `{Pandas} df include_pnl agg :
  aggregate df include_pnl = Ok agg ->
  values "trade_count" agg
  = (fun k => agg_size (group_rows group_cols k (rows df)))
    <$> group_keys group_cols false (rows df).
Proof.
  intros E. destruct (aggregate_rows _ _ _ E) as (rs & Hrs & Hagg).
  unfold values.
  change (fun ir : Z * row => get ir.2 "trade_count")
    with ((fun r : row => get r "trade_count") ∘ (snd : Z * row -> row)).
  rewrite list_fmap_compose. symmetry.
  revert Hagg. generalize (snd <$> rows agg). intros out Hagg. revert out Hagg.
  induction Hrs as [|k r ks rs' Hr _ IH]; intros out Hagg;
    inversion Hagg as [|? r' ? out' Hr' Hout]; subst; [done|].
  rewrite !fmap_cons. f_equal; [|by apply IH].
  rewrite Hr' by done. apply weekly_row_fields in Hr as [_ ->]. done.
Qed.

(** Exact sums and means do not depend on the order of the numbers. *)
Lemma typed_order_blind c (g : list row) : order_blind (H := Example.typed) c g.
Proof.
  intros g' Hp. pose proof (numbers_Permutation c _ _ Hp) as Hn. simpl.
  by rewrite (sum_Qc_Permutation _ _ Hn), (Permutation_length Hn).
Qed.

(** C7, amended.  Permuting the rows that enter the aggregation leaves the
    keys of the aggregate, which are pairwise distinct, their order and the
    [trade_count] of every group unchanged.  The [total_volume], the mean
    [price] and the [total_pnl] of the groups, and so the aggregate as a
    whole, are unchanged when the sums and the means that pandas computes in
    each group do not depend on the order of the numbers, as exact sums do
    not; sums of [float64] numbers are rounded and can depend on it. *)
Theorem aggregation_order_independent `{Pandas}
    (df1 df2 : DataFrame) (include_pnl : bool) :
  columns df1 = columns df2 ->
  rows df1 ≡ₚ rows df2 ->
  (forall agg, aggregate df1 include_pnl = Ok agg ->
     NoDup (key_of group_cols <$> (snd <$> rows agg))) /\
  (forall agg1 agg2,
     aggregate df1 include_pnl = Ok agg1 ->
     aggregate df2 include_pnl = Ok agg2 ->
     key_of group_cols <$> (snd <$> rows agg1)
     = key_of group_cols <$> (snd <$> rows agg2) /\
     values "trade_count" agg1 = values "trade_count" agg2) /\
  ((forall k c, c ∈ ["quantity"; "price"; "cashflow"]%string ->
      order_blind c (group_rows group_cols k (rows df2))) ->
   aggregate df1 include_pnl = aggregate df2 include_pnl).
Proof.
  intros Hc Hp. split; [|split].
  - intros agg E. rewrite (aggregate_keys _ _ _ E). apply group_keys_NoDup.
  - intros agg1 agg2 E1 E2. split.
    + rewrite (aggregate_keys _ _ _ E1), (aggregate_keys _ _ _ E2).
      by apply group_keys_Permutation.
    + rewrite (aggregate_trade_count _ _ _ E1), (aggregate_trade_count _ _ _ E2).
      rewrite (group_keys_Permutation _ _ _ _ Hp).
      apply list_fmap_ext. intros i k _.
      by apply agg_size_Permutation, group_rows_Permutation.
  - by apply aggregate_Permutation.
Qed.

Lemma aggregation_order_independent_witness :
  aggregate (H := Example.typed) Tables.cashflows4 true
  = aggregate (H := Example.typed) (Tables.reordered Tables.cashflows4) true.
Proof.
  destruct (aggregation_order_independent (H := Example.typed)
              Tables.cashflows4 (Tables.reordered Tables.cashflows4) true)
    as (_ & _ & Hsame); [reflexivity | compute_done |].
  apply Hsame. intros k c _. apply typed_order_blind.
Defined.

(** C7 as stated fails.  The four trades of [swing] are one group; their
    cash-flows are 1/2, 2^60, 1/2, -2^60.  Added up in [float64] in this
    order they give 0, as 1/2 is lost twice in the rounding of the sum with
    2^60; with the two large trades first they give 1.  The [total_pnl] of
    the group depends on the order of the rows. *)
Lemma float_sum_depends_on_row_order :
  columns (Tables.float_flows Tables.swing_reordered)
  = columns (Tables.float_flows Tables.swing) /\
  rows (Tables.float_flows Tables.swing_reordered)
  ≡ₚ rows (Tables.float_flows Tables.swing) /\
  values "cashflow" (Tables.float_flows Tables.swing)
  = [Tables.half; Example.num (2 ^ 60); Tables.half; Example.num (- 2 ^ 60)] /\
  values "cashflow" (Tables.float_flows Tables.swing_reordered)
  = [Example.num (2 ^ 60); Example.num (- 2 ^ 60); Tables.half; Tables.half] /\
  values "total_pnl"
    <$> aggregate (H := Example.binary64) (Tables.float_flows Tables.swing) true
  = Ok [Example.num 0] /\
  values "total_pnl"
    <$> aggregate (H := Example.binary64)
          (Tables.float_flows Tables.swing_reordered) true
  = Ok [Example.num 1] /\
  values "total_pnl" <$> transform (H := Example.binary64) Tables.swing true "error"
  = Ok [Example.num 0] /\
  values "total_pnl"
    <$> transform (H := Example.binary64) Tables.swing_reordered true "error"
  = Ok [Example.num 1].
Proof. repeat split; compute_done. Qed.

(** ** The row-level rules of the validator *)

Lemma flag_lookup k k' mask df (report : gmap string DataFrame) :
  flag k mask df report !! k'
  = if decide (k = k')
    then (if any mask df then Some (loc mask req df) else report !! k')
    else report !! k'.
Proof.
  unfold flag. destruct (any mask df); case_decide; subst;
    rewrite ?lookup_insert_eq, ?lookup_insert_ne by done; done.
Qed.

Lemma no_missing_columns df :
  Forall (fun c => c ∈ columns df) req ->
  filter (fun c => c ∉ columns df) req = [].
Proof.
  intros Hall. induction Hall as [|c cs Hc _ IH]; [done|].
  rewrite filter_cons_False by tauto. done.
Qed.

Lemma any_false_mask df : any (fun _ => false) df = false.
Proof. unfold any. induction (rows df); [done|]. done. Qed.

Lemma validate_formats_lookup `{Pandas} (df : DataFrame) (forbid_future_ts : bool) k :
  Forall (fun c => c ∈ columns df) req ->
  validate_formats df forbid_future_ts !! k
  = if decide ("invalid_client_type"%string = k)
    then (if any bad_client df then Some (loc bad_client req df) else None)
    else if decide ("invalid_side"%string = k)
    then (if any bad_side df then Some (loc bad_side req df) else None)
    else if decide ("invalid_price"%string = k)
    then (if any bad_price df then Some (loc bad_price req df) else None)
    else if decide ("invalid_quantity"%string = k)
    then (if any bad_qty df then Some (loc bad_qty req df) else None)
    else if decide ("timestamp_in_future"%string = k)
    then (if forbid_future_ts && any fut df then Some (loc fut req df) else None)
    else if decide ("invalid_timestamp_format"%string = k)
    then (if any bad_ts df then Some (loc bad_ts req df) else None)
    else None.
Proof.
  intros Hreq. unfold validate_formats.
  rewrite (no_missing_columns df Hreq). rewrite decide_True by done.
  cbv zeta. destruct forbid_future_ts; cbn [andb];
    rewrite !flag_lookup, lookup_empty;
    repeat (case_decide; [subst; repeat (rewrite decide_False by done)|]);
    done.
Qed.

(** X7.  On a table that has the seven required columns, the report of the
    validator has no [missing_columns] entry; it has an entry for a
    row-level category exactly when some row breaks the rule of that
    category, and the entry is the table of those rows, with their labels,
    cut down to the required columns; it has no other entry.  Without
    [forbid_future_ts] no row is reported as lying in the future. *)
Theorem validate_formats_report `{Pandas} (df : DataFrame) (forbid_future_ts : bool) :
  Forall (fun c => c ∈ columns df) req ->
  (forall k mask, (k, mask) ∈ row_rules forbid_future_ts ->
     validate_formats df forbid_future_ts !! k
     = if any mask df then Some (loc mask req df) else None) /\
  (forall k, k ∉ (row_rules forbid_future_ts).*1 ->
     validate_formats df forbid_future_ts !! k = None) /\
  validate_formats df forbid_future_ts !! "missing_columns"%string = None.
Proof.
  intros Hreq. split; [|split].
  - intros k mask Hin. rewrite validate_formats_lookup by done.
    unfold row_rules in Hin.
    repeat (apply elem_of_cons in Hin as [[= -> ->]|Hin];
            [repeat (rewrite decide_False by done); rewrite decide_True by done|]).
    + done.
    + destruct forbid_future_ts; cbn [andb]; [done|]. by rewrite any_false_mask.
    + done.
    + done.
    + done.
    + done.
    + by apply not_elem_of_nil in Hin.
  - intros k Hnot. rewrite validate_formats_lookup by done.
    repeat (case_decide; [subst; exfalso; apply Hnot; compute_done|]). done.
  - rewrite validate_formats_lookup by done.
    by repeat (rewrite decide_False by done).
Qed.

Lemma validate_formats_report_witness :
  validate_formats (H := Example.typed) Tables.quantities true !! "invalid_quantity"%string
  = Some {| columns := req;
            rows := filter (fun ir : Z * row => ir.1 <> 4) (rows Tables.quantities) |} /\
  validate_formats (H := Example.typed) Tables.quantities true !! "invalid_price"%string
  = None.
Proof.
  destruct (validate_formats_report (H := Example.typed) Tables.quantities true)
    as (Hrules & _ & _); [repeat constructor; compute_done|].
  split.
  - rewrite (Hrules "invalid_quantity"%string (bad_qty (H := Example.typed)))
      by (unfold row_rules; do 2 right; left).
    compute_done.
  - rewrite (Hrules "invalid_price"%string (bad_price (H := Example.typed)))
      by (unfold row_rules; do 3 right; left).
    compute_done.
Defined.

Lemma integer_denominator (q : Qc) : Qden (this q) = 1%positive <-> is_integer q.
Proof.
  split.
  - intros Hd. exists (Qnum (this q)). apply Qc_is_canon.
    destruct q as [[n d] Hq]. simpl in *. subst d. reflexivity.
  - intros [z ->]. reflexivity.
Qed.

(** X8.  A row counts as [invalid_quantity] exactly when its quantity is
    not read as a number, or is read as a number that is zero or negative,
    or has a fractional part. *)
Theorem invalid_quantity_rule `{Pandas} (r : row) :
  bad_qty r = true <->
  to_numeric (get r "quantity") = NA \/
  exists q, to_numeric (get r "quantity") = Num q /\ ((q ≤ 0)%Qc \/ ~ is_integer q).
Proof.
  unfold bad_qty.
  destruct (to_numeric_cases (get r "quantity")) as [-> | [q ->]];
    cbn [isna non_positive non_integer orb].
  - split; [by left|done].
  - rewrite orb_true_iff, bool_decide_eq_true, negb_true_iff, Pos.eqb_neq.
    split.
    + intros Hq. right. exists q. split; [done|].
      rewrite <- integer_denominator. tauto.
    + intros [?|(q' & [= <-] & Hq)]; [done|].
      rewrite <- integer_denominator in Hq. tauto.
Qed.

(** The boundary values: 0, -1 and 3/2 are invalid quantities, a text that
    is no number too, and 1 is valid. *)
Example invalid_quantity_boundaries :
  (fun ir : Z * row => bad_qty (H := Example.typed) ir.2) <$> rows Tables.quantities
  = [true; true; true; true; false].
Proof. compute_done. Qed.

(** ** More on the null-timestamp step *)

(** X9.  A table without a [timestamp] column makes the null-timestamp step
    and the transform fail with the [ValueError] "Column 'timestamp' not
    found", whatever the policy (an unknown one included) and whatever other
    columns are missing. *)
Theorem timestamp_column_is_checked_first `{Pandas}
    (df : DataFrame) (mode : string) (include_pnl : bool) :
  "timestamp"%string ∉ columns df ->
  handle_null_timestamps df mode = Err (ValueError "Column 'timestamp' not found") /\
  transform df include_pnl mode = Err (ValueError "Column 'timestamp' not found").
Proof.
  intros Hno.
  assert (handle_null_timestamps df mode
          = Err (ValueError "Column 'timestamp' not found")) as E.
  { unfold handle_null_timestamps. by rewrite decide_False. }
  split; [done|]. by apply transform_fails_with_handle.
Qed.

Lemma timestamp_column_is_checked_first_witness :
  transform (H := Example.typed) {| columns := []; rows := [] |} true "fill"
  = Err (ValueError "Column 'timestamp' not found").
Proof.
  apply (timestamp_column_is_checked_first (H := Example.typed)
           {| columns := []; rows := [] |} "fill" true).
  apply not_elem_of_nil.
Defined.

(** X10.  What the null-timestamp step returns has the columns of its
    input, a part of its rows in their order, and no null or blank
    timestamp: the step returns it unchanged under every policy. *)
Theorem handle_null_timestamps_settles `{Pandas}
    (df : DataFrame) (mode : string) (df0 : DataFrame) :
  handle_null_timestamps df mode = Ok df0 ->
  columns df0 = columns df /\
  sublist (rows df0) (rows df) /\
  any empties df0 = false /\
  forall mode', handle_null_timestamps df0 mode' = Ok df0.
Proof.
  intros E.
  destruct (handle_null_timestamps_Ok_inv _ _ _ E) as (Hts & Hcols & Hrows & _).
  assert (any empties df0 = false) as Hclean.
  { destruct (any empties df0) eqn:Ea; [|done].
    apply any_true in Ea as (ir & Hin & Hm). rewrite Hrows in Hin.
    apply list_elem_of_filter in Hin as [Hn _]. by rewrite Hm in Hn. }
  split; [done|]. split; [rewrite Hrows; apply sublist_filter|].
  split; [done|]. intros mode'.
  apply handle_null_timestamps_clean; [by rewrite Hcols | done].
Qed.

Lemma handle_null_timestamps_settles_witness :
  exists df0,
    handle_null_timestamps (H := Example.typed) Tables.batch5 "drop" = Ok df0 /\
    handle_null_timestamps (H := Example.typed) df0 "error" = Ok df0.
Proof.
  destruct (handle_null_timestamps (H := Example.typed) Tables.batch5 "drop")
    as [df0|] eqn:E; [|by vm_compute in E].
  exists df0. split; [done|].
  by apply (handle_null_timestamps_settles (H := Example.typed) _ _ _ E).
Defined.

(** ** More on the week start *)

Lemma date_of_bounds t :
  Calendar.midnight (Calendar.date_of t) <= t
  < Calendar.midnight (Calendar.date_of t + 1).
Proof.
  unfold Calendar.midnight, Calendar.date_of, Calendar.ns_per_day.
  Z.div_mod_to_equations. lia.
Qed.

Lemma week_start_MON_fixed day :
  Calendar.weekday day = Calendar.TUE ->
  Calendar.week_start Calendar.MON day = day.
Proof.
  unfold Calendar.week_start, Calendar.week_end, Calendar.weekday,
    Calendar.MON, Calendar.TUE.
  Z.div_mod_to_equations. lia.
Qed.

(** X11.  The week start of an instant is midnight of the Tuesday at or
    before it: it falls on a Tuesday, lies at most 7 days before the
    instant and never after it, and is its own week start.  A missing
    timestamp has a missing week start. *)
Theorem to_week_start_monday_is_tuesday_midnight `{Pandas} (t : Z) :
  exists t',
    to_week_start_monday (Time t) = Time t' /\
    t' = Calendar.midnight (Calendar.date_of t') /\
    Calendar.weekday (Calendar.date_of t') = Calendar.TUE /\
    t' <= t < t' + 7 * Calendar.ns_per_day /\
    to_week_start_monday (Time t') = Time t' /\
    to_week_start_monday NA = NA.
Proof.
  eexists. split; [apply to_week_start_monday_Time|].
  rewrite !date_of_midnight.
  split; [done|]. split; [apply week_start_MON_is_tuesday|]. split.
  - pose proof (date_of_bounds t) as Ht.
    pose proof (week_start_MON_bounds (Calendar.date_of t)) as Hw.
    unfold Calendar.midnight, Calendar.ns_per_day in *. lia.
  - split; [|done]. rewrite to_week_start_monday_Time, date_of_midnight.
    by rewrite week_start_MON_fixed by apply week_start_MON_is_tuesday.
Qed.

(** ** Trimming and case folding of texts *)

Section TextFacts.
Import Text.

Lemma append_cons a s1 s2 : (String a s1 +:+ s2)%string = String a (s1 +:+ s2).
Proof. reflexivity. Qed.

Lemma append_nil_r s : (s +:+ "")%string = s.
Proof. induction s as [|a s IH]; [done|]. by rewrite append_cons, IH. Qed.

Lemma append_assoc s1 s2 s3 :
  ((s1 +:+ s2) +:+ s3)%string = (s1 +:+ (s2 +:+ s3))%string.
Proof. induction s1 as [|a s1 IH]; [done|]. by rewrite !append_cons, IH. Qed.

Lemma rev_app_append s1 s2 : String.rev_app s1 s2 = (String.rev s1 +:+ s2)%string.
Proof.
  unfold String.rev. revert s2. induction s1 as [|a s1 IH]; intros s2; [done|].
  cbn [String.rev_app]. rewrite IH, (IH (String a "")).
  by rewrite append_assoc.
Qed.

Lemma rev_cons a s : String.rev (String a s) = (String.rev s +:+ String a "")%string.
Proof. unfold String.rev at 1. cbn [String.rev_app]. apply rev_app_append. Qed.

Lemma rev_append s1 s2 :
  String.rev (s1 +:+ s2) = (String.rev s2 +:+ String.rev s1)%string.
Proof.
  induction s1 as [|a s1 IH].
  - by rewrite append_nil_r.
  - rewrite append_cons, !rev_cons, IH. by rewrite append_assoc.
Qed.

Lemma rev_involutive s : String.rev (String.rev s) = s.
Proof.
  induction s as [|a s IH]; [done|].
  rewrite rev_cons, rev_append, IH. done.
Qed.

Lemma lstrip_idempotent s : lstrip (lstrip s) = lstrip s.
Proof.
  induction s as [|a s IH]; [done|]. cbn [lstrip].
  destruct (is_space a) eqn:E; [done|]. cbn [lstrip]. by rewrite E.
Qed.

Lemma lstrip_snoc s a :
  is_space a = false ->
  lstrip (s +:+ String a "") = (lstrip s +:+ String a "")%string.
Proof.
  intros Ha. induction s as [|b s IH].
  { change (lstrip (String a "") = String a ""). cbn [lstrip]. by rewrite Ha. }
  rewrite append_cons. cbn [lstrip].
  destruct (is_space b); [done|]. done.
Qed.

(** A text that starts with a character that is no space keeps it when
    trimmed on the right. *)
Lemma rstrip_cons a s :
  is_space a = false -> rstrip (String a s) = String a (rstrip s).
Proof.
  intros Ha. unfold rstrip. rewrite rev_cons, lstrip_snoc by done.
  rewrite rev_append. done.
Qed.

Lemma rstrip_idempotent s : rstrip (rstrip s) = rstrip s.
Proof.
  unfold rstrip. by rewrite rev_involutive, lstrip_idempotent.
Qed.

Lemma lstrip_rstrip_lstrip s : lstrip (rstrip (lstrip s)) = rstrip (lstrip s).
Proof.
  induction s as [|a s IH]; [done|]. cbn [lstrip].
  destruct (is_space a) eqn:E; [done|].
  rewrite rstrip_cons by done. cbn [lstrip]. by rewrite E.
Qed.

Lemma strip_idempotent s : strip (strip s) = strip s.
Proof.
  unfold strip. by rewrite lstrip_rstrip_lstrip, rstrip_idempotent.
Qed.

Lemma lower_char_idempotent a : lower_char (lower_char a) = lower_char a.
Proof. destruct a as [[] [] [] [] [] [] [] []]; reflexivity. Qed.

Lemma upper_char_idempotent a : upper_char (upper_char a) = upper_char a.
Proof. destruct a as [[] [] [] [] [] [] [] []]; reflexivity. Qed.

Lemma is_space_lower_char a : is_space (lower_char a) = is_space a.
Proof. destruct a as [[] [] [] [] [] [] [] []]; reflexivity. Qed.

Lemma is_space_upper_char a : is_space (upper_char a) = is_space a.
Proof. destruct a as [[] [] [] [] [] [] [] []]; reflexivity. Qed.

Lemma map_chars_idempotent f s :
  (forall a, f (f a) = f a) -> map_chars f (map_chars f s) = map_chars f s.
Proof. intros Hf. induction s as [|a s IH]; [done|]. simpl. by rewrite Hf, IH. Qed.

Lemma map_chars_append f s1 s2 :
  map_chars f (s1 +:+ s2) = (map_chars f s1 +:+ map_chars f s2)%string.
Proof.
  induction s1 as [|a s1 IH]; [done|].
  rewrite append_cons. cbn [map_chars]. by rewrite append_cons, IH.
Qed.

Lemma map_chars_rev f s : map_chars f (String.rev s) = String.rev (map_chars f s).
Proof.
  induction s as [|a s IH]; [done|]. cbn [map_chars].
  by rewrite !rev_cons, map_chars_append, IH.
Qed.

Lemma map_chars_lstrip f s :
  (forall a, is_space (f a) = is_space a) ->
  map_chars f (lstrip s) = lstrip (map_chars f s).
Proof.
  intros Hf. induction s as [|a s IH]; [done|]. cbn [lstrip map_chars].
  rewrite Hf. by destruct (is_space a).
Qed.

(** Case folding and trimming commute. *)
Lemma map_chars_strip f s :
  (forall a, is_space (f a) = is_space a) ->
  map_chars f (strip s) = strip (map_chars f s).
Proof.
  intros Hf. unfold strip, rstrip.
  by rewrite map_chars_rev, !map_chars_lstrip, map_chars_rev, map_chars_lstrip.
Qed.

Lemma lower_strip_normal s :
  strip (lower (strip s)) = lower (strip s) /\
  lower (lower (strip s)) = lower (strip s).
Proof.
  unfold lower. split.
  - rewrite <- map_chars_strip by apply is_space_lower_char.
    by rewrite strip_idempotent.
  - apply map_chars_idempotent, lower_char_idempotent.
Qed.

Lemma strip_lower_normal s :
  strip (lower (strip (lower s))) = strip (lower s).
Proof.
  unfold lower. rewrite <- !map_chars_strip by apply is_space_lower_char.
  rewrite strip_idempotent.
  by rewrite map_chars_idempotent by apply lower_char_idempotent.
Qed.

Lemma strip_upper_normal s :
  strip (upper (strip (upper s))) = strip (upper s).
Proof.
  unfold upper. rewrite <- !map_chars_strip by apply is_space_upper_char.
  rewrite strip_idempotent.
  by rewrite map_chars_idempotent by apply upper_char_idempotent.
Qed.

End TextFacts.

(** ** The header that [extract] returns *)

(** X12.  [extract] reads the file "data/trades.csv" whatever its
    argument.  When that file is missing it fails with [FileNotFoundError]
    for that path; when the header of the file has no column written
    [timestamp], letter for letter, it fails with the [ValueError] of
    [parse_dates]; otherwise it returns the rows of the file under their
    labels and the column names of the file trimmed and in lower case, the
    column [timestamp] among them: trimming or lower-casing the names again
    changes nothing. *)
Theorem extract_header (fs : FileSystem) (path : string) :
  match fs !! "data/trades.csv"%string with
  | None => extract fs path = Err (FileNotFoundError "data/trades.csv")
  | Some raw =>
      if decide ("timestamp"%string ∈ columns raw) then
        exists df,
          extract fs path = Ok df /\
          columns df = (fun c => Text.lower (Text.strip c)) <$> columns raw /\
          Forall (fun c => Text.strip c = c /\ Text.lower c = c) (columns df) /\
          "timestamp"%string ∈ columns df /\
          fst <$> rows df = fst <$> rows raw
      else
        extract fs path
        = Err (ValueError "Missing column provided to 'parse_dates': 'timestamp'")
  end.
Proof.
  unfold extract, read_csv. destruct (fs !! "data/trades.csv"%string) as [raw|];
    [|done].
  destruct (decide ("timestamp"%string ∈ columns raw)) as [Hts|]; [|done].
  eexists. split; [done|]. split; [done|]. split; [|split].
  - simpl. apply Forall_fmap, Forall_forall. intros c _. simpl.
    apply lower_strip_normal.
  - simpl. apply list_elem_of_fmap. by exists "timestamp"%string.
  - simpl. rewrite <- list_fmap_compose. done.
Qed.

(** ** Normalising twice *)

Lemma to_datetime_idempotent `{Pandas} c : to_datetime (to_datetime c) = to_datetime c.
Proof. by destruct (to_datetime_cases c) as [-> | [t ->]]. Qed.

Lemma to_numeric_idempotent `{Pandas} c : to_numeric (to_numeric c) = to_numeric c.
Proof. by destruct (to_numeric_cases c) as [-> | [q ->]]. Qed.

Lemma text_column_idempotent `{Pandas} (f : string -> string) c :
  (forall s, Text.strip (f (Text.strip (f s))) = Text.strip (f s)) ->
  str_map Text.strip (str_map f (astype_string
    (str_map Text.strip (str_map f (astype_string c)))))
  = str_map Text.strip (str_map f (astype_string c)).
Proof. intros Hf. destruct c; simpl; by rewrite ?Hf. Qed.

Lemma get_of_lookup (r : row) c v : r !! c = Some v -> get r c = v.
Proof. intros E. unfold get. by rewrite E. Qed.

Section Idempotence.
Context `{Pandas}.

(** A row that the normalisation returns is left as it is by the
    normalisation, and kept. *)
Lemma normalized_row_fixed r0 :
  kept (normalize_row r0) = true ->
  let r := with_week_start (normalize_row r0) in
  with_week_start (normalize_row r) = r /\ kept (normalize_row r) = true.
Proof.
  intros Hk r.
  assert (r !! "timestamp"%string = Some (to_datetime (get r0 "timestamp"))) as Hts.
  { unfold r, with_week_start, normalize_row.
    rewrite !lookup_insert_ne by done. apply lookup_insert_eq. }
  assert (r !! "client_type"%string
          = Some (str_map Text.strip (str_map Text.lower
                    (astype_string (get r0 "client_type"))))) as Hct.
  { unfold r, with_week_start, normalize_row.
    rewrite !lookup_insert_ne by done. rewrite lookup_insert_eq.
    by rewrite !get_insert_ne by done. }
  assert (r !! "symbol"%string
          = Some (str_map Text.strip (str_map Text.upper
                    (astype_string (get r0 "symbol"))))) as Hsy.
  { unfold r, with_week_start, normalize_row.
    rewrite !lookup_insert_ne by done. rewrite lookup_insert_eq.
    by rewrite !get_insert_ne by done. }
  assert (r !! "side"%string
          = Some (str_map Text.strip (str_map Text.lower
                    (astype_string (get r0 "side"))))) as Hsi.
  { unfold r, with_week_start, normalize_row.
    rewrite !lookup_insert_ne by done. rewrite lookup_insert_eq.
    by rewrite !get_insert_ne by done. }
  assert (r !! "quantity"%string = Some (to_numeric (get r0 "quantity"))) as Hq.
  { unfold r, with_week_start, normalize_row.
    rewrite !lookup_insert_ne by done. rewrite lookup_insert_eq.
    by rewrite !get_insert_ne by done. }
  assert (r !! "price"%string = Some (to_numeric (get r0 "price"))) as Hp.
  { unfold r, with_week_start, normalize_row.
    rewrite !lookup_insert_ne by done. rewrite lookup_insert_eq.
    by rewrite !get_insert_ne by done. }
  assert (r !! "week_start_date"%string
          = Some (to_week_start_monday (to_datetime (get r0 "timestamp")))) as Hw.
  { unfold r, with_week_start. rewrite lookup_insert_eq.
    by rewrite normalize_row_timestamp. }
  assert (normalize_row r = r) as Hfix.
  { unfold normalize_row.
    rewrite (insert_id r "timestamp")
      by (rewrite (get_of_lookup _ _ _ Hts), to_datetime_idempotent; done).
    rewrite (insert_id r "client_type")
      by (rewrite (get_of_lookup _ _ _ Hct),
            (text_column_idempotent Text.lower) by apply strip_lower_normal; done).
    rewrite (insert_id r "symbol")
      by (rewrite (get_of_lookup _ _ _ Hsy),
            (text_column_idempotent Text.upper) by apply strip_upper_normal; done).
    rewrite (insert_id r "side")
      by (rewrite (get_of_lookup _ _ _ Hsi),
            (text_column_idempotent Text.lower) by apply strip_lower_normal; done).
    rewrite (insert_id r "quantity")
      by (rewrite (get_of_lookup _ _ _ Hq), to_numeric_idempotent; done).
    apply insert_id. by rewrite (get_of_lookup _ _ _ Hp), to_numeric_idempotent. }
  rewrite Hfix. split.
  - unfold with_week_start at 1. apply insert_id.
    rewrite (get_of_lookup _ _ _ Hts). done.
  - revert Hk. unfold kept.
    rewrite (get_of_lookup _ _ _ Hts), (get_of_lookup _ _ _ Hq),
      (get_of_lookup _ _ _ Hp), (get_of_lookup _ _ _ Hct).
    by rewrite normalize_row_timestamp, normalize_row_quantity,
      normalize_row_price, normalize_row_client_type.
Qed.

Lemma normalize_twice df mode d mode' :
  normalize df mode = Ok d ->
  any empties d = false ->
  normalize d mode' = Ok d.
Proof.
  intros E Hclean.
  destruct (normalize_rows_invariant _ _ _ E) as [_ Hcols].
  destruct (normalize_inv _ _ _ E) as (df0 & _ & Hreq & _ & _).
  pose proof (normalize_rows_from_input _ _ _ E) as Hrows.
  assert ("timestamp"%string ∈ columns d) as Hts
    by (apply Hcols; left; by apply Forall_cons in Hreq as [? _]).
  pose proof (handle_null_timestamps_clean d mode' Hts Hclean) as Eh.
  destruct (normalize_Ok d mode' d Eh) as [d' E'].
  { apply Forall_cons in Hreq as [_ Hreq].
    eapply Forall_impl; [exact Hreq|]. intros c Hc. apply Hcols. by left. }
  rewrite E'. f_equal.
  destruct (normalize_inv _ _ _ E') as (d0 & Eh' & _ & Hcols' & _).
  pose proof (normalize_rows_from_input _ _ _ E') as Hrows'.
  rewrite decide_True in Hcols' by (apply Hcols; by right).
  destruct d as [cs rs], d' as [cs' rs']. simpl in *. f_equal; [done|].
  rewrite Hrows'. clear Hrows' E' Eh' Eh.
  assert (Forall (fun ir : Z * row =>
            empties ir.2 = false /\
            kept (normalize_row ir.2) = true /\
            with_week_start (normalize_row ir.2) = ir.2) rs) as Hall.
  { apply Forall_forall. intros ir Hin. split.
    - destruct (empties ir.2) eqn:Ee; [|done].
      assert (any empties {| columns := cs; rows := rs |} = true) as Ht
        by (apply any_true; eauto).
      congruence.
    - rewrite Hrows in Hin. apply list_elem_of_fmap in Hin as (ir0 & -> & Hin0).
      apply list_elem_of_filter in Hin0 as [[_ Hk] _]. simpl.
      destruct (normalized_row_fixed ir0.2 Hk) as [Hfix Hkept]. done. }
  clear Hrows Hclean E. induction Hall as [|[i r] rs (He & Hk & Hf) _ IH]; [done|].
  rewrite filter_cons_True by done. rewrite fmap_cons. simpl in *.
  by rewrite Hf, IH.
Qed.

End Idempotence.

(** X13.  Normalising a normalised table changes nothing: when the
    normalisation returns a table in which no timestamp prints as a blank,
    normalising that table again, under any policy, returns it as it is. *)
Theorem normalize_idempotent `{Pandas}
    (df : DataFrame) (mode : string) (d : DataFrame) (mode' : string) :
  normalize df mode = Ok d ->
  any empties d = false ->
  normalize d mode' = Ok d.
Proof. apply normalize_twice. Qed.

Lemma normalize_idempotent_witness :
  normalize (H := Example.typed) Tables.normalized4 "fill" = Ok Tables.normalized4.
Proof.
  apply (normalize_idempotent (H := Example.typed) Tables.batch4 "error");
    [reflexivity | compute_done].
Defined.

(** ** Only bronze rows reach the report *)

Lemma group_keys_snd by_cols dropna (rs rs' : list (Z * row)) :
  snd <$> rs = snd <$> rs' ->
  group_keys by_cols dropna rs = group_keys by_cols dropna rs'.
Proof.
  intros E. unfold group_keys. do 3 f_equal.
  change (fun ir : Z * row => key_of by_cols ir.2)
    with (key_of by_cols ∘ (snd : Z * row -> row)).
  by rewrite !list_fmap_compose, E.
Qed.

Lemma client_row_snd `{Pandas} (rs rs' : list (Z * row)) k :
  snd <$> rs = snd <$> rs' -> client_row rs k = client_row rs' k.
Proof. intros E. unfold client_row, group_rows. by rewrite E. Qed.

(** X14.  The top-clients report depends on the aggregate through its column
    names and its bronze rows only: two aggregates with the same columns and
    the same bronze rows in the same order give the same report or the same
    error, whatever their gold and silver rows and whatever the labels of
    their rows are. *)
Theorem top_bronze_clients_reads_bronze_only `{Pandas} (agg1 agg2 : DataFrame) :
  columns agg1 = columns agg2 ->
  snd <$> rows (select is_bronze agg1) = snd <$> rows (select is_bronze agg2) ->
  top_bronze_clients agg1 = top_bronze_clients agg2 /\
  forall out_csv fs,
    export_top_bronze_exact agg1 out_csv fs = export_top_bronze_exact agg2 out_csv fs.
Proof.
  intros Hc Hr.
  assert (top_bronze_clients agg1 = top_bronze_clients agg2) as E.
  { unfold top_bronze_clients, client_groups, require.
    rewrite !columns_select, Hc, (group_keys_snd _ _ _ _ Hr).
    rewrite (mapM_ext_in (client_row (rows (select is_bronze agg1)))
                         (client_row (rows (select is_bronze agg2)))); [done|].
    intros k _. by apply client_row_snd. }
  split; [done|]. intros out_csv fs. unfold export_top_bronze_exact. by rewrite E.
Qed.

Lemma top_bronze_clients_reads_bronze_only_witness :
  top_bronze_clients (H := Example.typed) Tables.abcd
  = top_bronze_clients (H := Example.typed) Tables.abcd_bronze_only.
Proof.
  apply (top_bronze_clients_reads_bronze_only (H := Example.typed)
           Tables.abcd Tables.abcd_bronze_only);
    [reflexivity | compute_done].
Defined.

(** ** The three largest volumes *)

Lemma top_bronze_clients_ranked `{Pandas} (agg_df : DataFrame) :
  sorts_descending ->
  "client_type"%string ∈ columns agg_df ->
  "user_id"%string ∈ columns agg_df ->
  "total_volume"%string ∈ columns agg_df ->
  "total_pnl"%string ∈ columns agg_df ->
  summable_columns agg_df ->
  exists ranked : list row,
    top_bronze_clients agg_df
    = Ok {| columns := ["user_id"; "total_volume"; "total_pnl"]%string;
            rows := range_index (take 3 ranked) |} /\
    (forall u, u ∈ users ranked <-> u <> NA /\ bronze_rows_of u agg_df <> []) /\
    Forall (fun r => r = report_row agg_df (get r "user_id")) ranked /\
    StronglySorted ranked_before ranked.
Proof.
  intros Hsort H1 H2 H3 H4 Hsum.
  pose proof (client_groups_report agg_df H1 H2 H3 H4 Hsum) as Hg.
  set (groups := (fun k => report_row agg_df (hd NA k)) <$> bronze_keys agg_df) in Hg.
  assert (Forall (fun r => exists v, get r "total_volume" = Num v) groups) as Hnum.
  { unfold groups. apply Forall_fmap, Forall_forall. intros k _. simpl.
    eexists. apply report_row_volume. }
  pose proof (sort_values_desc_Permutation Hsort "total_volume" groups Hnum) as Hp.
  exists (sort_values_desc "total_volume" groups).
  assert (users (sort_values_desc "total_volume" groups)
          ≡ₚ hd NA <$> bronze_keys agg_df) as Hu.
  { unfold users. rewrite Hp. apply reflexive_eq, users_report_rows. }
  split; [unfold top_bronze_clients; by rewrite Hg|].
  split; [intros u; rewrite Hu; apply bronze_users_elem|].
  split.
  - rewrite Hp. unfold groups.
    apply Forall_fmap, Forall_forall. intros k _. simpl.
    by rewrite report_row_user.
  - by apply sort_values_desc_ranked.
Qed.

(** X15.  When the sort of pandas sorts, whatever it does with equal
    volumes: a bronze user who is left out of the report has a total volume
    (the sum pandas computes) that is at most the total volume of every user
    in the report, and the report then has three rows. *)
Theorem top_bronze_clients_dominate `{Pandas} (agg_df top : DataFrame) (u : cell) :
  sorts_descending ->
  "client_type"%string ∈ columns agg_df ->
  "user_id"%string ∈ columns agg_df ->
  "total_volume"%string ∈ columns agg_df ->
  "total_pnl"%string ∈ columns agg_df ->
  summable_columns agg_df ->
  top_bronze_clients agg_df = Ok top ->
  u <> NA -> bronze_rows_of u agg_df <> [] ->
  u ∉ users (snd <$> rows top) ->
  length (rows top) = 3%nat /\
  Forall (fun ir : Z * row =>
            exists v, get ir.2 "total_volume" = Num v /\ (volume_of agg_df u ≤ v)%Qc)
         (rows top).
Proof.
  intros Hsort H1 H2 H3 H4 Hsum Etop Hna Hrows Hout.
  destruct (top_bronze_clients_ranked agg_df Hsort H1 H2 H3 H4 Hsum)
    as (ranked & Htop & Hin & Hrep & Hsorted).
  rewrite Htop in Etop. injection Etop as <-. cbn [rows] in *.
  rewrite range_index_snd in Hout. rewrite range_index_length.
  assert (u ∈ users ranked) as Hu by (by apply Hin).
  rewrite <- (take_drop 3 ranked) in Hu, Hsorted.
  unfold users in Hu, Hout. rewrite fmap_app, elem_of_app in Hu.
  destruct Hu as [Hu|Hu]; [done|].
  apply list_elem_of_fmap in Hu as (r2 & Hu2 & Hr2).
  assert (r2 = report_row agg_df u) as ->.
  { rewrite Hu2. rewrite Forall_forall in Hrep. apply Hrep.
    by apply (subseteq_drop 3 ranked). }
  split.
  - rewrite length_take. destruct (drop 3 ranked) eqn:Ed; [by apply not_elem_of_nil in Hr2|].
    assert (3 < length ranked)%nat; [|lia].
    destruct (decide (3 < length ranked)%nat); [done|].
    rewrite drop_ge in Ed by lia. done.
  - apply Forall_forall. intros ir Hir.
    assert (ir.2 ∈ take 3 ranked) as Hr1.
    { rewrite <- (range_index_snd (take 3 ranked)). apply list_elem_of_fmap. eauto. }
    apply StronglySorted_app in Hsorted as (Hcross & _ & _).
    destruct (Hcross _ _ Hr1 Hr2) as (v1 & v2 & Hv1 & Hv2 & Hord).
    rewrite report_row_volume in Hv2. injection Hv2 as <-.
    by exists v1.
Qed.

Lemma top_bronze_clients_dominate_witness :
  Forall (fun ir : Z * row =>
            exists v, get ir.2 "total_volume" = Num v /\
                      (volume_of (H := Example.typed) Tables.abcd (Str "D") ≤ v)%Qc)
         (rows (Tables.report [Tables.client (Str "A") 100 220;
                               Tables.client (Str "B") 50 310;
                               Tables.client (Str "C") 30 150])).
Proof.
  apply (top_bronze_clients_dominate (H := Example.typed) Tables.abcd _ (Str "D")
           typed_sorts_descending);
    compute_done.
Defined.

(** ** The run as a whole *)

Lemma export_without_pnl `{Pandas} (agg : DataFrame) (out_csv : string) (fs : FileSystem) :
  columns agg = agg_columns ->
  export_top_bronze_exact agg out_csv fs
  = Err (KeyError "Column(s) ['total_pnl'] do not exist").
Proof.
  intros Hc. unfold export_top_bronze_exact, top_bronze_clients, client_groups, require.
  rewrite !columns_select, Hc. reflexivity.
Qed.

(** X16.  With PnL disabled a run never gets past the report: when the
    trades file is read and the transform returns an aggregate, the
    aggregate is loaded into the database and the run then fails with the
    [KeyError] of the missing column [total_pnl]; no report and no chart is
    written and nothing is printed. *)
Theorem run_etl_without_pnl_fails_at_report `{Pandas} `{M : Matplotlib}
    (data_path db_path table out_top chart_weekly_path chart_symbols_path : string)
    (null_ts_mode : string) (w : World) (raw agg : DataFrame) :
  extract (files w) data_path = Ok raw ->
  transform raw false null_ts_mode = Ok agg ->
  run_etl data_path db_path table out_top chart_weekly_path chart_symbols_path
          false null_ts_mode w
  = ({| files := files w;
        databases := load agg db_path table (databases w);
        images := images w;
        stdout := stdout w |},
     Failed (Raised (KeyError "Column(s) ['total_pnl'] do not exist"))).
Proof.
  intros Ee Et. unfold run_etl. rewrite Ee, Et. cbn [files].
  apply transform_without_pnl in Et as [Hc _].
  by rewrite export_without_pnl.
Qed.

Lemma run_etl_without_pnl_fails_at_report_witness :
  run_etl (H := Example.typed) (M := Runs.blank)
          "data/trades.csv" "output/agg_result.db" "agg_trades_weekly"
          "output/top_clients" "output/weekly_volume.png"
          "output/symbols_total_volume.png" false "error" Runs.start
  = ({| files := Tables.disk;
        databases := load Tables.weekly4_no_pnl "output/agg_result.db"
                          "agg_trades_weekly" ∅;
        images := ∅;
        stdout := [] |},
     Failed (Raised (KeyError "Column(s) ['total_pnl'] do not exist"))).
Proof.
  apply (run_etl_without_pnl_fails_at_report (H := Example.typed) (M := Runs.blank)
           _ _ _ _ _ _ _ Runs.start Runs.raw4 Tables.weekly4_no_pnl);
    compute_done.
Defined.

(** X17.  With [--no-pnl] the program never returns normally, whatever the
    other options and whatever is on disk: it fails in the extraction, in
    the transform or in the report.  It writes no report and no chart and
    prints nothing; the database is the one thing it may have written. *)
Theorem main_no_pnl_never_returns `{Pandas} `{M : Matplotlib}
    (args : Args) (w : World) :
  no_pnl args = true ->
  exists w' e,
    main args w = (w', Failed (Raised e)) /\
    files w' = files w /\ images w' = images w /\ stdout w' = stdout w /\
    (databases w' = databases w \/
     exists agg, columns agg = agg_columns /\
                 databases w' = load agg (db args) (table args) (databases w)).
Proof.
  intros Hno. unfold main. rewrite Hno. cbn [negb].
  destruct (extract (files w) (data args)) as [raw|e] eqn:Ee.
  - destruct (transform raw false (null_timestamp args)) as [agg|e] eqn:Et.
    + unfold run_etl. rewrite Ee, Et. cbn [files].
      apply transform_without_pnl in Et as [Hc _].
      rewrite export_without_pnl by done.
      eexists _, _. split; [done|]. cbn. repeat split; try done.
      right. by exists agg.
    + unfold run_etl. rewrite Ee, Et. eexists _, _. split; [done|]. auto.
  - unfold run_etl. rewrite Ee. eexists _, _. split; [done|]. auto.
Qed.

Lemma aggregate_with_pnl `{Pandas} (df agg : DataFrame) :
  "cashflow"%string ∈ columns df ->
  aggregate df true = Ok agg ->
  columns agg = agg_columns ++ ["total_pnl"%string] /\ summable_columns agg.
Proof.
  intros Hc E. split.
  - unfold aggregate in E.
    destruct (mapM (require df) group_cols); [|done].
    destruct (mapM (require df) agg_inputs); [|done].
    destruct (mapM (weekly_row (rows df)) _) as [rs|]; [|done].
    cbn [mbind Result_bind andb] in E. rewrite bool_decide_eq_true_2 in E by done.
    destruct (mapM (pnl_row (rows df)) _) as [pnl|]; [|done].
    cbn [mbind Result_bind] in E. by injection E as <-.
  - destruct (aggregate_rows _ _ _ E) as (rs & Hrs & Hagg).
    unfold summable_columns. apply Forall_forall. intros ir Hir. split.
    + assert (ir.2 ∈ snd <$> rows agg) as Hin by (apply list_elem_of_fmap; eauto).
      apply list_elem_of_lookup in Hin as [i Hi].
      destruct (Forall2_lookup_r _ _ _ _ _ Hagg Hi) as (r & Hr & Hget).
      destruct (Forall2_lookup_r _ _ _ _ _ Hrs Hr) as (k & _ & Hk).
      apply weekly_row_fields in Hk as [Hv _].
      by rewrite Hget, Hv.
    + pose proof (aggregate_total_pnl df agg Hc E ir Hir) as Hp.
      destruct (has_na _).
      * by rewrite Hp.
      * apply agg_sum_inv in Hp. by rewrite Hp.
Qed.

Lemma transform_with_pnl `{Pandas} (df : DataFrame) (mode : string) (agg : DataFrame) :
  transform df true mode = Ok agg ->
  columns agg = agg_columns ++ ["total_pnl"%string] /\ summable_columns agg.
Proof.
  unfold transform. intros E.
  destruct (normalize df mode) as [d|]; cbn [mbind Result_bind] in E; [|done].
  destruct (add_cashflow true d) as [d'|] eqn:Ed;
    cbn [mbind Result_bind] in E; [|done].
  apply aggregate_with_pnl in E; [done|].
  by apply (add_cashflow_inv _ _ _ Ed).
Qed.

Lemma top_bronze_clients_Ok `{Pandas} (agg : DataFrame) :
  columns agg = agg_columns ++ ["total_pnl"%string] ->
  summable_columns agg ->
  exists top,
    top_bronze_clients agg = Ok top /\
    columns top = ["user_id"; "total_volume"; "total_pnl"]%string /\
    (length (rows top) <= 3)%nat.
Proof.
  intros Hc Hsum. unfold top_bronze_clients.
  rewrite client_groups_report by (done || (rewrite Hc; compute_done)).
  cbn [mbind Result_bind]. eexists. split; [done|]. split; [done|].
  cbn [rows]. rewrite range_index_length, length_take. lia.
Qed.

(** X18.  With PnL enabled, a trades file with the seven required columns
    in which no row lacks its side takes the run as far as the charts,
    provided no timestamp is null or blank or the policy is "drop": the
    transform returns an aggregate, the aggregate is in the database, and
    the report, of at most three rows, is in the file [out_top] with ".csv"
    appended.  What is left is the two charts and the summary. *)
Theorem run_etl_reaches_the_charts `{Pandas} `{M : Matplotlib}
    (data_path db_path table out_top chart_weekly_path chart_symbols_path : string)
    (null_ts_mode : string) (w : World) (raw : DataFrame) :
  extract (files w) data_path = Ok raw ->
  Forall (fun c => c ∈ columns raw) req ->
  any empties raw = false \/ null_ts_mode = "drop"%string ->
  Forall (fun ir : Z * row => get ir.2 "side" <> NA) (rows raw) ->
  exists agg top,
    transform raw true null_ts_mode = Ok agg /\
    top_bronze_clients agg = Ok top /\
    (length (rows top) <= 3)%nat /\
    run_etl data_path db_path table out_top chart_weekly_path chart_symbols_path
            true null_ts_mode w
    = charts_and_summary agg db_path table out_top chart_weekly_path
        chart_symbols_path
        {| files := <[out_top +:+ ".csv" := top]> (files w);
           databases := load agg db_path table (databases w);
           images := images w;
           stdout := stdout w |}.
Proof.
  intros Ee Hreq Hmode Hside.
  destruct (transform raw true null_ts_mode) as [agg|e] eqn:Et.
  - destruct (transform_with_pnl _ _ _ Et) as [Hc Hsum].
    destruct (top_bronze_clients_Ok agg Hc Hsum) as (top & Etop & _ & Hlen).
    exists agg, top. repeat split; try done.
    unfold run_etl. rewrite Ee, Et. cbn [files].
    unfold export_top_bronze_exact. by rewrite Etop.
  - exfalso.
    destruct (normalize_total raw null_ts_mode Hreq Hmode) as [d En].
    destruct (aggregate_normalized_Ok raw null_ts_mode d true En)
      as (d' & agg & Ed & Eagg).
    { rewrite Forall_forall in Hreq. apply Hreq. compute_done. }
    { intros _. by apply (normalize_keeps_side raw null_ts_mode). }
    unfold transform in Et. rewrite En in Et. cbn [mbind Result_bind] in Et.
    rewrite Ed in Et. cbn [mbind Result_bind] in Et. congruence.
Qed.

Lemma sort_values_desc_nil `{Pandas} c : sort_values_desc c [] = [].
Proof.
  unfold sort_values_desc. induction (argsort_desc _) as [|i l IH]; [done|].
  cbn [omap list_omap]. by rewrite lookup_nil.
Qed.

Lemma top_bronze_clients_of_nothing `{Pandas} :
  top_bronze_clients {| columns := agg_columns ++ ["total_pnl"%string]; rows := [] |}
  = Ok {| columns := ["user_id"; "total_volume"; "total_pnl"]%string; rows := [] |}.
Proof.
  unfold top_bronze_clients.
  assert (client_groups
            {| columns := agg_columns ++ ["total_pnl"%string]; rows := [] |}
          = Ok []) as -> by reflexivity.
  cbn [mbind Result_bind]. by rewrite sort_values_desc_nil.
Qed.

(** X19.  When the transform with PnL returns an aggregate without rows,
    the run returns normally: the database table is there with no rows, the
    report holds its header only, no chart is written, and the summary is
    printed all the same, with "Charts saved to:" and the paths of the two
    charts. *)
Theorem run_etl_on_an_empty_aggregate `{Pandas} `{M : Matplotlib}
    (data_path db_path table out_top chart_weekly_path chart_symbols_path : string)
    (null_ts_mode : string) (w : World) (raw agg : DataFrame) :
  extract (files w) data_path = Ok raw ->
  transform raw true null_ts_mode = Ok agg ->
  rows agg = [] ->
  run_etl data_path db_path table out_top chart_weekly_path chart_symbols_path
          true null_ts_mode w
  = ({| files := <[out_top +:+ ".csv" :=
                     {| columns := ["user_id"; "total_volume"; "total_pnl"]%string;
                        rows := [] |}]> (files w);
        databases :=
          <[db_path := <[table := {| sql_columns := agg_columns ++ ["total_pnl"%string];
                                     sql_rows := [] |}]>
                         (default ∅ (databases w !! db_path))]> (databases w);
        images := images w;
        stdout := stdout w ++
          ["Loaded 0 rows into " +:+ db_path +:+ ":" +:+ table;
           "Top-3 bronze reports at " +:+ out_top +:+ ".csv/.xlsx";
           "Charts saved to:";
           "  - " +:+ chart_weekly_path;
           "  - " +:+ chart_symbols_path] |},
     Returned).
Proof.
  intros Ee Et Hrows.
  destruct (transform_with_pnl _ _ _ Et) as [Hc _].
  destruct agg as [cs rs]. cbn [columns rows] in Hc, Hrows. subst cs rs.
  unfold run_etl. rewrite Ee, Et. cbn [files databases images stdout].
  unfold export_top_bronze_exact. rewrite top_bronze_clients_of_nothing.
  cbn [mbind Result_bind].
  unfold charts_and_summary, plot_weekly_volume, plot_symbols_total_volume, is_empty.
  cbn [rows]. rewrite !bool_decide_eq_true_2 by (by left).
  unfold println. cbn [files databases images stdout length].
  rewrite <- !app_assoc. reflexivity.
Qed.

Lemma run_etl_on_an_empty_aggregate_witness :
  run_etl (H := Example.typed) (M := Runs.blank)
          "data/trades.csv" "output/agg_result.db" "agg_trades_weekly"
          "output/top_clients" "output/weekly_volume.png"
          "output/symbols_total_volume.png" true "error" Runs.start_platinum
  = ({| files := <["output/top_clients.csv"%string :=
                     {| columns := ["user_id"; "total_volume"; "total_pnl"]%string;
                        rows := [] |}]> {[ "data/trades.csv"%string := Runs.platinum ]};
        databases :=
          {[ "output/agg_result.db"%string :=
               {[ "agg_trades_weekly"%string :=
                    {| sql_columns := agg_columns ++ ["total_pnl"%string];
                       sql_rows := [] |} ]} ]};
        images := ∅;
        stdout :=
          ["Loaded 0 rows into output/agg_result.db:agg_trades_weekly";
           "Top-3 bronze reports at output/top_clients.csv/.xlsx";
           "Charts saved to:";
           "  - output/weekly_volume.png";
           "  - output/symbols_total_volume.png"]%string |},
     Returned).
Proof.
  apply (run_etl_on_an_empty_aggregate (H := Example.typed) (M := Runs.blank)
           "data/trades.csv" "output/agg_result.db" "agg_trades_weekly"
           "output/top_clients" "output/weekly_volume.png"
           "output/symbols_total_volume.png" "error" Runs.start_platinum
           (Tables.aggregate_of (extract (files Runs.start_platinum) "data/trades.csv"))
           {| columns := agg_columns ++ ["total_pnl"%string]; rows := [] |});
    compute_done.
Defined.

Lemma run_etl_reaches_the_charts_witness :
  exists agg top,
    transform (H := Example.typed) Runs.raw4 true "error" = Ok agg /\
    top_bronze_clients (H := Example.typed) agg = Ok top /\
    (length (rows top) <= 3)%nat /\
    run_etl (H := Example.typed) (M := Runs.blank)
            "data/trades.csv" "output/agg_result.db" "agg_trades_weekly"
            "output/top_clients" "output/weekly_volume.png"
            "output/symbols_total_volume.png" true "error" Runs.start
    = charts_and_summary agg "output/agg_result.db" "agg_trades_weekly"
        "output/top_clients" "output/weekly_volume.png"
        "output/symbols_total_volume.png"
        {| files := <["output/top_clients.csv"%string := top]> Tables.disk;
           databases := load agg "output/agg_result.db" "agg_trades_weekly" ∅;
           images := ∅;
           stdout := [] |}.
Proof.
  apply (run_etl_reaches_the_charts (H := Example.typed) (M := Runs.blank)
           "data/trades.csv" "output/agg_result.db" "agg_trades_weekly"
           "output/top_clients" "output/weekly_volume.png"
           "output/symbols_total_volume.png" "error" Runs.start Runs.raw4).
  - compute_done.
  - repeat constructor; compute_done.
  - left. compute_done.
  - repeat constructor; compute_done.
Defined.

Lemma main_no_pnl_never_returns_witness :
  exists w' e,
    main (H := Example.typed) (M := Runs.blank) Runs.no_pnl_args Runs.start
    = (w', Failed (Raised e)) /\
    files w' = files Runs.start /\ images w' = images Runs.start /\
    stdout w' = stdout Runs.start /\
    (databases w' = databases Runs.start \/
     exists agg, columns agg = agg_columns /\
                 databases w' = load agg (db Runs.no_pnl_args) (table Runs.no_pnl_args)
                                     (databases Runs.start)).
Proof.
  apply (main_no_pnl_never_returns (H := Example.typed) (M := Runs.blank)
           Runs.no_pnl_args Runs.start).
  reflexivity.
Defined.

(** ** The database after a load *)

(** X20.  [load] puts the table in the place of a table of the same name in
    the same database, whatever that table held, and leaves every other
    table of every database as it was; the table holds the columns of the
    frame and its rows in their order, and the labels of the rows are not
    stored. *)
Theorem load_replaces_table (df df' : DataFrame) (db_path table : string)
    (dbs : Databases) :
  table_at (load df db_path table dbs) db_path table = Some (to_sql df) /\
  (forall db_path' table',
     (db_path', table') <> (db_path, table) ->
     table_at (load df db_path table dbs) db_path' table' = table_at dbs db_path' table') /\
  load df db_path table (load df' db_path table dbs) = load df db_path table dbs /\
  load {| columns := columns df; rows := range_index (snd <$> rows df) |}
       db_path table dbs
  = load df db_path table dbs.
Proof.
  unfold table_at, load. repeat split.
  - rewrite lookup_insert_eq. cbn. by rewrite lookup_insert_eq.
  - intros db_path' table' Hne.
    destruct (decide (db_path' = db_path)) as [->|Hdb].
    + rewrite lookup_insert_eq. cbn.
      rewrite lookup_insert_ne by congruence.
      by destruct (dbs !! db_path).
    + by rewrite lookup_insert_ne.
  - rewrite lookup_insert_eq. cbn [default from_option id].
    by rewrite insert_insert_eq, insert_insert_eq.
  - do 2 f_equal. unfold to_sql. cbn [columns rows]. f_equal.
    set (g := fun r : row => filter (fun kv : string * cell => kv.1 ∈ columns df) r).
    change ((g ∘ snd) <$> range_index (snd <$> rows df) = (g ∘ snd) <$> rows df).
    by rewrite !list_fmap_compose, range_index_snd.
Qed.
